(** * BtcSwap: the Bitcoin leg of the atomic swap engine

    A shallow embedding of [src/swap.swaps/BtcSwap.js].  Every method of
    the class is a Rocq function of the same name.  The collaborators the
    class receives from outside (the bitcoin library reached through
    [this.app.env.bitcoin], the key ring, the chain gateway callbacks of
    the constructor's [options]) are fields of records, so every theorem
    holds for all of them. *)

From Stdlib Require Import ZArith QArith Qround Qminmax Qpower Bool List String
  Ascii DecimalString Lia Lqa.
From Stdlib Require DecimalFacts DecimalPos Qcanon.
Import ListNotations.

Local Open Scope Z_scope.
Local Open Scope string_scope.

(* ===================================================================== *)
(** ** JavaScript strings *)
(* ===================================================================== *)

(** Strings are byte strings; the case conversions act on the ASCII
    letters, which is what [String.prototype.toUpperCase] and
    [toLowerCase] do on the hexadecimal, base58 and opcode names the
    class handles. *)
Module JsString.

Definition is_lower (c : ascii) : bool :=
  ((97 <=? N_of_ascii c) && (N_of_ascii c <=? 122))%N.

Definition is_upper (c : ascii) : bool :=
  ((65 <=? N_of_ascii c) && (N_of_ascii c <=? 90))%N.

Definition upper_char (c : ascii) : ascii :=
  if is_lower c then ascii_of_N (N_of_ascii c - 32) else c.

Definition lower_char (c : ascii) : ascii :=
  if is_upper c then ascii_of_N (N_of_ascii c + 32) else c.

Fixpoint map (f : ascii -> ascii) (s : string) : string :=
  match s with
  | EmptyString => EmptyString
  | String c r => String (f c) (map f r)
  end.

Definition toUpperCase : string -> string := map upper_char.
Definition toLowerCase : string -> string := map lower_char.

(** [s.includes(pat)]. *)
Fixpoint includes (pat s : string) : bool :=
  prefix pat s ||
  match s with
  | EmptyString => false
  | String _ r => includes pat r
  end.

(** [/pat/.test(s)] for a pattern without metacharacters. *)
Definition RegExp_test (pat s : string) : bool := includes pat s.

(** [s.replace(/^0x/, '')]. *)
Definition strip_0x (s : string) : string :=
  match s with
  | String "0" (String "x" r) => r
  | _ => s
  end.

(** A template literal [`${n}`] for an integer [n]. *)
Definition of_Z (n : Z) : string := NilZero.string_of_int (Z.to_int n).

(** A decimal digit, or the minus sign: what [of_Z] writes. *)
Definition numeric (c : ascii) : Prop :=
  (48 <= N_of_ascii c <= 57)%N \/ c = "-"%char.

(** Truthiness of a string: everything but [''] . *)
Definition truthy (s : string) : bool :=
  match s with EmptyString => false | _ => true end.

End JsString.

(* ===================================================================== *)
(** ** Buffers *)
(* ===================================================================== *)

Definition bytes := list Byte.byte.

Module Buffer.

Definition hex_digit (c : ascii) : option N :=
  let n := N_of_ascii c in
  if ((48 <=? n) && (n <=? 57))%N then Some (n - 48)%N
  else if ((97 <=? n) && (n <=? 102))%N then Some (n - 87)%N
  else if ((65 <=? n) && (n <=? 70))%N then Some (n - 55)%N
  else None.

(** [Buffer.from(s, 'hex')]: pairs of hexadecimal digits, up to the
    first pair that is not one. *)
Fixpoint from_hex (s : string) : bytes :=
  match s with
  | String a (String b r) =>
      match hex_digit a, hex_digit b with
      | Some h, Some l =>
          byte_of_ascii (ascii_of_N (16 * h + l)) :: from_hex r
      | _, _ => []
      end
  | _ => []
  end.

End Buffer.

(* ===================================================================== *)
(** ** BigNumber *)
(* ===================================================================== *)

(** bignumber.js values are exact decimals; they are embedded as rationals.
    Only the methods the class calls are given.  The library's settings
    are the ones it ships with, the class changes none of them: a
    quotient keeps [DECIMAL_PLACES] decimal places, the last one rounded
    with [ROUNDING_MODE].  [dividedBy] is only meant for a divisor other
    than 0.  [toNumber] leaves the decimals for the doubles of the
    runtime; it is a field of [App] below. *)
Module BigNumber.

Definition t := Q.

Inductive RoundingMode :=
| ROUND_UP | ROUND_DOWN | ROUND_CEIL | ROUND_FLOOR | ROUND_HALF_UP.

(** [BigNumber.config().ROUNDING_MODE], 4 unless configured. *)
Definition ROUNDING_MODE : RoundingMode := ROUND_HALF_UP.

Definition round (rm : RoundingMode) (x : Q) : Z :=
  match rm with
  | ROUND_UP => if Qle_bool 0%Q x then Qceiling x else Qfloor x
  | ROUND_DOWN => if Qle_bool 0%Q x then Qfloor x else Qceiling x
  | ROUND_CEIL => Qceiling x
  | ROUND_FLOOR => Qfloor x
  | ROUND_HALF_UP =>
      if Qle_bool 0%Q x then Qfloor (x + (1 # 2))%Q else Qceiling (x - (1 # 2))%Q
  end.

Definition multipliedBy (x y : Q) : Q := Qred (x * y)%Q.

(** [BigNumber.config().DECIMAL_PLACES], 20 unless configured. *)
Definition DECIMAL_PLACES : Z := 20.

(** [x.dividedBy(y)]: the quotient with [DECIMAL_PLACES] decimal places,
    rounded with [ROUNDING_MODE]. *)
Definition dividedBy (x y : Q) : Q :=
  Qred (inject_Z (round ROUNDING_MODE
                    (x / y * inject_Z (10 ^ DECIMAL_PLACES))%Q)
        / inject_Z (10 ^ DECIMAL_PLACES))%Q.

(** [x.integerValue()], no rounding mode passed. *)
Definition integerValue (x : Q) : Z := round ROUNDING_MODE x.

(** [x.dp(0, rm)]. *)
Definition dp0 (rm : RoundingMode) (x : Q) : Z := round rm x.

Definition isLessThan (x y : Q) : bool := negb (Qle_bool y x).
Definition isGreaterThan (x y : Q) : bool := negb (Qle_bool x y).
Definition isGreaterThanOrEqualTo (x y : Q) : bool := Qle_bool y x.

(** The literal [1e8]. *)
Definition _1e8 : Q := inject_Z 100000000.

End BigNumber.

(** Truthiness of a number: everything but [0]. *)
Definition Number_truthy (x : Q) : bool := negb (Qeq_bool x 0%Q).

(* ===================================================================== *)
(** ** The bitcoin library and the application, as the class sees them *)
(* ===================================================================== *)

Inductive Network := bitcoin | testnet.

(** An element of the array given to [script.compile]: an opcode taken
    from the [opcodes] table ([None] when the table has no such name) or
    a buffer to push. *)
Inductive chunk :=
| Opcode (code : option Z)
| Push (data : bytes).

Record TxInput := {
  in_txid : string;
  in_vout : Z;
  in_sequence : option Z;         (* third argument of [addInput] *)
  in_script : option bytes        (* set by signing *)
}.

Record TxOutput := {
  out_address : string;
  out_value : Z
}.

(** What a [TransactionBuilder] has been told so far; [buildIncomplete]
    hands the same content over as a [Transaction]. *)
Record Transaction := {
  tx_locktime : Z;
  tx_ins : list TxInput;
  tx_outs : list TxOutput
}.

(** A thrown value: its [message] and, for an error of the gateway's
    HTTP client, [res.text]. *)
Record JsError := {
  message : string;
  res_text : option string
}.

(** [new Error(msg)]. *)
Definition Error (msg : string) : JsError :=
  {| message := msg; res_text := None |}.

(** How a call ends: it returns or it throws. *)
Inductive completion (A : Type) :=
| Normal (a : A)
| Throw (e : JsError).
Arguments Normal {A} a.
Arguments Throw {A} e.

(** A call the class makes on a [TransactionBuilder] that the library may
    refuse. *)
Inductive BuilderCall :=
| SetLockTime (locktime : Z)
| AddInput (txid : string) (vout : Z) (sequence : option Z)
| AddOutput (address : string) (value : Z).

(** [this.app]: the bitcoin library under [app.env.bitcoin], the account
    under [app.services.auth.accounts.btc] and the numbers of the
    runtime. *)
Record App := {
  isMainNet : bool;
  (** [bitcoin.opcodes[name]] *)
  opcodes : string -> option Z;
  (** [bitcoin.script.compile(chunks)] *)
  script_compile : list chunk -> bytes;
  (** [bitcoin.script.number.encode(n)] *)
  script_number_encode : Z -> bytes;
  (** [bitcoin.payments.p2sh({ redeem: { output, network }, network }).address] *)
  p2sh_address : Network -> bytes -> string;
  (** [bitcoin.payments.p2sh({ network, redeem: { network, output, input } }).input] *)
  p2sh_input : Network -> bytes -> bytes -> bytes;
  (** [signature.encode(privKey.sign(txRaw.hashForSignature(index, script,
      SIGHASH_ALL)), SIGHASH_ALL)] with the account's private key *)
  sign_hashForSignature : Transaction -> nat -> bytes -> bytes;
  (** the script that [tx.sign(index, account)] leaves on input [index] *)
  builder_sign : Transaction -> nat -> bytes;
  (** [bitcoin.address.toOutputScript(address, network)], [None] when it
      throws: the address does not decode for the network *)
  toOutputScript : Network -> string -> option bytes;
  (** what the library throws when it refuses a call on a builder *)
  builder_error : BuilderCall -> JsError;
  (** [accounts.btc.getAddress()] and [getPublicKeyBuffer()] *)
  getAddress : string;
  getPublicKeyBuffer : bytes;
  (** [txRaw.toHex()] and [txRaw.getId()] *)
  toHex : Transaction -> string;
  getId : Transaction -> string;
  (** how the runtime prints a number that is not an integer *)
  Number_toString : Q -> string;
  (** [x.toNumber()] as [BigNumber] reads it back: the double nearest to
      the decimal [x], by the decimal the runtime writes it with *)
  toNumber : Q -> Q
}.

(** [_initSwap]: the network of the application. *)
Definition network (app : App) : Network :=
  if isMainNet app then bitcoin else testnet.

(** The [TransactionBuilder] of bitcoinjs-lib, created with
    [new TransactionBuilder(this.network)].  A call that the library
    refuses throws and leaves the builder as it was. *)
Module TransactionBuilder.

(** [types.UInt32]. *)
Definition UInt32 (n : Z) : bool := ((0 <=? n) && (n <=? 4294967295))%Z.

(** [types.Satoshi]: at most 21 * 1e14. *)
Definition SATOSHI_MAX : Z := 2100000000000000.
Definition Satoshi (v : Z) : bool := ((0 <=? v) && (v <=? SATOSHI_MAX))%Z.

(** [types.Hash256bit]: a buffer of 32 bytes. *)
Definition Hash256bit (b : bytes) : bool := Nat.eqb (List.length b) 32.

(** [Transaction.isCoinbaseHash]: nothing but zero bytes. *)
Definition isCoinbaseHash (b : bytes) : bool :=
  forallb (fun x => if Byte.byte_eq_dec x Byte.x00 then true else false) b.

Definition bytes_eqb (x y : bytes) : bool :=
  if list_eq_dec Byte.byte_eq_dec x y then true else false.

(** Whether [sign] has left a signature on some input; the builder then
    refuses to be changed. *)
Definition signed (tx : Transaction) : bool :=
  existsb (fun i => match in_script i with Some _ => true | None => false end)
    (tx_ins tx).

(** The entry of [__PREV_TX_SET] an input stands for: the bytes of its
    transaction id and its index. *)
Definition same_outpoint (hash : bytes) (vout : Z) (i : TxInput) : bool :=
  bytes_eqb (Buffer.from_hex (in_txid i)) hash && (in_vout i =? vout)%Z.

(** [new TransactionBuilder(network)]: nothing added, lock time 0. *)
Definition new : Transaction :=
  {| tx_locktime := 0; tx_ins := []; tx_outs := [] |}.

Definition with_lockTime (locktime : Z) (tx : Transaction) : Transaction :=
  {| tx_locktime := locktime; tx_ins := tx_ins tx; tx_outs := tx_outs tx |}.

Definition with_input (txid : string) (vout : Z) (sequence : option Z)
    (tx : Transaction) : Transaction :=
  {| tx_locktime := tx_locktime tx;
     tx_ins := tx_ins tx ++
       [{| in_txid := txid; in_vout := vout;
           in_sequence := sequence; in_script := None |}];
     tx_outs := tx_outs tx |}.

Definition with_output (address : string) (value : Z)
    (tx : Transaction) : Transaction :=
  {| tx_locktime := tx_locktime tx;
     tx_ins := tx_ins tx;
     tx_outs := tx_outs tx ++
       [{| out_address := address; out_value := value |}] |}.

(** [tx.setLockTime(locktime)]: the lock time has to be a [UInt32]. *)
Definition setLockTime (a : App) (locktime : Z) (tx : Transaction)
    : completion Transaction :=
  if UInt32 locktime && negb (signed tx)
  then Normal (with_lockTime locktime tx)
  else Throw (builder_error a (SetLockTime locktime)).

(** [tx.addInput(txid, vout, sequence)] with [txid] a string: the
    transaction id has to be the hexadecimal form of 32 bytes that are
    not all zero, [vout] and a [sequence] that is passed have to be
    [UInt32], and the outpoint must not have been added before. *)
Definition addInput (a : App) (txid : string) (vout : Z) (sequence : option Z)
    (tx : Transaction) : completion Transaction :=
  let hash := Buffer.from_hex txid in
  if negb (signed tx)
     && Hash256bit hash && negb (isCoinbaseHash hash)
     && negb (existsb (same_outpoint hash vout) (tx_ins tx))
     && UInt32 vout
     && match sequence with Some n => UInt32 n | None => true end
  then Normal (with_input txid vout sequence tx)
  else Throw (builder_error a (AddInput txid vout sequence)).

(** [tx.addOutput(address, value)] with [address] a string: the address
    has to decode for the network of the builder and the value has to be
    a [Satoshi]. *)
Definition addOutput (a : App) (address : string) (value : Z)
    (tx : Transaction) : completion Transaction :=
  if negb (signed tx)
     && match toOutputScript a (network a) address with
        | Some _ => true
        | None => false
        end
     && Satoshi value
  then Normal (with_output address value tx)
  else Throw (builder_error a (AddOutput address value)).

Definition set_script (s : bytes) (i : TxInput) : TxInput :=
  {| in_txid := in_txid i; in_vout := in_vout i;
     in_sequence := in_sequence i; in_script := Some s |}.

Fixpoint update_nth (n : nat) (f : TxInput -> TxInput)
    (l : list TxInput) : list TxInput :=
  match l, n with
  | [], _ => []
  | i :: r, O => f i :: r
  | i :: r, S m => i :: update_nth m f r
  end.

(** [setInputScript(index, script)], also the effect of [sign]. *)
Definition setInputScript (index : nat) (s : bytes)
    (tx : Transaction) : Transaction :=
  {| tx_locktime := tx_locktime tx;
     tx_ins := update_nth index (set_script s) (tx_ins tx);
     tx_outs := tx_outs tx |}.

Definition buildIncomplete (tx : Transaction) : Transaction := tx.

End TransactionBuilder.

(* ===================================================================== *)
(** ** Effects: thrown errors, the mutable [feeValue] field, the gateway *)
(* ===================================================================== *)

(** What the class does to the outside world, most recent first. *)
Inductive event :=
| Broadcast (txHex : string)            (* [this.broadcastTx(txHex)] *)
| WaitDelay (delay : Z)                 (* [util.helpers.waitDelay(delay)] *)
| TransactionHash (txid : string).      (* [handleTransactionHash(txid)] *)

Record State := {
  feeValue : Q;                         (* [this.feeValue] *)
  history : list event
}.

(** An [async] method body: it reads and writes the state and either
    returns or throws.  What was done before a throw stays done. *)
Definition M (A : Type) : Type := State -> completion A * State.

Definition ret {A} (a : A) : M A := fun st => (Normal a, st).

Definition throw {A} (e : JsError) : M A := fun st => (Throw e, st).

(** A call of the library inside a method: it touches no state. *)
Definition lift {A} (c : completion A) : M A := fun st => (c, st).

Definition bind {A B} (m : M A) (k : A -> M B) : M B :=
  fun st =>
    match m st with
    | (Normal a, st') => k a st'
    | (Throw e, st') => (Throw e, st')
    end.

(** [try { m } catch (err) { handler err }]. *)
Definition try_catch {A} (m : M A) (handler : JsError -> M A) : M A :=
  fun st =>
    match m st with
    | (Normal a, st') => (Normal a, st')
    | (Throw e, st') => handler e st'
    end.

Notation "x <- m ;; k" := (bind m (fun x => k))
  (at level 61, m at next level, right associativity).
Notation "m ;;; k" := (bind m (fun _ => k))
  (at level 61, right associativity).

Definition set_feeValue (fee : Q) : M unit :=
  fun st => (Normal tt, {| feeValue := fee; history := history st |}).

Definition emit (ev : event) : M unit :=
  fun st => (Normal tt, {| feeValue := feeValue st; history := ev :: history st |}).

(** A callback of the constructor's [options]: an answer, or a rejection,
    that may depend on what has been done so far. *)
Definition Callback (A B : Type) : Type := list event -> A -> completion B.

Definition call {A B} (f : Callback A B) (a : A) : M B :=
  fun st => (f (history st) a, st).

Fixpoint mapM {A B} (f : A -> M B) (l : list A) : M (list B) :=
  match l with
  | [] => ret []
  | x :: r => y <- f x ;; ys <- mapM f r ;; ret (y :: ys)
  end.

(** How a promise built with [new Promise(async (resolve, reject) => ...)]
    settles. *)
Inductive RejectReason :=
| ReasonString (s : string)
| ReasonError (e : JsError).

Inductive Settled (A : Type) :=
| Resolved (a : A)
| Rejected (reason : RejectReason).
Arguments Resolved {A} a.
Arguments Rejected {A} reason.

(** The executor's [try] block decides how the promise settles; its
    [catch] block rejects with [on_error err]. *)
Definition executor {A} (body : M (Settled A))
    (on_error : JsError -> RejectReason) : State -> Settled A * State :=
  fun st =>
    match body st with
    | (Normal s, st') => (s, st')
    | (Throw e, st') => (Rejected (on_error e), st')
    end.

(* ===================================================================== *)
(** ** Data *)
(* ===================================================================== *)

Record ScriptValues := {
  secretHash : string;
  ownerPublicKey : string;
  recipientPublicKey : string;
  lockTime : Z
}.

Record Unspent := {
  txid : string;
  vout : Z;
  satoshis : Z;
  confirmations : option Z
}.

Record TxInfo := {
  info_txid : option string;
  senderAddress : option string;
  fees : option Q;
  size : option Z
}.

(** The argument of [estimateFeeValue]. *)
Record FeeRequest := {
  req_inSatoshis : bool;
  req_address : option string;
  req_speed : string;
  req_method : string
}.

(** What [checkWithdraw] reports. *)
Record WithdrawInfo := {
  wd_address : string;
  wd_txid : string
}.

Record Options := {
  opt_fetchBalance : option (Callback string Z);
  opt_fetchUnspents : option (Callback string (list Unspent));
  opt_broadcastTx : option (Callback string string);
  opt_checkWithdraw : option (Callback string (option WithdrawInfo));
  opt_feeValue : option Q;
  opt_fetchTxInfo : option (Callback string (option TxInfo));
  opt_estimateFeeValue : option (Callback FeeRequest Q)
}.

(** The fields of an instance that never change; [feeValue] is in the
    [State]. *)
Record BtcSwap := {
  app : App;
  fetchBalance : Callback string Z;
  fetchUnspents : Callback string (list Unspent);
  broadcastTx : Callback string string;
  checkWithdraw : option (Callback string (option WithdrawInfo));
  fetchTxInfo : Callback string (option TxInfo);
  estimateFeeValue : Callback FeeRequest Q
}.

(** A name between double quotes. *)
Definition quoted (name : string) : string :=
  String (ascii_of_nat 34) name ++ String (ascii_of_nat 34) EmptyString.

(** [new BtcSwap(options)] followed by [_initSwap(app)]. *)
Definition constructor (options : Options) (app0 : App)
    : completion (BtcSwap * State) :=
  match opt_fetchBalance options with
  | None => Throw (Error ("BtcSwap: " ++ quoted "fetchBalance" ++ " required"))
  | Some fb =>
  match opt_fetchUnspents options with
  | None => Throw (Error ("BtcSwap: " ++ quoted "fetchUnspents" ++ " required"))
  | Some fu =>
  match opt_broadcastTx options with
  | None => Throw (Error ("BtcSwap: " ++ quoted "broadcastTx" ++ " required"))
  | Some bt =>
      Normal
        ({| app := app0;
            fetchBalance := fb;
            fetchUnspents := fu;
            broadcastTx := bt;
            checkWithdraw := opt_checkWithdraw options;
            fetchTxInfo :=
              match opt_fetchTxInfo options with
              | Some f => f
              | None => fun _ _ => Normal None
              end;
            estimateFeeValue :=
              match opt_estimateFeeValue options with
              | Some f => f
              | None => fun _ _ => Normal 0%Q
              end |},
         {| feeValue :=
              match opt_feeValue options with
              | Some v => if Number_truthy v then v else inject_Z 546
              | None => inject_Z 546
              end;
            history := [] |})
  end end end.

(** [unspents.reduce((summ, { satoshis }) => summ + satoshis, 0)].  Satoshi
    amounts are JavaScript numbers that hold integers; below 2^53 their
    sums, differences and comparisons are exact, and they are embedded as
    [Z]. *)
Definition sum_satoshis (unspents : list Unspent) : Z :=
  fold_left (fun summ u => summ + satoshis u) unspents 0.

(* ===================================================================== *)
(** ** The methods of [BtcSwap] *)
(* ===================================================================== *)

(** The argument of [getTxFee]. *)
Record TxFeeArgs := {
  arg_inSatoshis : bool;
  arg_size : option Z;
  arg_speed : option string;
  arg_address : option string
}.

Definition getTxFee (swap : BtcSwap) (args : TxFeeArgs) : M Q :=
  estimatedFeeRaw <- call (estimateFeeValue swap)
    {| req_inSatoshis := true;
       req_address := arg_address args;
       req_speed := match arg_speed args with Some s => s | None => "fast" end;
       req_method := "swap" |} ;;
  let estimatedFee : Q := estimatedFeeRaw in
  set_feeValue estimatedFee ;;;
  ret (if arg_inSatoshis args
       then estimatedFee
       else inject_Z (BigNumber.dp0 BigNumber.ROUND_UP
                        (BigNumber.dividedBy estimatedFee BigNumber._1e8))).

(** The default of [expectedConfidenceLevel] and of [expected.confidence]. *)
Definition default_confidence : Q := 95 # 100.

Definition feesToConfidence (swap : BtcSwap) (fees0 : Q) (size0 : option Z)
    (address : option string) : M Q :=
  currentFastestFee <- getTxFee swap
    {| arg_inSatoshis := true; arg_size := size0;
       arg_speed := Some "fast"; arg_address := address |} ;;
  ret (if BigNumber.isLessThan fees0 currentFastestFee
       then toNumber (app swap) (BigNumber.dividedBy fees0 currentFastestFee)
       else 1%Q).

Definition confirmationsToConfidence (confs : option Z) : Q :=
  match confs with
  | Some n => if (0 <? n)%Z then 1%Q else 0%Q
  | None => 0%Q
  end.

Definition fetchConfidence (swap : BtcSwap) (expectedConfidenceLevel : Q)
    (u : Unspent) : M Q :=
  let confidenceFromConfirmations :=
    confirmationsToConfidence (confirmations u) in
  if BigNumber.isGreaterThanOrEqualTo confidenceFromConfirmations
       expectedConfidenceLevel
  then ret confidenceFromConfirmations
  else
    try_catch
      (info <- call (fetchTxInfo swap) (txid u) ;;
       match info with
       | None => throw (Error "Cannot destructure 'info'")
       | Some i =>
           match fees i with
           | Some f =>
               if Number_truthy f
               then feesToConfidence swap f (size i) (senderAddress i)
               else throw (Error "txinfo=[object Object]")
           | None => throw (Error "txinfo=[object Object]")
           end
       end)
      (fun _ => ret confidenceFromConfirmations).

Definition filterConfidentUnspents (swap : BtcSwap) (unspents : list Unspent)
    (expectedConfidenceLevel : option Q) : M (list Unspent) :=
  let level := match expectedConfidenceLevel with
               | Some c => c
               | None => default_confidence
               end in
  (* [Promise.all(unspents.map(fetchConfidence))]: the calls only read the
     chain and write [feeValue]; they are run one after the other. *)
  confidences <- mapM (fetchConfidence swap level) unspents ;;
  ret (List.map fst
         (filter (fun uc => BigNumber.isGreaterThanOrEqualTo (snd uc) level)
            (combine unspents confidences))).

(** [_signTransaction({ script, txRaw, secret }, inputIndex)]. *)
Definition _signTransaction (a : App) (script : bytes) (txRaw : Transaction)
    (secret : string) (inputIndex : nat) : Transaction :=
  let redeemScriptSig :=
    p2sh_input a (network a) script
      (script_compile a
         [ Push (sign_hashForSignature a txRaw inputIndex script);
           Push (getPublicKeyBuffer a);
           Push (Buffer.from_hex (JsString.strip_0x secret)) ]) in
  TransactionBuilder.setInputScript inputIndex redeemScriptSig txRaw.

Record Script := {
  scriptAddress : string;
  script : bytes
}.

Definition createScript (a : App) (data : ScriptValues)
    (hashName : option string) : Script :=
  let hashName := match hashName with Some h => h | None => "ripemd160" end in
  let hashOpcodeName := "OP_" ++ JsString.toUpperCase hashName in
  let hashOpcode := opcodes a hashOpcodeName in
  let script :=
    script_compile a
      [ Opcode hashOpcode;
        Push (Buffer.from_hex (secretHash data));
        Opcode (opcodes a "OP_EQUALVERIFY");

        Push (Buffer.from_hex (recipientPublicKey data));
        Opcode (opcodes a "OP_EQUAL");
        Opcode (opcodes a "OP_IF");

        Push (Buffer.from_hex (recipientPublicKey data));
        Opcode (opcodes a "OP_CHECKSIG");

        Opcode (opcodes a "OP_ELSE");

        Push (script_number_encode a (lockTime data));
        Opcode (opcodes a "OP_CHECKLOCKTIMEVERIFY");
        Opcode (opcodes a "OP_DROP");
        Push (Buffer.from_hex (ownerPublicKey data));
        Opcode (opcodes a "OP_CHECKSIG");

        Opcode (opcodes a "OP_ENDIF") ] in
  {| scriptAddress := p2sh_address a (network a) script;
     script := script |}.

Record Expected := {
  exp_value : Q;
  exp_lockTime : Z;
  exp_recipientPublicKey : string;
  exp_confidence : option Q
}.

(** The constant [expectedValue] of [checkScript]:
    [expected.value.multipliedBy(1e8).integerValue()]. *)
Definition expectedValue_of (expected : Expected) : Z :=
  BigNumber.integerValue
    (BigNumber.multipliedBy (exp_value expected) BigNumber._1e8).

Definition checkScript (swap : BtcSwap) (data : ScriptValues)
    (expected : Expected) (hashName : option string) : M (option string) :=
  let address := scriptAddress (createScript (app swap) data hashName) in
  let expectedConfidence :=
    match exp_confidence expected with
    | Some c => c
    | None => default_confidence
    end in
  unspents <- call (fetchUnspents swap) address ;;
  let expectedValue := expectedValue_of expected in
  let totalUnspent := sum_satoshis unspents in
  confidentUnspents <-
    filterConfidentUnspents swap unspents (Some expectedConfidence) ;;
  let totalConfidentUnspent := sum_satoshis confidentUnspents in
  if (totalUnspent <? expectedValue)%Z then
    ret (Some ("Expected script value: " ++ JsString.of_Z expectedValue
               ++ ", got: " ++ JsString.of_Z totalUnspent
               ++ ", address: " ++ address))
  else if (lockTime data <? exp_lockTime expected)%Z then
    ret (Some ("Expected script lockTime: "
               ++ JsString.of_Z (exp_lockTime expected)
               ++ ", got: " ++ JsString.of_Z (lockTime data)
               ++ ", address: " ++ address))
  else if negb (String.eqb (exp_recipientPublicKey expected)
                  (recipientPublicKey data)) then
    ret (Some ("Expected script recipient publicKey: "
               ++ exp_recipientPublicKey expected
               ++ ", got: " ++ recipientPublicKey data))
  else if (totalConfidentUnspent <? expectedValue)%Z then
    ret (Some ("Expected script value: " ++ JsString.of_Z expectedValue
               ++ " with confidence above "
               ++ Number_toString (app swap) expectedConfidence
               ++ ", got: " ++ JsString.of_Z totalConfidentUnspent
               ++ ", address: " ++ address))
  else ret None.

Record FundData := {
  fund_scriptValues : ScriptValues;
  amount : Q
}.

(** The constant [fundValue] of [fundScript]:
    [amount.multipliedBy(1e8).integerValue().toNumber()]. *)
Definition fundValue_of (data : FundData) : Z :=
  BigNumber.integerValue (BigNumber.multipliedBy (amount data) BigNumber._1e8).

(** [tx.__INPUTS.forEach((input, index) => tx.sign(index, account))]. *)
Definition sign_all_inputs (a : App) (tx : Transaction) : Transaction :=
  fold_left
    (fun t index =>
       TransactionBuilder.setInputScript index (builder_sign a t index) t)
    (seq 0 (List.length (tx_ins tx))) tx.

(** [unspents.forEach(({ txid, vout }) => tx.addInput(txid, vout, sequence))]:
    the first call that throws ends the loop. *)
Fixpoint add_inputs (a : App) (sequence : option Z) (unspents : list Unspent)
    (tx : Transaction) : completion Transaction :=
  match unspents with
  | [] => Normal tx
  | u :: r =>
      match TransactionBuilder.addInput a (txid u) (vout u) sequence tx with
      | Normal tx' => add_inputs a sequence r tx'
      | Throw e => Throw e
      end
  end.

(** [fundScript(data, handleTransactionHash, hashName)];
    [handleTransactionHash] tells whether a function was passed, calling
    it is the event [TransactionHash]. *)
Definition fundScript (swap : BtcSwap) (data : FundData)
    (handleTransactionHash : bool) (hashName : option string)
    : State -> Settled string * State :=
  executor
    (let a := app swap in
     let address :=
       scriptAddress (createScript a (fund_scriptValues data) hashName) in
     let ownerAddress := getAddress a in
     let tx := TransactionBuilder.new in
     unspents <- call (fetchUnspents swap) ownerAddress ;;
     let fundValue := fundValue_of data in
     feeValueBN <- getTxFee swap
       {| arg_inSatoshis := true; arg_size := None;
          arg_speed := None; arg_address := Some ownerAddress |} ;;
     let feeValue := BigNumber.integerValue feeValueBN in
     let totalUnspent := sum_satoshis unspents in
     let skipValue := totalUnspent - fundValue - feeValue in
     if (totalUnspent <? feeValue + fundValue)%Z then
       throw (Error ("Total less than fee: " ++ JsString.of_Z totalUnspent
                     ++ " < " ++ JsString.of_Z feeValue
                     ++ " + " ++ JsString.of_Z fundValue))
     else
       tx <- lift (add_inputs a None unspents tx) ;;
       tx <- lift (TransactionBuilder.addOutput a address fundValue tx) ;;
       tx <- lift (TransactionBuilder.addOutput a (getAddress a) skipValue tx) ;;
       let tx := sign_all_inputs a tx in
       let txRaw := TransactionBuilder.buildIncomplete tx in
       (if handleTransactionHash
        then emit (TransactionHash (getId a txRaw))
        else ret tt) ;;;
       emit (Broadcast (toHex a txRaw)) ;;;
       result <- call (broadcastTx swap) (toHex a txRaw) ;;
       ret (Resolved result))
    ReasonError.

(** [getBalance(data, hashName)]: [data] is an address or script values. *)
Definition getBalance (swap : BtcSwap) (data : string + ScriptValues)
    (hashName : option string) : M Z :=
  let address :=
    match data with
    | inl address => address
    | inr values => scriptAddress (createScript (app swap) values hashName)
    end in
  unspents <- call (fetchUnspents swap) address ;;
  (* [unspents && unspents.length && unspents.reduce(...) || 0] *)
  let totalUnspent :=
    if Nat.eqb (List.length unspents) 0 then 0
    else if (sum_satoshis unspents =? 0)%Z then 0
    else sum_satoshis unspents in
  ret totalUnspent.

Record WithdrawData := {
  scriptValues : ScriptValues;
  secret : string;
  destinationAddress : option string
}.

(** What [getWithdrawRawTransaction] returns: [{ txId, alreadyWithdrawed:
    true }] or [{ txHex, txId }]. *)
Inductive WithdrawRawTransaction :=
| AlreadyWithdrawed (txId : string)
| RawTransaction (txHex : string) (txId : string).

Definition txId_of (r : WithdrawRawTransaction) : string :=
  match r with
  | AlreadyWithdrawed i => i
  | RawTransaction _ i => i
  end.

Definition txHex_of (r : WithdrawRawTransaction) : option string :=
  match r with
  | AlreadyWithdrawed _ => None
  | RawTransaction h _ => Some h
  end.

(** The destination of a withdrawal: [destinationAddress] when truthy,
    else the address of the local account. *)
Definition destAddress (a : App) (data : WithdrawData) : string :=
  match destinationAddress data with
  | Some d => if JsString.truthy d then d else getAddress a
  | None => getAddress a
  end.

(** [tx.__INPUTS.map((_, index) => this._signTransaction({ script, secret,
    txRaw }, index))]. *)
Definition sign_script_inputs (a : App) (script0 : bytes) (secret0 : string)
    (tx txRaw : Transaction) : Transaction :=
  fold_left
    (fun raw index => _signTransaction a script0 raw secret0 index)
    (seq 0 (List.length (tx_ins tx))) txRaw.

Definition less_than_fee (totalUnspent feeValue0 : Z) : JsError :=
  Error ("Total less than fee: " ++ JsString.of_Z totalUnspent
         ++ " < " ++ JsString.of_Z feeValue0).

Definition getWithdrawRawTransaction (swap : BtcSwap) (data : WithdrawData)
    (isRefund : bool) (hashName : option string) : M WithdrawRawTransaction :=
  let a := app swap in
  let dest := destAddress a data in
  let s := createScript a (scriptValues data) hashName in
  let tx := TransactionBuilder.new in
  unspents <- call (fetchUnspents swap) (scriptAddress s) ;;
  feeValueBN <- getTxFee swap
    {| arg_inSatoshis := true; arg_size := None;
       arg_speed := None; arg_address := Some (scriptAddress s) |} ;;
  let feeValue := BigNumber.integerValue feeValueBN in
  let totalUnspent := sum_satoshis unspents in
  if (totalUnspent <? feeValue)%Z then
    match checkWithdraw swap with
    | Some probe =>
        hasWithdraw <- call probe (scriptAddress s) ;;
        match hasWithdraw with
        | Some w =>
            if String.eqb (JsString.toLowerCase (wd_address w))
                 (JsString.toLowerCase dest)
            then ret (AlreadyWithdrawed (wd_txid w))
            else throw (less_than_fee totalUnspent feeValue)
        | None => throw (less_than_fee totalUnspent feeValue)
        end
    | None => throw (less_than_fee totalUnspent feeValue)
    end
  else
    tx <- (if isRefund
           then lift (TransactionBuilder.setLockTime a
                        (lockTime (scriptValues data)) tx)
           else ret tx) ;;
    tx <- lift (add_inputs a (Some 4294967294) unspents tx) ;;
    tx <- lift (TransactionBuilder.addOutput a dest (totalUnspent - feeValue) tx) ;;
    let txRaw := TransactionBuilder.buildIncomplete tx in
    let txRaw := sign_script_inputs a (script s) (secret data) tx txRaw in
    ret (RawTransaction (toHex a txRaw) (getId a txRaw)).

Definition getWithdrawHexTransaction (swap : BtcSwap) (data : WithdrawData)
    (isRefund : bool) : M (option string) :=
  txRaw <- getWithdrawRawTransaction swap data isRefund None ;;
  ret (txHex_of txRaw).

Definition getRefundRawTransaction (swap : BtcSwap) (data : WithdrawData)
    : M WithdrawRawTransaction :=
  getWithdrawRawTransaction swap data true None.

Definition getRefundHexTransaction (swap : BtcSwap) (data : WithdrawData)
    : M (option string) :=
  txRaw <- getRefundRawTransaction swap data ;;
  ret (txHex_of txRaw).

Definition checkTX (swap : BtcSwap) (txID : string) : M bool :=
  txInfo <- call (fetchTxInfo swap) txID ;;
  ret (match txInfo with
       | Some i =>
           match senderAddress i, info_txid i with
           | Some sender, Some id =>
               JsString.truthy sender && JsString.truthy id &&
               String.eqb (JsString.toLowerCase id) (JsString.toLowerCase txID)
           | _, _ => false
           end
       | None => false
       end).

(** The [catch] block of [withdraw]: what the promise is rejected with. *)
Definition errorMessage (error : JsError) : RejectReason :=
  if match res_text error with
     | Some text => JsString.RegExp_test "non-final" text
     | None => false
     end
  then ReasonString "Try it later"
  else if JsString.RegExp_test "Total less than fee" (message error) then
    if JsString.RegExp_test "Total less than fee: 0" (message error)
    then ReasonString "Address is empty"
    else ReasonString "Less than fee"
  else ReasonError error.

Definition withdraw (swap : BtcSwap) (data : WithdrawData) (isRefund : bool)
    (hashName : option string) : State -> Settled string * State :=
  executor
    (txRaw <- getWithdrawRawTransaction swap data isRefund hashName ;;
     match txRaw with
     | AlreadyWithdrawed i => ret (Resolved i)
     | RawTransaction hex i =>
         emit (Broadcast hex) ;;;
         result <- call (broadcastTx swap) hex ;;
         emit (WaitDelay 10) ;;;
         txSuccess <- checkTX swap i ;;
         if txSuccess
         then ret (Resolved i)
         else ret (Rejected (ReasonString "TX not found. Try it later. "))
     end)
    errorMessage.

Definition refund (swap : BtcSwap) (data : WithdrawData)
    (hashName : option string) : State -> Settled string * State :=
  withdraw swap data true hashName.

(* ===================================================================== *)
(** ** The trade tickers *)
(* ===================================================================== *)


(* ===================================================================== *)
(** ** The specification's words *)
(* ===================================================================== *)

(** The two hash algorithms of an HTLC. *)
Inductive HashName := ripemd160 | sha256.

Definition hashName_string (h : HashName) : string :=
  match h with
  | ripemd160 => "ripemd160"
  | sha256 => "sha256"
  end.

(** [HASH_OP]: [OP_RIPEMD160] or [OP_SHA256]. *)
Definition HASH_OP (h : HashName) : string :=
  match h with
  | ripemd160 => "OP_RIPEMD160"
  | sha256 => "OP_SHA256"
  end.

(** The redeem script of the specification, opcode by opcode; [op] reads
    a name in the library's table. *)
Definition spec_redeem_script (a : App) (v : ScriptValues) (h : HashName)
    : list chunk :=
  let op name := Opcode (opcodes a name) in
  [ op (HASH_OP h); Push (Buffer.from_hex (secretHash v)); op "OP_EQUALVERIFY";
    Push (Buffer.from_hex (recipientPublicKey v)); op "OP_EQUAL";
    op "OP_IF";
    Push (Buffer.from_hex (recipientPublicKey v)); op "OP_CHECKSIG";
    op "OP_ELSE";
    Push (script_number_encode a (lockTime v));
    op "OP_CHECKLOCKTIMEVERIFY"; op "OP_DROP";
    Push (Buffer.from_hex (ownerPublicKey v)); op "OP_CHECKSIG";
    op "OP_ENDIF" ].

(** The outpoints a list of unspent outputs names. *)
Definition outpoints (unspents : list Unspent) : list (string * Z) :=
  List.map (fun u => (txid u, vout u)) unspents.

Definition input_outpoints (tx : Transaction) : list (string * Z) :=
  List.map (fun i => (in_txid i, in_vout i)) (tx_ins tx).

Definition input_sequences (tx : Transaction) : list (option Z) :=
  List.map in_sequence (tx_ins tx).

Definition output i v : TxOutput := {| out_address := i; out_value := v |}.

(** An unspent output as the data model has it, which is what the builder
    takes as an input: the transaction id is the hexadecimal form of 32
    bytes that are not all zero, the index fits 32 bits. *)
Definition spendable (u : Unspent) : Prop :=
  List.length (Buffer.from_hex (txid u)) = 32%nat /\
  TransactionBuilder.isCoinbaseHash (Buffer.from_hex (txid u)) = false /\
  0 <= vout u <= 4294967295.

(** The outpoint of an unspent output, by the bytes of the transaction
    id. *)
Definition outpoint_bytes (u : Unspent) : bytes * Z :=
  (Buffer.from_hex (txid u), vout u).

(** A set of unspent outputs: no outpoint twice. *)
Definition unspent_set (unspents : list Unspent) : Prop :=
  Forall spendable unspents /\ NoDup (List.map outpoint_bytes unspents).

(** An address that decodes for the network of the application. *)
Definition payable (a : App) (address : string) : Prop :=
  toOutputScript a (network a) address <> None.

(** The address of the HTLC a withdrawal is about. *)
Definition htlc_address (swap : BtcSwap) (data : WithdrawData)
    (hashName : option string) : string :=
  scriptAddress (createScript (app swap) (scriptValues data) hashName).

(** What the builder has been told when the redeem path is through with
    it: the lock time of a refund, the outputs to spend, the payment. *)
Definition redeem_content (swap : BtcSwap) (data : WithdrawData)
    (isRefund : bool) (unspents : list Unspent) (fee : Z) : Transaction :=
  TransactionBuilder.with_output (destAddress (app swap) data)
    (sum_satoshis unspents - fee)
    (fold_left
       (fun t u =>
          TransactionBuilder.with_input (txid u) (vout u) (Some 4294967294) t)
       unspents
       (if isRefund
        then TransactionBuilder.with_lockTime (lockTime (scriptValues data))
               TransactionBuilder.new
        else TransactionBuilder.new)).

(** What signing leaves alone: lock time, outpoints and sequence numbers
    of the inputs, outputs. *)
Definition shape (tx : Transaction)
    : Z * list (string * Z) * list (option Z) * list TxOutput :=
  (tx_locktime tx, input_outpoints tx, input_sequences tx, tx_outs tx).

(** [v] is the whole number nearest to [x], the one farther from zero
    when two are equally near. *)
Definition nearest_integer (x : Q) (v : Z) : Prop :=
  (x - (1 # 2) <= inject_Z v)%Q /\ (inject_Z v <= x + (1 # 2))%Q /\
  v = if Qle_bool 0 x then Qfloor (x + (1 # 2)) else Qceiling (x - (1 # 2)).

(** Steps 2 to 4 of the specification, for an output without
    confirmation: when the transaction information carries fees,
    [min(1, fees / f)] with [f] the fast fee quoted for the sender's
    address; otherwise the value from the confirmations, which is 0.  The
    specification gives no value for a fee query that fails; 0 is written
    there. *)
Definition spec_unconfirmed_confidence (swap : BtcSwap) (hist : list event)
    (u : Unspent) : Q :=
  match fetchTxInfo swap hist (txid u) with
  | Normal (Some i) =>
      match fees i with
      | Some f =>
          match estimateFeeValue swap hist
                  {| req_inSatoshis := true;
                     req_address := senderAddress i;
                     req_speed := "fast";
                     req_method := "swap" |} with
          | Normal fast => Qmin 1 (f / fast)
          | Throw _ => 0%Q
          end
      | None => 0%Q
      end
  | _ => 0%Q
  end.

(** [min(1, fees / f)] as the class computes it: a quotient below 1 keeps
    20 decimal places and is then the nearest number of the runtime.
    Without a fee ([f = 0]) every positive fee is enough. *)
Definition rounded_ratio (a : App) (f fast : Q) : Q :=
  if Qle_bool fast f then 1%Q
  else toNumber a (BigNumber.dividedBy f fast).

(** Steps 2 to 4 with the quotient rounded that way. *)
Definition rounded_unconfirmed_confidence (swap : BtcSwap)
    (hist : list event) (u : Unspent) : Q :=
  match fetchTxInfo swap hist (txid u) with
  | Normal (Some i) =>
      match fees i with
      | Some f =>
          match estimateFeeValue swap hist
                  {| req_inSatoshis := true;
                     req_address := senderAddress i;
                     req_speed := "fast";
                     req_method := "swap" |} with
          | Normal fast =>
              if Qeq_bool f 0 then 0%Q else rounded_ratio (app swap) f fast
          | Throw _ => 0%Q
          end
      | None => 0%Q
      end
  | _ => 0%Q
  end.

Definition rounded_confidence (swap : BtcSwap) (hist : list event)
    (u : Unspent) : Q :=
  match confirmations u with
  | Some (Zpos _) => 1%Q
  | _ => rounded_unconfirmed_confidence swap hist u
  end.

Definition rounded_confident_subset (swap : BtcSwap) (hist : list event)
    (unspents : list Unspent) (c : option Q) : list Unspent :=
  let level := match c with Some l => l | None => 95 # 100 end in
  filter (fun u => Qle_bool level (rounded_confidence swap hist u)) unspents.

(** Step 1: 1.0 when the output has a confirmation. *)
Definition spec_confidence (swap : BtcSwap) (hist : list event)
    (u : Unspent) : Q :=
  match confirmations u with
  | Some (Zpos _) => 1%Q
  | _ => spec_unconfirmed_confidence swap hist u
  end.

(** The subset the specification describes. *)
Definition spec_confident_subset (swap : BtcSwap) (hist : list event)
    (unspents : list Unspent) (c : option Q) : list Unspent :=
  let level := match c with Some l => l | None => 95 # 100 end in
  filter (fun u => Qle_bool level (spec_confidence swap hist u)) unspents.

(* ===================================================================== *)
(** ** A small environment to run the methods in *)
(* ===================================================================== *)

Module Sample.

(** The opcode numbers of the bitcoin script language the class names. *)
Definition opcode_table : list (string * Z) :=
  [ ("OP_IF", 99); ("OP_ELSE", 103); ("OP_ENDIF", 104); ("OP_DROP", 117);
    ("OP_EQUAL", 135); ("OP_EQUALVERIFY", 136); ("OP_RIPEMD160", 166);
    ("OP_SHA1", 167); ("OP_SHA256", 168); ("OP_HASH160", 169);
    ("OP_HASH256", 170); ("OP_CHECKSIG", 172);
    ("OP_CHECKLOCKTIMEVERIFY", 177) ].

Fixpoint lookup (name : string) (table : list (string * Z)) : option Z :=
  match table with
  | [] => None
  | (n, code) :: r => if String.eqb n name then Some code else lookup name r
  end.

Definition byte_of_Z (n : Z) : Byte.byte :=
  byte_of_ascii (ascii_of_N (Z.to_N n)).

(** One byte per opcode, a length byte before pushed data. *)
Definition compile (chunks : list chunk) : bytes :=
  flat_map
    (fun c =>
       match c with
       | Opcode (Some code) => [byte_of_Z code]
       | Opcode None => []
       | Push data => byte_of_Z (Z.of_nat (List.length data)) :: data
       end)
    chunks.

(** Little-endian bytes of a non-negative number below 2^31. *)
Definition number_encode (n : Z) : bytes :=
  List.map (fun k => byte_of_Z (Z.shiftr n (8 * k) mod 256))
    (if n =? 0 then [] else if n <? 128 then [0]
     else if n <? 32768 then [0; 1] else if n <? 8388608 then [0; 1; 2]
     else [0; 1; 2; 3])%Z.

(** A readable stand-in for the serialisation of a transaction; of a
    transaction id it shows the first byte. *)
Definition show_tx (tx : Transaction) : string :=
  "lock " ++ JsString.of_Z (tx_locktime tx)
  ++ String.concat ""
       (List.map (fun i => " in " ++ substring 0 2 (in_txid i)
                           ++ ":" ++ JsString.of_Z (in_vout i)
                           ++ match in_sequence i with
                              | Some n => "#" ++ JsString.of_Z n
                              | None => ""
                              end) (tx_ins tx))
  ++ String.concat ""
       (List.map (fun o => " out " ++ out_address o ++ "="
                           ++ JsString.of_Z (out_value o)) (tx_outs tx)).

Definition owner : string := "mvOwnerAddress".
Definition htlc : string := "2N3HtlcAddress".

(** The numbers of the runtime are IEEE 754 doubles.  [nearest_double x]
    is the double nearest to [x], ties to the even significand, for [x]
    in the range of the normal doubles. *)
Definition round_half_even (x : Q) : Z :=
  let f := Qfloor x in
  match Qcompare (x - inject_Z f)%Q (1 # 2)%Q with
  | Lt => f
  | Gt => f + 1
  | Eq => if Z.even f then f else f + 1
  end.

(** The exponent [e] with [2^e <= x < 2^(e+1)], for [0 < x]. *)
Definition ilog2 (x : Q) : Z :=
  let e := Z.log2 (Qnum x) - Z.log2 (Zpos (Qden x)) in
  if Qle_bool (Qpower 2 e) x then e else e - 1.

Definition nearest_double (x : Q) : Q :=
  if Qle_bool x 0 then 0%Q
  else
    let p := 52 - ilog2 x in
    Qred (inject_Z (round_half_even (x * Qpower 2 p)%Q) * Qpower 2 (- p))%Q.

(** The exponent [t] with [10^t <= x < 10^(t+1)], for [0 < x]. *)
Definition ilog10 (x : Q) : Z :=
  let t := ilog2 x * 1233 / 4096 in
  if Qle_bool (Qpower 10 (t + 1)) x then t + 1
  else if Qle_bool (Qpower 10 t) x then t else t - 1.

(** The decimal a double is written with: the fewest digits that read
    back as the same double, and of those decimals the nearest one. *)
Definition shortest_decimal (v : Q) : Q :=
  if Qle_bool v 0 then 0%Q
  else
    let t := ilog10 v in
    fold_right
      (fun k later =>
         let step := Qpower 10 (t - k + 1) in
         let s := Qfloor (v / step)%Q in
         let lo := (inject_Z s * step)%Q in
         let hi := (inject_Z (s + 1) * step)%Q in
         let lo_ok := Qeq_bool (nearest_double lo) v in
         let hi_ok := Qeq_bool (nearest_double hi) v in
         if lo_ok && hi_ok then
           match Qcompare (v - lo)%Q (hi - v)%Q with
           | Lt => Qred lo
           | Gt => Qred hi
           | Eq => if Z.even s then Qred lo else Qred hi
           end
         else if lo_ok then Qred lo
         else if hi_ok then Qred hi
         else later)
      v
      [1; 2; 3; 4; 5; 6; 7; 8; 9; 10; 11; 12; 13; 14; 15; 16; 17].

Definition env : App :=
  {| isMainNet := false;
     opcodes := fun name => lookup name opcode_table;
     script_compile := compile;
     script_number_encode := number_encode;
     p2sh_address := fun _ _ => htlc;
     p2sh_input := fun _ output input => List.app input (compile [Push output]);
     sign_hashForSignature := fun _ _ _ => [byte_of_Z 48; byte_of_Z 1];
     builder_sign := fun _ _ => [byte_of_Z 71];
     getAddress := owner;
     getPublicKeyBuffer := [byte_of_Z 2];
     toHex := show_tx;
     toOutputScript :=
       fun _ address => if JsString.truthy address then Some [] else None;
     builder_error := fun _ => Error "refused by the builder";
     getId := fun tx => "ab" ++ JsString.of_Z (Z.of_nat (List.length (tx_ins tx)));
     Number_toString := fun _ => "0.95";
     toNumber := fun x => shortest_decimal (nearest_double x) |}.

Definition values : ScriptValues :=
  {| secretHash := "c0ffee";
     ownerPublicKey := "02aa";
     recipientPublicKey := "03bb";
     lockTime := 1700000000 |}.

(** A transaction id of 32 bytes that starts with the byte [id]. *)
Definition txid_of (id : string) : string :=
  id ++ "00000000000000000000000000000000000000000000000000000000000000".

Definition utxo (id : string) (value : Z) (confs : option Z) : Unspent :=
  {| txid := txid_of id; vout := 0; satoshis := value;
     confirmations := confs |}.

(** A gateway: what each address holds, what is known of the unconfirmed
    transaction [f1], and a transaction that is seen once it has been
    broadcast when [indexed] is set. *)
Definition options (at_owner at_htlc : list Unspent)
    (oracle : option Q) (probe : option (option WithdrawInfo))
    (indexed : bool) : Options :=
  {| opt_fetchBalance := Some (fun _ _ => Normal 0);
     opt_fetchUnspents :=
       Some (fun _ address =>
               Normal (if String.eqb address owner then at_owner
                       else if String.eqb address htlc then at_htlc
                       else []));
     opt_broadcastTx := Some (fun _ _ => Normal "sent");
     opt_checkWithdraw :=
       match probe with
       | Some answer => Some (fun _ _ => Normal answer)
       | None => None
       end;
     opt_feeValue := None;
     opt_fetchTxInfo :=
       Some (fun hist id =>
               if String.eqb id (txid_of "f1") then
                 Normal (Some {| info_txid := Some id;
                                 senderAddress := Some owner;
                                 fees := Some (inject_Z 5000);
                                 size := Some 220 |})
               else if indexed && existsb
                         (fun ev => match ev with Broadcast _ => true
                                                | _ => false end) hist
               then Normal (Some {| info_txid := Some id;
                                    senderAddress := Some htlc;
                                    fees := Some (inject_Z 10000);
                                    size := Some 300 |})
               else Normal None);
     opt_estimateFeeValue :=
       match oracle with
       | Some q => Some (fun _ _ => Normal q)
       | None => None
       end |}.

Definition built (o : Options) : BtcSwap * State :=
  match constructor o env with
  | Normal r => r
  | Throw _ =>
      ({| app := env;
          fetchBalance := fun _ _ => Normal 0;
          fetchUnspents := fun _ _ => Normal [];
          broadcastTx := fun _ _ => Normal "";
          checkWithdraw := None;
          fetchTxInfo := fun _ _ => Normal None;
          estimateFeeValue := fun _ _ => Normal 0%Q |},
       {| feeValue := 0; history := [] |})
  end.

Definition swap (at_owner at_htlc : list Unspent) (oracle : option Q)
    (probe : option (option WithdrawInfo)) (indexed : bool) : BtcSwap :=
  fst (built (options at_owner at_htlc oracle probe indexed)).

Definition start : State := {| feeValue := inject_Z 546; history := [] |}.

(** Only the three callbacks the constructor insists on; no unspent
    output anywhere. *)
Definition bare : Options :=
  {| opt_fetchBalance := Some (fun _ _ => Normal 0);
     opt_fetchUnspents := Some (fun _ _ => Normal []);
     opt_broadcastTx := Some (fun _ _ => Normal "sent");
     opt_checkWithdraw := None;
     opt_feeValue := None;
     opt_fetchTxInfo := None;
     opt_estimateFeeValue := None |}.

(** A gateway that holds 10000000 satoshis at the HTLC address, quotes a
    fee of 10000 and rejects every broadcast with [e]. *)
Definition refusing (e : JsError) : Options :=
  {| opt_fetchBalance := Some (fun _ _ => Normal 0);
     opt_fetchUnspents :=
       Some (fun _ address =>
               Normal (if String.eqb address htlc
                       then [utxo "a1" 10000000 (Some 3)] else []));
     opt_broadcastTx := Some (fun _ _ => Throw e);
     opt_checkWithdraw := None;
     opt_feeValue := None;
     opt_fetchTxInfo := None;
     opt_estimateFeeValue := Some (fun _ _ => Normal (inject_Z 10000)) |}.

(** The same gateway with a broadcast that is accepted, and without
    [fetchTxInfo]. *)
Definition blind : Options :=
  {| opt_fetchBalance := Some (fun _ _ => Normal 0);
     opt_fetchUnspents :=
       Some (fun _ address =>
               Normal (if String.eqb address htlc
                       then [utxo "a1" 10000000 (Some 3)] else []));
     opt_broadcastTx := Some (fun _ _ => Normal "sent");
     opt_checkWithdraw := None;
     opt_feeValue := None;
     opt_fetchTxInfo := None;
     opt_estimateFeeValue := Some (fun _ _ => Normal (inject_Z 10000)) |}.

(** A gateway that holds a little everywhere and whose fee oracle is
    rejected with [e]. *)
Definition quoteless (e : JsError) : Options :=
  {| opt_fetchBalance := Some (fun _ _ => Normal 0);
     opt_fetchUnspents := Some (fun _ _ => Normal [utxo "a1" 7 (Some 3)]);
     opt_broadcastTx := Some (fun _ _ => Normal "sent");
     opt_checkWithdraw := None;
     opt_feeValue := None;
     opt_fetchTxInfo := None;
     opt_estimateFeeValue := Some (fun _ _ => Throw e) |}.

(** A gateway whose [fetchUnspents] is rejected with [e]. *)
Definition offline (e : JsError) : Options :=
  {| opt_fetchBalance := Some (fun _ _ => Normal 0);
     opt_fetchUnspents := Some (fun _ _ => Throw e);
     opt_broadcastTx := Some (fun _ _ => Normal "sent");
     opt_checkWithdraw := None;
     opt_feeValue := None;
     opt_fetchTxInfo := None;
     opt_estimateFeeValue := None |}.

Definition withdrawal (dest : option string) : WithdrawData :=
  {| scriptValues := values; secret := "0xc0de"; destinationAddress := dest |}.

End Sample.

(** A branch of [checkScript] that returns a diagnostic: one of the four
    conditions fails. *)
Ltac failing_verdict confident st' :=
  eexists _, confident, st';
  split; [reflexivity |]; split; [reflexivity |];
  split; [| right; eexists; reflexivity];
  split; [discriminate | intros (? & ? & ? & ?)].

(** Moves [inject_Z] inside sums and differences, for [lra]. *)
Ltac push_inject :=
  unfold Z.sub in *;
  rewrite ?inject_Z_plus, ?inject_Z_opp in *;
  change (inject_Z 1) with 1%Q in *.

(* ===================================================================== *)
(** ** Rounding *)
(* ===================================================================== *)

Section Rounding.

Local Open Scope Q_scope.

Lemma round_comp (rm : BigNumber.RoundingMode) (x y : Q) :
  x == y -> BigNumber.round rm x = BigNumber.round rm y.
Proof.
  intros E. unfold BigNumber.round.
  destruct rm; rewrite ?(Qleb_comp 0 0 (Qeq_refl 0) x y E);
    try destruct (Qle_bool 0 y);
    first [ apply Qfloor_comp | apply Qceiling_comp ];
    rewrite ?E; reflexivity.
Qed.

Lemma integerValue_multipliedBy (x y : Q) :
  BigNumber.integerValue (BigNumber.multipliedBy x y)
  = BigNumber.round BigNumber.ROUND_HALF_UP (x * y).
Proof.
  unfold BigNumber.integerValue, BigNumber.multipliedBy.
  apply round_comp, Qred_correct.
Qed.

Lemma integerValue_inject_Z (n : Z) :
  BigNumber.integerValue (inject_Z n) = n.
Proof.
  unfold BigNumber.integerValue, BigNumber.round, BigNumber.ROUNDING_MODE.
  destruct (Qle_bool 0 (inject_Z n)).
  - pose proof (Qfloor_le (inject_Z n + (1 # 2))) as Hl.
    pose proof (Qlt_floor (inject_Z n + (1 # 2))) as Hu.
    set (k := Qfloor (inject_Z n + (1 # 2))) in *. clearbody k.
    assert (H1 : inject_Z k < inject_Z (n + 1)) by (push_inject; lra).
    assert (H2 : inject_Z (n - 1) < inject_Z k) by (push_inject; lra).
    rewrite <- Zlt_Qlt in H1, H2. lia.
  - pose proof (Qle_ceiling (inject_Z n - (1 # 2))) as Hl.
    pose proof (Qceiling_lt (inject_Z n - (1 # 2))) as Hu.
    set (k := Qceiling (inject_Z n - (1 # 2))) in *. clearbody k.
    assert (H1 : inject_Z k < inject_Z (n + 1)) by (push_inject; lra).
    assert (H2 : inject_Z (n - 1) < inject_Z k) by (push_inject; lra).
    rewrite <- Zlt_Qlt in H1, H2. lia.
Qed.

Lemma integerValue_comp (x y : Q) :
  x == y -> BigNumber.integerValue x = BigNumber.integerValue y.
Proof. apply round_comp. Qed.

Lemma round_half_up_near (x : Q) :
  x - (1 # 2) <= inject_Z (BigNumber.round BigNumber.ROUND_HALF_UP x)
  /\ inject_Z (BigNumber.round BigNumber.ROUND_HALF_UP x) <= x + (1 # 2).
Proof.
  unfold BigNumber.round.
  destruct (Qle_bool 0 x).
  - pose proof (Qfloor_le (x + (1 # 2))) as Hl.
    pose proof (Qlt_floor (x + (1 # 2))) as Hu.
    push_inject. lra.
  - pose proof (Qle_ceiling (x - (1 # 2))) as Hl.
    pose proof (Qceiling_lt (x - (1 # 2))) as Hu.
    push_inject. lra.
Qed.

Lemma whole_satoshis (n : Z) :
  inject_Z n / BigNumber._1e8 * BigNumber._1e8 == inject_Z n.
Proof. unfold BigNumber._1e8. field. Qed.

End Rounding.

(* ===================================================================== *)
(** ** The transaction builder *)
(* ===================================================================== *)

Section Builder.

Lemma update_nth_map {B : Type} (proj : TxInput -> B)
    (f : TxInput -> TxInput) (n : nat) (l : list TxInput) :
  (forall i, proj (f i) = proj i) ->
  List.map proj (TransactionBuilder.update_nth n f l) = List.map proj l.
Proof.
  intros Hf. revert n.
  induction l as [| i r IH]; intros [| m]; simpl; try reflexivity.
  - now rewrite Hf.
  - now rewrite IH.
Qed.

Lemma setInputScript_shape (index : nat) (s : bytes) (tx : Transaction) :
  shape (TransactionBuilder.setInputScript index s tx) = shape tx.
Proof.
  unfold shape, input_outpoints, input_sequences; simpl.
  rewrite !update_nth_map by reflexivity. reflexivity.
Qed.

Lemma sign_fold_shape (g : Transaction -> nat -> bytes) (indices : list nat) :
  forall tx,
    shape (fold_left
             (fun t index => TransactionBuilder.setInputScript index (g t index) t)
             indices tx) = shape tx.
Proof.
  induction indices as [| i r IH]; intros tx; simpl.
  - reflexivity.
  - rewrite IH. apply setInputScript_shape.
Qed.

Lemma sign_all_inputs_shape (a : App) (tx : Transaction) :
  shape (sign_all_inputs a tx) = shape tx.
Proof. apply (sign_fold_shape (builder_sign a)). Qed.

Lemma sign_script_inputs_shape (a : App) (script0 : bytes) (secret0 : string)
    (tx txRaw : Transaction) :
  shape (sign_script_inputs a script0 secret0 tx txRaw) = shape txRaw.
Proof.
  unfold sign_script_inputs, _signTransaction.
  apply (sign_fold_shape
           (fun raw index =>
              p2sh_input a (network a) script0
                (script_compile a
                   [ Push (sign_hashForSignature a raw index script0);
                     Push (getPublicKeyBuffer a);
                     Push (Buffer.from_hex (JsString.strip_0x secret0)) ]))).
Qed.

Lemma with_inputs_shape (sequence : option Z) (unspents : list Unspent) :
  forall tx,
    shape (fold_left
             (fun t u =>
                TransactionBuilder.with_input (txid u) (vout u) sequence t)
             unspents tx)
    = (tx_locktime tx,
       (input_outpoints tx ++ outpoints unspents)%list,
       (input_sequences tx ++ List.map (fun _ => sequence) unspents)%list,
       tx_outs tx).
Proof.
  induction unspents as [| u r IH]; intros tx; simpl.
  - unfold shape. now rewrite !app_nil_r.
  - rewrite IH. unfold input_outpoints, input_sequences, outpoints; simpl.
    rewrite !map_app, <- !app_assoc. reflexivity.
Qed.

Lemma with_output_shape (address : string) (value : Z) (tx : Transaction) :
  shape (TransactionBuilder.with_output address value tx)
  = let '(l, o, s, outs) := shape tx in
    (l, o, s, (outs ++ [output address value])%list).
Proof. reflexivity. Qed.

Lemma with_lockTime_shape (locktime : Z) (tx : Transaction) :
  shape (TransactionBuilder.with_lockTime locktime tx)
  = let '(_, o, s, outs) := shape tx in (locktime, o, s, outs).
Proof. reflexivity. Qed.

(** *** What the builder accepts *)

Lemma UInt32_true (n : Z) :
  0 <= n <= 4294967295 -> TransactionBuilder.UInt32 n = true.
Proof. unfold TransactionBuilder.UInt32. lia. Qed.

Lemma Satoshi_true (v : Z) :
  0 <= v <= TransactionBuilder.SATOSHI_MAX -> TransactionBuilder.Satoshi v = true.
Proof. unfold TransactionBuilder.Satoshi. lia. Qed.

Lemma signed_with_inputs (sequence : option Z) (unspents : list Unspent) :
  forall tx,
    TransactionBuilder.signed tx = false ->
    TransactionBuilder.signed
      (fold_left
         (fun t u => TransactionBuilder.with_input (txid u) (vout u) sequence t)
         unspents tx) = false.
Proof.
  induction unspents as [| u r IH]; intros tx Hs; simpl.
  - exact Hs.
  - apply IH. unfold TransactionBuilder.signed in *; simpl.
    rewrite existsb_app, Hs. reflexivity.
Qed.

Lemma setLockTime_accepted (a : App) (locktime : Z) (tx : Transaction) :
  0 <= locktime <= 4294967295 ->
  TransactionBuilder.signed tx = false ->
  TransactionBuilder.setLockTime a locktime tx
  = Normal (TransactionBuilder.with_lockTime locktime tx).
Proof.
  intros Hl Hs. unfold TransactionBuilder.setLockTime.
  now rewrite (UInt32_true _ Hl), Hs.
Qed.

Lemma addOutput_accepted (a : App) (address : string) (value : Z)
    (tx : Transaction) :
  payable a address ->
  0 <= value <= TransactionBuilder.SATOSHI_MAX ->
  TransactionBuilder.signed tx = false ->
  TransactionBuilder.addOutput a address value tx
  = Normal (TransactionBuilder.with_output address value tx).
Proof.
  intros Hp Hv Hs. unfold TransactionBuilder.addOutput.
  rewrite (Satoshi_true _ Hv), Hs. unfold payable in Hp.
  destruct (toOutputScript a (network a) address); [reflexivity | congruence].
Qed.

Lemma same_outpoint_absent (u : Unspent) (ins : list TxInput) :
  ~ In (outpoint_bytes u)
       (List.map (fun i => (Buffer.from_hex (in_txid i), in_vout i)) ins) ->
  existsb (TransactionBuilder.same_outpoint (Buffer.from_hex (txid u)) (vout u))
    ins = false.
Proof.
  induction ins as [| i r IH]; simpl; intros Hn; [reflexivity |].
  rewrite IH by tauto. rewrite orb_false_r.
  unfold TransactionBuilder.same_outpoint, TransactionBuilder.bytes_eqb.
  destruct (list_eq_dec Byte.byte_eq_dec (Buffer.from_hex (in_txid i))
              (Buffer.from_hex (txid u))) as [E |]; [| reflexivity].
  destruct (Z.eqb_spec (in_vout i) (vout u)) as [E' |]; [| reflexivity].
  exfalso. apply Hn. left. unfold outpoint_bytes. now rewrite E, E'.
Qed.

(** The inputs of a set of unspent outputs are all accepted. *)
Lemma add_inputs_accepted (a : App) (sequence : option Z)
    (unspents : list Unspent) :
  match sequence with Some n => 0 <= n <= 4294967295 | None => True end ->
  forall tx,
    TransactionBuilder.signed tx = false ->
    Forall spendable unspents ->
    NoDup (List.map (fun i => (Buffer.from_hex (in_txid i), in_vout i))
             (tx_ins tx)
           ++ List.map outpoint_bytes unspents)%list ->
    add_inputs a sequence unspents tx
    = Normal (fold_left
                (fun t u =>
                   TransactionBuilder.with_input (txid u) (vout u) sequence t)
                unspents tx).
Proof.
  intros Hseq.
  induction unspents as [| u r IH]; intros tx Hs Hf Hn; simpl.
  - reflexivity.
  - inversion Hf as [| ? ? (Hlen & Hcb & Hv) Hf']; subst.
    simpl in Hn. pose proof (NoDup_remove_2 _ _ _ Hn) as Hfresh.
    unfold TransactionBuilder.addInput.
    rewrite Hs, Hcb, (UInt32_true _ Hv).
    unfold TransactionBuilder.Hash256bit. rewrite Hlen.
    rewrite same_outpoint_absent
      by (intros Hin; apply Hfresh, in_or_app; now left).
    replace (match sequence with
             | Some n => TransactionBuilder.UInt32 n
             | None => true
             end) with true
      by (destruct sequence; [now rewrite UInt32_true | reflexivity]).
    simpl. apply IH.
    + unfold TransactionBuilder.signed in *; simpl.
      rewrite existsb_app, Hs. reflexivity.
    + exact Hf'.
    + simpl. rewrite map_app, <- app_assoc. exact Hn.
Qed.

Lemma add_inputs_new (a : App) (sequence : option Z)
    (unspents : list Unspent) (tx : Transaction) :
  match sequence with Some n => 0 <= n <= 4294967295 | None => True end ->
  unspent_set unspents ->
  tx_ins tx = [] ->
  add_inputs a sequence unspents tx
  = Normal (fold_left
              (fun t u =>
                 TransactionBuilder.with_input (txid u) (vout u) sequence t)
              unspents tx).
Proof.
  intros Hseq [Hf Hn] Hins. apply add_inputs_accepted; trivial.
  - unfold TransactionBuilder.signed. now rewrite Hins.
  - now rewrite Hins.
Qed.

End Builder.

(* ===================================================================== *)
(** ** The redeem script *)
(* ===================================================================== *)

(** C1.  For all script values and both hash names, [createScript] hands
    to the script compiler exactly the sequence HASH_OP, secretHash,
    OP_EQUALVERIFY, recipientPublicKey, OP_EQUAL, OP_IF,
    recipientPublicKey, OP_CHECKSIG, OP_ELSE, lockTime as a script number,
    OP_CHECKLOCKTIMEVERIFY, OP_DROP, ownerPublicKey, OP_CHECKSIG,
    OP_ENDIF, with HASH_OP = OP_RIPEMD160 for ripemd160 and OP_SHA256 for
    sha256; the redeem script is the compilation of that sequence and the
    address is its P2SH address. *)
Theorem createScript_redeem_script (a : App) (v : ScriptValues) (h : HashName) :
  script (createScript a v (Some (hashName_string h)))
  = script_compile a (spec_redeem_script a v h)
  /\ scriptAddress (createScript a v (Some (hashName_string h)))
     = p2sh_address a (network a) (script_compile a (spec_redeem_script a v h)).
Proof. destruct h; split; reflexivity. Qed.

(** Without a hash name the script is the ripemd160 one. *)
Lemma createScript_default (a : App) (v : ScriptValues) :
  createScript a v None = createScript a v (Some "ripemd160").
Proof. reflexivity. Qed.

Example createScript_sample :
  script (createScript Sample.env Sample.values None)
  = List.map Sample.byte_of_Z
      [ 166; 3; 192; 255; 238; 136; 2; 3; 187; 135; 99; 2; 3; 187; 172; 103;
        4; 0; 241; 83; 101; 177; 117; 2; 2; 170; 172; 104 ].
Proof. reflexivity. Qed.

(* ===================================================================== *)
(** ** Amounts *)
(* ===================================================================== *)

(** C9, as the specification has it, fails: 0.000000015 BTC is one and a
    half satoshis, which [integerValue] makes 2 and truncation makes 1, in
    [fundScript] and in [checkScript] alike. *)
Lemma amount_conversion_is_not_truncation :
  let x : Q := 15 # 1000000000 in
  fundValue_of {| fund_scriptValues := Sample.values; amount := x |}
    <> Qfloor (x * BigNumber._1e8)
  /\ expectedValue_of {| exp_value := x; exp_lockTime := 0;
                         exp_recipientPublicKey := "";
                         exp_confidence := None |}
    <> Qfloor (x * BigNumber._1e8).
Proof. split; vm_compute; discriminate. Qed.

(** C9, amended.  The funding amount of [fundScript] and the expected
    value of [checkScript] are the amount times 10^8 rounded to the
    nearest whole number, halves away from zero; an amount that is a
    whole number of satoshis is converted exactly. *)
Theorem amount_conversion_rounds_half_up
    (data : FundData) (expected : Expected) (n : Z) :
  nearest_integer (amount data * BigNumber._1e8) (fundValue_of data)
  /\ nearest_integer (exp_value expected * BigNumber._1e8)
       (expectedValue_of expected)
  /\ fundValue_of {| fund_scriptValues := fund_scriptValues data;
                     amount := inject_Z n / BigNumber._1e8 |} = n
  /\ expectedValue_of {| exp_value := inject_Z n / BigNumber._1e8;
                         exp_lockTime := exp_lockTime expected;
                         exp_recipientPublicKey :=
                           exp_recipientPublicKey expected;
                         exp_confidence := exp_confidence expected |} = n.
Proof.
  unfold fundValue_of, expectedValue_of, nearest_integer; simpl.
  rewrite !integerValue_multipliedBy.
  repeat split;
    try apply round_half_up_near;
    rewrite (round_comp _ _ _ (whole_satoshis n));
    apply integerValue_inject_Z.
Qed.

(* ===================================================================== *)
(** ** Refund *)
(* ===================================================================== *)

(** C10.  [refund(data, hashName)] is [withdraw(data, true, hashName)]:
    the same settlement and the same effects from every state. *)
Theorem refund_is_withdraw (swap : BtcSwap) (data : WithdrawData)
    (hashName : option string) (st : State) :
  refund swap data hashName st = withdraw swap data true hashName st.
Proof. reflexivity. Qed.

(* ===================================================================== *)
(** ** The fee *)
(* ===================================================================== *)

Section Fee.

Variable swap : BtcSwap.

Lemma getTxFee_quote (args : TxFeeArgs) (st : State) (q : Q) :
  estimateFeeValue swap (history st)
    {| req_inSatoshis := true;
       req_address := arg_address args;
       req_speed := match arg_speed args with Some s => s | None => "fast" end;
       req_method := "swap" |} = Normal q ->
  arg_inSatoshis args = true ->
  getTxFee swap args st
  = (Normal q, {| feeValue := q; history := history st |}).
Proof.
  intros Hq Hs. unfold getTxFee, bind, call, set_feeValue, ret.
  rewrite Hq, Hs. reflexivity.
Qed.

Lemma getTxFee_throws (args : TxFeeArgs) (st : State) (e : JsError) :
  estimateFeeValue swap (history st)
    {| req_inSatoshis := true;
       req_address := arg_address args;
       req_speed := match arg_speed args with Some s => s | None => "fast" end;
       req_method := "swap" |} = Throw e ->
  getTxFee swap args st = (Throw e, st).
Proof.
  intros Hq. unfold getTxFee, bind, call. rewrite Hq. reflexivity.
Qed.

Lemma getTxFee_history (args : TxFeeArgs) (st : State) :
  history (snd (getTxFee swap args st)) = history st.
Proof.
  unfold getTxFee, bind, call, set_feeValue, ret.
  destruct (estimateFeeValue swap (history st) _); reflexivity.
Qed.

End Fee.

(** C7 on the code.  Built without [estimateFeeValue] (and without
    [feeValue]), an instance starts with the field [feeValue] at 546, but
    [getTxFee] answers 0 to every request and overwrites the field with 0:
    the fee of the transactions built is 0, not 546. *)
Theorem fee_without_oracle_is_zero (options : Options) (a : App)
    (swap : BtcSwap) (st0 : State) (args : TxFeeArgs) (st : State) :
  opt_estimateFeeValue options = None ->
  opt_feeValue options = None ->
  constructor options a = Normal (swap, st0) ->
  feeValue st0 = inject_Z 546
  /\ getTxFee swap args st
     = (Normal 0%Q, {| feeValue := 0%Q; history := history st |})
  /\ BigNumber.integerValue 0%Q = 0.
Proof.
  intros Ho Hf Hc. unfold constructor in Hc.
  destruct (opt_fetchBalance options); [| discriminate].
  destruct (opt_fetchUnspents options); [| discriminate].
  destruct (opt_broadcastTx options); [| discriminate].
  rewrite Ho, Hf in Hc. injection Hc as <- <-.
  split; [reflexivity |]. split; [| reflexivity].
  unfold getTxFee, bind, call, set_feeValue, ret; simpl.
  destruct (arg_inSatoshis args); reflexivity.
Qed.

Lemma fee_without_oracle_is_zero_witness :
  feeValue (snd (Sample.built (Sample.options [] [] None None false)))
    = inject_Z 546
  /\ getTxFee (Sample.swap [] [] None None false)
       {| arg_inSatoshis := true; arg_size := None; arg_speed := None;
          arg_address := Some Sample.owner |} Sample.start
     = (Normal 0%Q, {| feeValue := 0%Q; history := [] |})
  /\ BigNumber.integerValue 0%Q = 0.
Proof.
  apply (fee_without_oracle_is_zero
           (Sample.options [] [] None None false) Sample.env);
    reflexivity.
Defined.

(** A funding built without an oracle: 1000 satoshis at the owner's
    address, 0.00001 BTC to lock.  The transaction pays 1000 to the HTLC
    and 0 back; nothing is left for a fee. *)
Example fundScript_without_oracle :
  fundScript
    (Sample.swap [Sample.utxo "a1" 1000 (Some 3)] [] None None false)
    {| fund_scriptValues := Sample.values; amount := 1 # 100000 |}
    false None Sample.start
  = (Resolved "sent",
     {| feeValue := 0%Q;
        history :=
          [Broadcast
             "lock 0 in a1:0 out 2N3HtlcAddress=1000 out mvOwnerAddress=0"] |}).
Proof. reflexivity. Qed.

(* ===================================================================== *)
(** ** Funding *)
(* ===================================================================== *)

Lemma history_grows_neq (evs : list event) (hist : list event) :
  evs <> [] -> (evs ++ hist)%list <> hist.
Proof.
  intros Hne Heq. apply (f_equal (@List.length event)) in Heq.
  rewrite length_app in Heq. destruct evs; [congruence | simpl in Heq; lia].
Qed.

Lemma funding_built (a : App) (unspents : list Unspent) (htlc : string)
    (fundValue change : Z) :
  unspent_set unspents ->
  payable a htlc -> payable a (getAddress a) ->
  0 <= fundValue <= TransactionBuilder.SATOSHI_MAX ->
  0 <= change <= TransactionBuilder.SATOSHI_MAX ->
  let tx0 :=
    fold_left
      (fun t u => TransactionBuilder.with_input (txid u) (vout u) None t)
      unspents TransactionBuilder.new in
  let tx1 := TransactionBuilder.with_output htlc fundValue tx0 in
  add_inputs a None unspents TransactionBuilder.new = Normal tx0
  /\ TransactionBuilder.addOutput a htlc fundValue tx0 = Normal tx1
  /\ TransactionBuilder.addOutput a (getAddress a) change tx1
     = Normal (TransactionBuilder.with_output (getAddress a) change tx1).
Proof.
  intros Hset Hhtlc Howner Hfund Hchange tx0 tx1.
  assert (Hs : TransactionBuilder.signed tx0 = false)
    by (apply signed_with_inputs; reflexivity).
  split; [apply add_inputs_new; trivial |].
  split; apply addOutput_accepted; trivial.
Qed.

(** C2.  The owner's unspent outputs are fetched (a set of outputs as the
    data model has them, of total [total]), the fee quote is [fee]
    satoshis, the amount to lock is a number of satoshis the builder
    takes ([0 <= fundValue <= 21 * 1e14], the change no more than that)
    and the two addresses decode.  Then [fundScript] fails with the
    "Total less than fee" error, before anything is sent, exactly when
    total < fundValue + fee.  Otherwise the transaction it broadcasts
    spends every fetched output, in order, and has the two outputs
    (HTLC address, fundValue) and (owner address, total - fundValue - fee),
    so that total = fundValue + change + fee with change >= 0. *)
Theorem fundScript_funding (swap : BtcSwap) (data : FundData)
    (handleTransactionHash : bool) (hashName : option string) (st : State)
    (unspents : list Unspent) (q : Q) (fee : Z) :
  let a := app swap in
  let htlc := scriptAddress (createScript a (fund_scriptValues data) hashName) in
  let total := sum_satoshis unspents in
  let fundValue := fundValue_of data in
  let change := total - fundValue - fee in
  let outcome := fundScript swap data handleTransactionHash hashName st in
  fetchUnspents swap (history st) (getAddress a) = Normal unspents ->
  estimateFeeValue swap (history st)
    {| req_inSatoshis := true; req_address := Some (getAddress a);
       req_speed := "fast"; req_method := "swap" |} = Normal q ->
  (q == inject_Z fee)%Q ->
  unspent_set unspents ->
  payable a htlc ->
  payable a (getAddress a) ->
  0 <= fundValue <= TransactionBuilder.SATOSHI_MAX ->
  change <= TransactionBuilder.SATOSHI_MAX ->
  (total < fundValue + fee <->
     fst outcome
     = Rejected (ReasonError
         (Error ("Total less than fee: " ++ JsString.of_Z total
                 ++ " < " ++ JsString.of_Z fee
                 ++ " + " ++ JsString.of_Z fundValue)))
     /\ history (snd outcome) = history st)
  /\ (fundValue + fee <= total ->
      exists tx : Transaction,
        let sent :=
          (Broadcast (toHex a tx)
           :: (if handleTransactionHash
               then [TransactionHash (getId a tx)] else []) ++ history st)%list in
        history (snd outcome) = sent
        /\ fst outcome
           = match broadcastTx swap sent (toHex a tx) with
             | Normal result => Resolved result
             | Throw err => Rejected (ReasonError err)
             end
        /\ tx_locktime tx = 0
        /\ input_outpoints tx = outpoints unspents
        /\ tx_outs tx = [output htlc fundValue; output (getAddress a) change]
        /\ total = fundValue + change + fee
        /\ 0 <= change).
Proof.
  intros a htlc total fundValue change outcome Hu Hq Hfee
    Hset Hhtlc Howner Hfund Hchange.
  assert (Hrun : exists tx : Transaction,
    shape tx = (0, outpoints unspents, List.map (fun _ => None) unspents,
                [output htlc fundValue; output (getAddress a) change])
    /\ outcome =
       if (total <? fee + fundValue)%Z then
         (Rejected (ReasonError
            (Error ("Total less than fee: " ++ JsString.of_Z total
                    ++ " < " ++ JsString.of_Z fee
                    ++ " + " ++ JsString.of_Z fundValue))),
          {| feeValue := q; history := history st |})
       else
         let sent :=
           (Broadcast (toHex a tx)
            :: (if handleTransactionHash
                then [TransactionHash (getId a tx)] else []) ++ history st)%list in
         (match broadcastTx swap sent (toHex a tx) with
          | Normal result => Resolved result
          | Throw err => Rejected (ReasonError err)
          end,
          {| feeValue := q; history := sent |})).
  { exists (sign_all_inputs a
              (TransactionBuilder.with_output (getAddress a) change
                 (TransactionBuilder.with_output htlc fundValue
                    (fold_left
                       (fun t u =>
                          TransactionBuilder.with_input (txid u) (vout u) None t)
                       unspents TransactionBuilder.new)))).
    split; cycle 1.
    - unfold outcome, fundScript, executor, bind, call. fold a.
      rewrite Hu.
      rewrite (getTxFee_quote swap _ st q) by (simpl; assumption || reflexivity).
      rewrite (integerValue_comp _ _ Hfee), integerValue_inject_Z.
      fold total fundValue change htlc.
      destruct (Z.ltb_spec total (fee + fundValue)) as [| Hge]; [reflexivity |].
      destruct (funding_built a unspents htlc fundValue change)
        as (E1 & E2 & E3); trivial; [unfold change; lia |].
      unfold lift. rewrite E1. cbv beta iota. rewrite E2. cbv beta iota.
      rewrite E3. cbv beta iota.
      unfold emit, ret, TransactionBuilder.buildIncomplete.
      destruct handleTransactionHash; cbn [history feeValue List.app];
        match goal with
        | |- context [broadcastTx swap ?h ?x] =>
            destruct (broadcastTx swap h x); reflexivity
        end.
    - rewrite sign_all_inputs_shape, !with_output_shape, with_inputs_shape.
      reflexivity. }
  destruct Hrun as (tx & Hshape & Hout).
  unfold shape in Hshape. injection Hshape as Hl Ho Hsq Hto.
  split.
  - rewrite Hout. destruct (Z.ltb_spec total (fee + fundValue)) as [Hlt | Hge]; simpl.
    + split; [intros _; split; reflexivity | intros _; lia].
    + split; [lia |]. intros [_ Hh]. exfalso.
      revert Hh.
      change (Broadcast (toHex a tx)
              :: (if handleTransactionHash
                  then [TransactionHash (getId a tx)] else []) ++ history st)%list
        with ((Broadcast (toHex a tx)
               :: (if handleTransactionHash
                   then [TransactionHash (getId a tx)] else []))
              ++ history st)%list.
      apply history_grows_neq. discriminate.
  - intros Hge. exists tx. rewrite Hout.
    destruct (Z.ltb_spec total (fee + fundValue)) as [Hlt | _]; [lia |].
    cbv zeta. simpl fst. simpl snd. simpl history.
    repeat split; try assumption; unfold change; lia.
Qed.

(** The sample outputs are outputs the builder takes, the sample
    addresses decode. *)
Lemma sample_unspent_set (value : Z) (confs : option Z) :
  unspent_set [Sample.utxo "a1" value confs].
Proof.
  split.
  - constructor; [| constructor]. repeat split; vm_compute; congruence.
  - constructor; [intros [] | constructor].
Qed.

Lemma sample_payable_owner : payable Sample.env Sample.owner.
Proof. vm_compute; discriminate. Qed.

Lemma sample_payable_htlc : payable Sample.env Sample.htlc.
Proof. vm_compute; discriminate. Qed.

Lemma fundScript_funding_witness :
  exists tx : Transaction,
    history
      (snd (fundScript
              (Sample.swap [Sample.utxo "a1" 100000000 (Some 3)] []
                 (Some (inject_Z 10000)) None false)
              {| fund_scriptValues := Sample.values; amount := 1 # 10 |}
              true None Sample.start))
    = [Broadcast (toHex Sample.env tx); TransactionHash (getId Sample.env tx)]
    /\ input_outpoints tx = [(Sample.txid_of "a1", 0)]
    /\ tx_outs tx
       = [output Sample.htlc 10000000; output Sample.owner 89990000].
Proof.
  destruct (fundScript_funding
              (Sample.swap [Sample.utxo "a1" 100000000 (Some 3)] []
                 (Some (inject_Z 10000)) None false)
              {| fund_scriptValues := Sample.values; amount := 1 # 10 |}
              true None Sample.start
              [Sample.utxo "a1" 100000000 (Some 3)] (inject_Z 10000) 10000
              eq_refl eq_refl (Qeq_refl _)
              (sample_unspent_set _ _) sample_payable_htlc
              sample_payable_owner) as [_ Hbuilt].
  - vm_compute. split; discriminate.
  - vm_compute. discriminate.
  - destruct Hbuilt as (tx & Hh & _ & _ & Hi & Ho & _).
    + vm_compute; discriminate.
    + exists tx. split; [exact Hh | split; [exact Hi | exact Ho]].
Defined.

(** An amount below zero passes the test on the total and is refused by
    the builder: the promise is rejected with the library's error and
    nothing is sent. *)
Example fundScript_negative_amount :
  fundScript
    (Sample.swap [Sample.utxo "a1" 1000 (Some 3)] []
       (Some (inject_Z 546)) None false)
    {| fund_scriptValues := Sample.values; amount := -1 # 100000 |}
    false None Sample.start
  = (Rejected
       (ReasonError (builder_error Sample.env (AddOutput Sample.htlc (-1000)))),
     {| feeValue := inject_Z 546; history := [] |}).
Proof. reflexivity. Qed.

(* ===================================================================== *)
(** ** Withdraw and refund *)
(* ===================================================================== *)

Section Redeem.

Variable swap : BtcSwap.
Variable data : WithdrawData.
Variable hashName : option string.

Local Notation "'htlc'" := (htlc_address swap data hashName).

(** The redeem path when the total is below the fee: nothing is built. *)
Lemma redeem_short (isRefund : bool) (st : State) (unspents : list Unspent)
    (q : Q) (fee : Z) :
  fetchUnspents swap (history st) htlc = Normal unspents ->
  estimateFeeValue swap (history st)
    {| req_inSatoshis := true; req_address := Some htlc;
       req_speed := "fast"; req_method := "swap" |} = Normal q ->
  (q == inject_Z fee)%Q ->
  let total := sum_satoshis unspents in
  let st' := {| feeValue := q; history := history st |} in
  total < fee ->
  getWithdrawRawTransaction swap data isRefund hashName st
  = match checkWithdraw swap with
    | Some probe =>
        match probe (history st) htlc with
        | Normal (Some w) =>
            if String.eqb (JsString.toLowerCase (wd_address w))
                 (JsString.toLowerCase (destAddress (app swap) data))
            then (Normal (AlreadyWithdrawed (wd_txid w)), st')
            else (Throw (less_than_fee total fee), st')
        | Normal None => (Throw (less_than_fee total fee), st')
        | Throw e => (Throw e, st')
        end
    | None => (Throw (less_than_fee total fee), st')
    end.
Proof.
  intros Hu Hq Hfee total st' Hlt.
  unfold getWithdrawRawTransaction, bind, call, htlc_address in *.
  rewrite Hu.
  rewrite (getTxFee_quote swap _ st q) by (simpl; assumption || reflexivity).
  rewrite (integerValue_comp _ _ Hfee), integerValue_inject_Z.
  fold total. fold st'.
  destruct (Z.ltb_spec total fee) as [_ | Hge]; [| lia].
  destruct (checkWithdraw swap) as [probe |]; [| reflexivity].
  change (history st') with (history st).
  match goal with
  | |- context [probe ?h ?x] => destruct (probe h x) as [[w |] | e]
  end; try reflexivity.
  match goal with
  | |- context [String.eqb ?x ?y] => destruct (String.eqb x y)
  end; reflexivity.
Qed.

(** The redeem path when the total covers the fee and the builder takes
    the lock time, the inputs and the output. *)
Lemma redeem_built (isRefund : bool) (st : State) (unspents : list Unspent)
    (q : Q) (fee : Z) :
  fetchUnspents swap (history st) htlc = Normal unspents ->
  estimateFeeValue swap (history st)
    {| req_inSatoshis := true; req_address := Some htlc;
       req_speed := "fast"; req_method := "swap" |} = Normal q ->
  (q == inject_Z fee)%Q ->
  (if isRefund then 0 <= lockTime (scriptValues data) <= 4294967295 else True) ->
  unspent_set unspents ->
  payable (app swap) (destAddress (app swap) data) ->
  0 <= sum_satoshis unspents - fee <= TransactionBuilder.SATOSHI_MAX ->
  let tx :=
    sign_script_inputs (app swap)
      (script (createScript (app swap) (scriptValues data) hashName))
      (secret data)
      (redeem_content swap data isRefund unspents fee)
      (redeem_content swap data isRefund unspents fee) in
  getWithdrawRawTransaction swap data isRefund hashName st
  = (Normal (RawTransaction (toHex (app swap) tx) (getId (app swap) tx)),
     {| feeValue := q; history := history st |})
  /\ shape tx
     = (if isRefund then lockTime (scriptValues data) else 0,
        outpoints unspents,
        List.map (fun _ => Some 4294967294) unspents,
        [output (destAddress (app swap) data) (sum_satoshis unspents - fee)]).
Proof.
  intros Hu Hq Hfee Hlock Hset Hdest Hvalue tx.
  split.
  - unfold getWithdrawRawTransaction, bind, call, htlc_address in *.
    rewrite Hu.
    rewrite (getTxFee_quote swap _ st q) by (simpl; assumption || reflexivity).
    rewrite (integerValue_comp _ _ Hfee), integerValue_inject_Z.
    destruct (Z.ltb_spec (sum_satoshis unspents) fee) as [| _]; [lia |].
    set (start := if isRefund
                  then TransactionBuilder.with_lockTime
                         (lockTime (scriptValues data)) TransactionBuilder.new
                  else TransactionBuilder.new).
    assert (E0 : (if isRefund
                  then lift (TransactionBuilder.setLockTime (app swap)
                               (lockTime (scriptValues data))
                               TransactionBuilder.new)
                  else ret TransactionBuilder.new)
                   {| feeValue := q; history := history st |}
                 = (Normal start, {| feeValue := q; history := history st |})).
    { unfold start. destruct isRefund; [| reflexivity].
      unfold lift. now rewrite setLockTime_accepted. }
    rewrite E0. cbv beta iota.
    assert (Hins : tx_ins start = []) by (unfold start; now destruct isRefund).
    unfold lift.
    rewrite (add_inputs_new (app swap) (Some 4294967294) unspents start)
      by (trivial; lia).
    cbv beta iota.
    rewrite addOutput_accepted; trivial.
    apply signed_with_inputs. unfold TransactionBuilder.signed.
    now rewrite Hins.
  - unfold tx, redeem_content.
    rewrite sign_script_inputs_shape, with_output_shape, with_inputs_shape.
    destruct isRefund; reflexivity.
Qed.

(** C3.  When the unspent outputs at the HTLC address (a set of outputs
    as the data model has them) total at least the fee, the lock time of
    a refund fits 32 bits, the destination decodes and the amount is one
    the builder takes, the transaction built has lock time
    [scriptValues.lockTime] for a refund and 0 otherwise, spends every
    one of those outputs with sequence number 0xFFFFFFFE, and has the
    single output paying total - fee to the destination, which is the
    local account's address when [destinationAddress] is not given. *)
Theorem withdraw_transaction_built (isRefund : bool) (st : State)
    (unspents : list Unspent) (q : Q) (fee : Z) :
  fetchUnspents swap (history st) htlc = Normal unspents ->
  estimateFeeValue swap (history st)
    {| req_inSatoshis := true; req_address := Some htlc;
       req_speed := "fast"; req_method := "swap" |} = Normal q ->
  (q == inject_Z fee)%Q ->
  fee <= sum_satoshis unspents ->
  (if isRefund then 0 <= lockTime (scriptValues data) <= 4294967295 else True) ->
  unspent_set unspents ->
  payable (app swap) (destAddress (app swap) data) ->
  sum_satoshis unspents - fee <= TransactionBuilder.SATOSHI_MAX ->
  exists tx : Transaction,
    getWithdrawRawTransaction swap data isRefund hashName st
    = (Normal (RawTransaction (toHex (app swap) tx) (getId (app swap) tx)),
       {| feeValue := q; history := history st |})
    /\ tx_locktime tx = (if isRefund then lockTime (scriptValues data) else 0)
    /\ input_outpoints tx = outpoints unspents
    /\ input_sequences tx = List.map (fun _ => Some 4294967294) unspents
    /\ 4294967294 = 0xFFFFFFFE
    /\ tx_outs tx
       = [output
            match destinationAddress data with
            | Some d => if JsString.truthy d then d else getAddress (app swap)
            | None => getAddress (app swap)
            end
            (sum_satoshis unspents - fee)].
Proof.
  intros Hu Hq Hfee Hge Hlock Hset Hdest Hmax.
  destruct (redeem_built isRefund st unspents q fee Hu Hq Hfee Hlock Hset Hdest)
    as (Hrun & Hshape); [lia |].
  eexists. split; [exact Hrun |].
  unfold shape in Hshape. injection Hshape as Hl Ho Hs Hout.
  repeat split; assumption || reflexivity.
Qed.

(** C6.  When the total at the HTLC address is below the fee: if a
    [checkWithdraw] probe is configured and reports a spend whose address
    equals the destination up to letter case, the redeem path returns
    [{ txId: the reported txid, alreadyWithdrawed: true }] and [withdraw]
    resolves with that txid, nothing broadcast, no event at all; if no
    probe is configured, or the reported address differs, the redeem path
    throws the "Total less than fee" error. *)
Theorem withdraw_already_withdrawn (isRefund : bool) (st : State)
    (unspents : list Unspent) (q : Q) (fee : Z) :
  fetchUnspents swap (history st) htlc = Normal unspents ->
  estimateFeeValue swap (history st)
    {| req_inSatoshis := true; req_address := Some htlc;
       req_speed := "fast"; req_method := "swap" |} = Normal q ->
  (q == inject_Z fee)%Q ->
  sum_satoshis unspents < fee ->
  let st' := {| feeValue := q; history := history st |} in
  (forall probe w,
      checkWithdraw swap = Some probe ->
      probe (history st) htlc = Normal (Some w) ->
      JsString.toLowerCase (wd_address w)
        = JsString.toLowerCase (destAddress (app swap) data) ->
      getWithdrawRawTransaction swap data isRefund hashName st
        = (Normal (AlreadyWithdrawed (wd_txid w)), st')
      /\ withdraw swap data isRefund hashName st = (Resolved (wd_txid w), st')
      /\ history st' = history st)
  /\ (checkWithdraw swap = None
      \/ (exists probe w,
             checkWithdraw swap = Some probe
             /\ probe (history st) htlc = Normal (Some w)
             /\ JsString.toLowerCase (wd_address w)
                  <> JsString.toLowerCase (destAddress (app swap) data)) ->
      getWithdrawRawTransaction swap data isRefund hashName st
        = (Throw (less_than_fee (sum_satoshis unspents) fee), st')
      /\ withdraw swap data isRefund hashName st
         = (Rejected (errorMessage (less_than_fee (sum_satoshis unspents) fee)),
            st')).
Proof.
  intros Hu Hq Hfee Hlt st'.
  pose proof (redeem_short isRefund st unspents q fee Hu Hq Hfee Hlt) as Hrun.
  fold st' in Hrun.
  split.
  - intros probe w Hp Hw Heq.
    rewrite Hp, Hw, Heq, String.eqb_refl in Hrun.
    split; [exact Hrun |]. split; [| reflexivity].
    unfold withdraw, executor, bind. rewrite Hrun. reflexivity.
  - intros Hcase.
    assert (Hthrow :
      getWithdrawRawTransaction swap data isRefund hashName st
      = (Throw (less_than_fee (sum_satoshis unspents) fee), st')).
    { destruct Hcase as [Hnone | (probe & w & Hp & Hw & Hneq)].
      - rewrite Hnone in Hrun. exact Hrun.
      - rewrite Hp, Hw in Hrun.
        apply String.eqb_neq in Hneq. rewrite Hneq in Hrun. exact Hrun. }
    split; [exact Hthrow |].
    unfold withdraw, executor, bind. rewrite Hthrow. reflexivity.
Qed.

(** C8 on the code.  After a redeem transaction has been built and its
    broadcast answered, [withdraw] has called [broadcastTx], then waited
    with [waitDelay(10)], then looked the transaction up; when [checkTX]
    does not find it the promise is rejected with the bare text
    'TX not found. Try it later. ': the second argument of [reject], the
    txid, is dropped, so the rejection is the same for every txid. *)
Theorem withdraw_tx_not_found (isRefund : bool) (st st1 : State)
    (hex id result : string) :
  getWithdrawRawTransaction swap data isRefund hashName st
    = (Normal (RawTransaction hex id), st1) ->
  let sent := Broadcast hex :: history st1 in
  let waited := WaitDelay 10 :: sent in
  broadcastTx swap sent hex = Normal result ->
  fst (checkTX swap id {| feeValue := feeValue st1; history := waited |})
    = Normal false ->
  withdraw swap data isRefund hashName st
  = (Rejected (ReasonString "TX not found. Try it later. "),
     {| feeValue := feeValue st1; history := waited |}).
Proof.
  intros Hraw sent waited Hb Hc.
  unfold withdraw, executor, bind. rewrite Hraw.
  unfold emit, call; cbn [history feeValue]. fold sent. rewrite Hb.
  fold waited. revert Hc. unfold checkTX, bind, call, ret; cbn [history].
  destruct (fetchTxInfo swap waited id) as [info | e]; cbn [fst];
    [| discriminate].
  intros Hc. injection Hc as ->. reflexivity.
Qed.

End Redeem.

Lemma withdraw_transaction_built_witness :
  exists tx : Transaction,
    getWithdrawRawTransaction
      (Sample.swap [] [Sample.utxo "a1" 10000000 (Some 3)]
         (Some (inject_Z 10000)) None false)
      (Sample.withdrawal None) true None Sample.start
    = (Normal (RawTransaction (toHex Sample.env tx) (getId Sample.env tx)),
       {| feeValue := inject_Z 10000; history := [] |})
    /\ tx_locktime tx = 1700000000
    /\ input_outpoints tx = [(Sample.txid_of "a1", 0)]
    /\ input_sequences tx = [Some 4294967294]
    /\ tx_outs tx = [output Sample.owner 9990000].
Proof.
  destruct (withdraw_transaction_built
              (Sample.swap [] [Sample.utxo "a1" 10000000 (Some 3)]
                 (Some (inject_Z 10000)) None false)
              (Sample.withdrawal None) None true Sample.start
              [Sample.utxo "a1" 10000000 (Some 3)] (inject_Z 10000) 10000
              eq_refl eq_refl (Qeq_refl _))
    as (tx & Hrun & Hl & Hi & Hs & _ & Ho).
  - vm_compute; discriminate.
  - vm_compute. split; discriminate.
  - apply sample_unspent_set.
  - apply sample_payable_owner.
  - vm_compute; discriminate.
  - exists tx. repeat split; assumption.
Defined.

Lemma withdraw_already_withdrawn_witness :
  withdraw
    (Sample.swap [] [] (Some (inject_Z 10000))
       (Some (Some {| wd_address := "MVOWNERaddress"; wd_txid := "beef" |}))
       false)
    (Sample.withdrawal None) false None Sample.start
  = (Resolved "beef", {| feeValue := inject_Z 10000; history := [] |})
  /\ getWithdrawRawTransaction
       (Sample.swap [] [] (Some (inject_Z 10000)) None false)
       (Sample.withdrawal None) false None Sample.start
     = (Throw (less_than_fee 0 10000),
        {| feeValue := inject_Z 10000; history := [] |}).
Proof.
  split.
  - destruct (withdraw_already_withdrawn
                (Sample.swap [] [] (Some (inject_Z 10000))
                   (Some (Some {| wd_address := "MVOWNERaddress";
                                  wd_txid := "beef" |})) false)
                (Sample.withdrawal None) None false Sample.start
                [] (inject_Z 10000) 10000 eq_refl eq_refl (Qeq_refl _))
      as [Hyes _].
    + vm_compute; reflexivity.
    + destruct (Hyes _ _ eq_refl eq_refl eq_refl) as (_ & Hw & _). exact Hw.
  - destruct (withdraw_already_withdrawn
                (Sample.swap [] [] (Some (inject_Z 10000)) None false)
                (Sample.withdrawal None) None false Sample.start
                [] (inject_Z 10000) 10000 eq_refl eq_refl (Qeq_refl _))
      as [_ Hno].
    + vm_compute; reflexivity.
    + exact (proj1 (Hno (or_introl eq_refl))).
Defined.

Lemma withdraw_tx_not_found_witness :
  withdraw
    (Sample.swap [] [Sample.utxo "a1" 10000000 (Some 3)]
       (Some (inject_Z 10000)) None false)
    (Sample.withdrawal None) false None Sample.start
  = (Rejected (ReasonString "TX not found. Try it later. "),
     {| feeValue := inject_Z 10000;
        history :=
          [WaitDelay 10;
           Broadcast "lock 0 in a1:0#4294967294 out mvOwnerAddress=9990000"] |}).
Proof.
  apply (withdraw_tx_not_found
           (Sample.swap [] [Sample.utxo "a1" 10000000 (Some 3)]
              (Some (inject_Z 10000)) None false)
           (Sample.withdrawal None) None false Sample.start
           {| feeValue := inject_Z 10000; history := [] |}
           "lock 0 in a1:0#4294967294 out mvOwnerAddress=9990000" "ab1" "sent");
    reflexivity.
Defined.

(** A lock time that does not fit 32 bits is refused by the builder: the
    refund throws the library's error. *)
Example refund_lockTime_out_of_range :
  getWithdrawRawTransaction
    (Sample.swap [] [Sample.utxo "a1" 10000000 (Some 3)]
       (Some (inject_Z 10000)) None false)
    {| scriptValues :=
         {| secretHash := "c0ffee"; ownerPublicKey := "02aa";
            recipientPublicKey := "03bb"; lockTime := 4294967296 |};
       secret := "0xc0de"; destinationAddress := None |}
    true None Sample.start
  = (Throw (builder_error Sample.env (SetLockTime 4294967296)),
     {| feeValue := inject_Z 10000; history := [] |}).
Proof. reflexivity. Qed.

(** When the gateway's index has the transaction, the same withdrawal
    resolves with its txid. *)
Example withdraw_found :
  fst (withdraw
         (Sample.swap [] [Sample.utxo "a1" 10000000 (Some 3)]
            (Some (inject_Z 10000)) None true)
         (Sample.withdrawal None) false None Sample.start)
  = Resolved "ab1".
Proof. reflexivity. Qed.

(** *** The [catch] block of [withdraw] *)

(** Whatever the redeem path or the broadcast throws reaches the caller
    through [errorMessage]. *)
Lemma withdraw_rejects_thrown (swap : BtcSwap) (data : WithdrawData)
    (isRefund : bool) (hashName : option string) (st st1 : State)
    (error : JsError) :
  getWithdrawRawTransaction swap data isRefund hashName st
    = (Throw error, st1) ->
  withdraw swap data isRefund hashName st = (Rejected (errorMessage error), st1).
Proof.
  intros Hraw. unfold withdraw, executor, bind. rewrite Hraw. reflexivity.
Qed.

Lemma withdraw_rejects_broadcast (swap : BtcSwap) (data : WithdrawData)
    (isRefund : bool) (hashName : option string) (st st1 : State)
    (hex id : string) (error : JsError) :
  getWithdrawRawTransaction swap data isRefund hashName st
    = (Normal (RawTransaction hex id), st1) ->
  broadcastTx swap (Broadcast hex :: history st1) hex = Throw error ->
  withdraw swap data isRefund hashName st
  = (Rejected (errorMessage error),
     {| feeValue := feeValue st1; history := Broadcast hex :: history st1 |}).
Proof.
  intros Hraw Hb. unfold withdraw, executor, bind. rewrite Hraw.
  unfold emit, call; cbn [history feeValue]. rewrite Hb. reflexivity.
Qed.

Lemma prefix_append (p s : string) : prefix p (p ++ s) = true.
Proof.
  induction p as [| c p IH]; simpl.
  - now destruct s.
  - destruct (ascii_dec c c); [exact IH | contradiction].
Qed.

Lemma includes_prefix (p s : string) :
  JsString.includes p (p ++ s) = true.
Proof.
  assert (Hu : forall x, JsString.includes p x
                         = prefix p x
                           || match x with
                              | EmptyString => false
                              | String _ r => JsString.includes p r
                              end)
    by (intros x; destruct x; reflexivity).
  rewrite Hu, prefix_append. reflexivity.
Qed.

(** A gateway error whose response text has [non-final] becomes
    'Try it later'. *)
Lemma errorMessage_non_final (error : JsError) (text : string) :
  res_text error = Some text ->
  JsString.RegExp_test "non-final" text = true ->
  errorMessage error = ReasonString "Try it later".
Proof. intros Hr Ht. unfold errorMessage. now rewrite Hr, Ht. Qed.

(** The error thrown for a total of 0 becomes 'Address is empty'. *)
Lemma errorMessage_address_empty (fee : Z) :
  errorMessage (less_than_fee 0 fee) = ReasonString "Address is empty".
Proof.
  unfold errorMessage, less_than_fee, Error, JsString.RegExp_test;
    cbn [res_text message].
  change ("Total less than fee: " ++ JsString.of_Z 0 ++ " < " ++ JsString.of_Z fee)
    with ("Total less than fee: 0" ++ (" < " ++ JsString.of_Z fee)).
  rewrite includes_prefix.
  change ("Total less than fee: 0" ++ (" < " ++ JsString.of_Z fee))
    with ("Total less than fee" ++ (": 0 < " ++ JsString.of_Z fee)).
  rewrite includes_prefix. reflexivity.
Qed.

(* ===================================================================== *)
(** ** Confidence *)
(* ===================================================================== *)

Section Confidence.

Variable swap : BtcSwap.

(** A quotient below 1 still is at most 1 with 20 decimal places. *)
Lemma dividedBy_unit (f fast : Q) :
  (0 <= f)%Q -> (f < fast)%Q ->
  (0 <= BigNumber.dividedBy f fast <= 1)%Q.
Proof.
  intros Hf Hlt. unfold BigNumber.dividedBy, BigNumber.ROUNDING_MODE.
  rewrite Qred_correct.
  change (inject_Z (10 ^ BigNumber.DECIMAL_PLACES))
    with (inject_Z 100000000000000000000).
  assert (Hpos : (0 < fast)%Q) by lra.
  assert (Hlo : (0 <= f / fast)%Q)
    by (apply Qle_shift_div_l; [assumption | lra]).
  assert (Hhi : (f / fast <= 1)%Q)
    by (apply Qle_shift_div_r; [assumption | lra]).
  set (z := (f / fast * inject_Z 100000000000000000000)%Q).
  assert (Hz : (0 <= z /\ z <= inject_Z 100000000000000000000)%Q).
  { unfold z. split.
    - apply Qmult_le_0_compat; [assumption | discriminate].
    - setoid_replace (inject_Z 100000000000000000000)
        with (1 * inject_Z 100000000000000000000)%Q at 2 by ring.
      apply Qmult_le_compat_r; [assumption | discriminate]. }
  destruct (round_half_up_near z) as [Hl Hu].
  set (r := BigNumber.round BigNumber.ROUND_HALF_UP z) in *. clearbody r.
  assert (H0 : 0 <= r).
  { assert (H : (inject_Z (-1) < inject_Z r)%Q)
      by (change (inject_Z (-1)) with (-1)%Q; lra).
    rewrite <- Zlt_Qlt in H. lia. }
  assert (H1 : r <= 100000000000000000000).
  { assert (H : (inject_Z r < inject_Z (100000000000000000000 + 1))%Q)
      by (rewrite inject_Z_plus; change (inject_Z 1) with 1%Q; lra).
    rewrite <- Zlt_Qlt in H. lia. }
  rewrite Zle_Qle in H0, H1. change (inject_Z 0) with 0%Q in H0.
  split.
  - apply Qle_shift_div_l; [reflexivity | lra].
  - apply Qle_shift_div_r; [reflexivity | lra].
Qed.

Lemma Qle_bool_false (x y : Q) : (y < x)%Q -> Qle_bool x y = false.
Proof.
  intros Hlt. destruct (Qle_bool x y) eqn:E; [| reflexivity].
  apply Qle_bool_iff in E. lra.
Qed.

Lemma Qle_bool_true (x y : Q) : (x <= y)%Q -> Qle_bool x y = true.
Proof. apply Qle_bool_iff. Qed.

Lemma Qle_bool_lt (x y : Q) : Qle_bool x y = false -> (y < x)%Q.
Proof.
  intros E. apply Qnot_le_lt. intros H. apply Qle_bool_iff in H. congruence.
Qed.

(** [fetchConfidence] never throws and does nothing to the outside. *)
Lemma fetchConfidence_returns (level : Q) (u : Unspent) (st : State) :
  exists q st',
    fetchConfidence swap level u st = (Normal q, st')
    /\ history st' = history st.
Proof.
  unfold fetchConfidence.
  destruct (BigNumber.isGreaterThanOrEqualTo _ level).
  - eexists _, st. split; reflexivity.
  - unfold try_catch, bind, call, throw, ret.
    destruct (fetchTxInfo swap (history st) (txid u)) as [[i |] | e];
      try (eexists _, st; split; reflexivity).
    destruct (fees i) as [f |]; [| eexists _, st; split; reflexivity].
    destruct (Number_truthy f); [| eexists _, st; split; reflexivity].
    unfold feesToConfidence, bind, ret.
    pose proof (getTxFee_history swap
                  {| arg_inSatoshis := true; arg_size := size i;
                     arg_speed := Some "fast";
                     arg_address := senderAddress i |} st) as Hh.
    destruct (getTxFee swap _ st) as [[fast | e] st1]; simpl in Hh;
      eexists _, st1; split; reflexivity || exact Hh.
Qed.

Lemma mapM_fetchConfidence_returns (level : Q) (unspents : list Unspent) :
  forall st, exists qs st',
    mapM (fetchConfidence swap level) unspents st = (Normal qs, st')
    /\ history st' = history st.
Proof.
  induction unspents as [| u r IH]; intros st; simpl.
  - exists [], st. split; reflexivity.
  - destruct (fetchConfidence_returns level u st) as (q & st1 & Hq & Hh1).
    destruct (IH st1) as (qs & st2 & Hqs & Hh2).
    exists (q :: qs), st2. unfold bind, ret. rewrite Hq, Hqs.
    split; [reflexivity | congruence].
Qed.

Lemma filterConfidentUnspents_returns (unspents : list Unspent)
    (c : option Q) (st : State) :
  exists confident st',
    filterConfidentUnspents swap unspents c st = (Normal confident, st')
    /\ history st' = history st.
Proof.
  unfold filterConfidentUnspents, bind, ret.
  destruct (mapM_fetchConfidence_returns
              match c with Some l => l | None => default_confidence end
              unspents st) as (qs & st' & Hqs & Hh).
  rewrite Hqs. eexists _, st'. split; [reflexivity | exact Hh].
Qed.

Section Quotes.

Variable hist : list event.

(** The oracle answers every request, and never with a negative fee. *)
Hypothesis quote_nonneg :
  forall request, exists fast,
    estimateFeeValue swap hist request = Normal fast /\ (0 <= fast)%Q.

(** The fees a transaction is reported to have paid are not negative. *)
Hypothesis fees_nonneg :
  forall id info f,
    fetchTxInfo swap hist id = Normal (Some info) ->
    fees info = Some f -> (0 <= f)%Q.

(** Between 0 and 1 the numbers of the runtime stay between 0 and 1. *)
Hypothesis number_unit :
  forall x, (0 <= x <= 1)%Q -> (0 <= toNumber (app swap) x <= 1)%Q.

Lemma rounded_ratio_range (f fast : Q) :
  (0 <= f)%Q ->
  (0 <= rounded_ratio (app swap) f fast <= 1)%Q.
Proof.
  intros Hf. unfold rounded_ratio.
  destruct (Qle_bool fast f) eqn:Hle; [lra |].
  apply number_unit, dividedBy_unit; [assumption |].
  now apply Qle_bool_lt.
Qed.

Lemma rounded_unconfirmed_range (u : Unspent) :
  (0 <= rounded_unconfirmed_confidence swap hist u <= 1)%Q.
Proof.
  unfold rounded_unconfirmed_confidence.
  destruct (fetchTxInfo swap hist (txid u)) as [[i |] | e] eqn:Hi;
    try lra.
  destruct (fees i) as [f |] eqn:Hf; [| lra].
  match goal with
  | |- context [estimateFeeValue swap hist ?r] =>
      destruct (quote_nonneg r) as (fast & -> & Hpos)
  end.
  destruct (Qeq_bool f 0); [lra |].
  apply rounded_ratio_range. eauto.
Qed.

(** Past the shortcut on confirmations, [fetchConfidence] returns either
    the rounded ratio, or the value from the confirmations and then the
    rounded ratio is 0. *)
Lemma fetchConfidence_slow (level : Q) (u : Unspent) (st : State) :
  history st = hist ->
  Qle_bool level (confirmationsToConfidence (confirmations u)) = false ->
  exists q st',
    fetchConfidence swap level u st = (Normal q, st')
    /\ history st' = hist
    /\ ((q = confirmationsToConfidence (confirmations u)
         /\ rounded_unconfirmed_confidence swap hist u = 0%Q)
        \/ q = rounded_unconfirmed_confidence swap hist u).
Proof.
  intros Hst Hslow.
  unfold fetchConfidence, BigNumber.isGreaterThanOrEqualTo. rewrite Hslow.
  unfold try_catch, bind, call, throw, ret. rewrite Hst.
  unfold rounded_unconfirmed_confidence.
  destruct (fetchTxInfo swap hist (txid u)) as [[i |] | e];
    [ destruct (fees i) as [f |];
      [ destruct (Number_truthy f) eqn:Htruthy | ] | | ];
    try (eexists _, st; split; [reflexivity |]; split; [assumption |];
         left; split; reflexivity).
  - destruct (quote_nonneg
                {| req_inSatoshis := true; req_address := senderAddress i;
                   req_speed := "fast"; req_method := "swap" |})
      as (fast & Hfast & Hpos).
    unfold feesToConfidence, bind, ret.
    rewrite (getTxFee_quote swap _ st fast)
      by (try rewrite Hst; first [exact Hfast | reflexivity]).
    rewrite Hfast.
    eexists _, _. split; [reflexivity |]. split; [exact Hst |].
    right. unfold Number_truthy in Htruthy.
    apply negb_true_iff in Htruthy. rewrite Htruthy.
    unfold rounded_ratio, BigNumber.isLessThan.
    now destruct (Qle_bool fast f).
  - destruct (quote_nonneg
                {| req_inSatoshis := true; req_address := senderAddress i;
                   req_speed := "fast"; req_method := "swap" |})
      as (fast & -> & Hpos).
    eexists _, st. split; [reflexivity |]. split; [assumption |].
    left. split; [reflexivity |].
    unfold Number_truthy in Htruthy. apply negb_false_iff in Htruthy.
    now rewrite Htruthy.
Qed.

(** The confidence [fetchConfidence] computes is on the same side of the
    level as the rounded one. *)
Lemma fetchConfidence_agrees (level : Q) (u : Unspent) (st : State) :
  history st = hist ->
  exists q st',
    fetchConfidence swap level u st = (Normal q, st')
    /\ history st' = hist
    /\ Qle_bool level q = Qle_bool level (rounded_confidence swap hist u).
Proof.
  intros Hst.
  pose proof (rounded_unconfirmed_range u) as [Hlo Hhi].
  destruct (Qle_bool level (confirmationsToConfidence (confirmations u)))
    eqn:Hfast.
  - exists (confirmationsToConfidence (confirmations u)), st.
    split; [| split; [assumption |]].
    + unfold fetchConfidence, BigNumber.isGreaterThanOrEqualTo.
      now rewrite Hfast.
    + rewrite Hfast. symmetry. apply Qle_bool_true.
      apply Qle_bool_iff in Hfast. revert Hfast.
      unfold rounded_confidence, confirmationsToConfidence.
      destruct (confirmations u) as [[| p | p] |]; simpl; intros; lra.
  - destruct (fetchConfidence_slow level u st Hst Hfast)
      as (q & st' & Hrun & Hh & Hq).
    exists q, st'. split; [exact Hrun |]. split; [exact Hh |].
    apply Qle_bool_lt in Hfast. revert Hfast Hq.
    unfold rounded_confidence, confirmationsToConfidence.
    destruct (confirmations u) as [[| p | p] |]; simpl;
      intros Hfast [[-> Hz] | ->];
      try reflexivity;
      try (rewrite !Qle_bool_false by lra; reflexivity);
      try (rewrite Hz; reflexivity).
Qed.

Lemma mapM_fetchConfidence_agrees (level : Q) (unspents : list Unspent) :
  forall st,
    history st = hist ->
    exists qs st',
      mapM (fetchConfidence swap level) unspents st = (Normal qs, st')
      /\ history st' = hist
      /\ List.map fst
           (filter (fun uc => BigNumber.isGreaterThanOrEqualTo (snd uc) level)
              (combine unspents qs))
         = filter (fun u => Qle_bool level (rounded_confidence swap hist u))
             unspents.
Proof.
  induction unspents as [| u r IH]; intros st Hst; simpl.
  - exists [], st. repeat split; assumption || reflexivity.
  - destruct (fetchConfidence_agrees level u st Hst)
      as (q & st1 & Hq & Hh1 & Hside).
    destruct (IH st1 Hh1) as (qs & st2 & Hqs & Hh2 & Hfilter).
    exists (q :: qs), st2. unfold bind, ret. rewrite Hq, Hqs.
    split; [reflexivity |]. split; [exact Hh2 |].
    simpl. unfold BigNumber.isGreaterThanOrEqualTo at 1. simpl snd.
    rewrite Hside.
    destruct (Qle_bool level (rounded_confidence swap hist u)); simpl;
      now rewrite Hfilter.
Qed.

End Quotes.

(** C5 as it is worded fails on the numbers of the runtime.  An output
    without confirmation paid fees of 5000 where the fast fee is 7000, and
    the level is the number 0.7142857142857143.  The quotient 5/7 is below
    the level, so the words leave the output out; the class keeps it,
    because 5/7 with 20 decimal places becomes the double that is written
    0.7142857142857143. *)
Lemma confidence_quotient_is_rounded :
  let swap := Sample.swap [] [] (Some (inject_Z 7000)) None false in
  let u := Sample.utxo "f1" 7 None in
  let c := (7142857142857143 # 10000000000000000)%Q in
  fst (filterConfidentUnspents swap [u] (Some c) Sample.start) = Normal [u]
  /\ spec_confident_subset swap [] [u] (Some c) = []
  /\ spec_confidence swap [] u == 5 # 7.
Proof. repeat split; vm_compute; reflexivity. Qed.

(** C5, amended.  With an oracle that never quotes a negative fee,
    transaction information whose fees are not negative and numbers that
    stay between 0 and 1 when they are there, [filterConfidentUnspents]
    returns exactly the unspent outputs whose confidence is at least the
    level (0.95 when none is given), in their order, where the confidence
    is 1 for an output with a confirmation, otherwise min(1, fees / f)
    with a quotient below 1 rounded to 20 decimal places and then to the
    nearest number of the runtime, and 0 when the transaction information
    fails or carries no fees; it does not throw and does nothing to the
    outside. *)
Theorem filterConfidentUnspents_subset (unspents : list Unspent)
    (c : option Q) (st : State) :
  (forall request, exists fast,
      estimateFeeValue swap (history st) request = Normal fast
      /\ (0 <= fast)%Q) ->
  (forall id info f,
      fetchTxInfo swap (history st) id = Normal (Some info) ->
      fees info = Some f -> (0 <= f)%Q) ->
  (forall x, (0 <= x <= 1)%Q -> (0 <= toNumber (app swap) x <= 1)%Q) ->
  exists st',
    filterConfidentUnspents swap unspents c st
    = (Normal (rounded_confident_subset swap (history st) unspents c), st')
    /\ history st' = history st.
Proof.
  intros Hquote Hfees Hunit.
  unfold filterConfidentUnspents, rounded_confident_subset, bind, ret.
  destruct (mapM_fetchConfidence_agrees (history st) Hquote Hfees Hunit
              match c with Some l => l | None => default_confidence end
              unspents st eq_refl) as (qs & st' & Hqs & Hh & Hfilter).
  rewrite Hqs. exists st'. split; [| exact Hh].
  rewrite Hfilter. reflexivity.
Qed.

(** C4.  Once the unspent outputs at the script address are fetched,
    [checkScript] returns; it returns [undefined] if and only if
    expectedValue <= totalUnspent, expected.lockTime <= lockTime,
    the recipient keys are equal and expectedValue <= the total of the
    outputs [filterConfidentUnspents] keeps; otherwise it returns a
    string. *)
Theorem checkScript_verdict (data : ScriptValues) (expected : Expected)
    (hashName : option string) (st : State) (unspents : list Unspent) :
  fetchUnspents swap (history st)
    (scriptAddress (createScript (app swap) data hashName))
    = Normal unspents ->
  let level := match exp_confidence expected with
               | Some l => l
               | None => 95 # 100
               end in
  exists (verdict : option string) (confident : list Unspent) (st' : State),
    checkScript swap data expected hashName st = (Normal verdict, st')
    /\ fst (filterConfidentUnspents swap unspents (Some level) st)
       = Normal confident
    /\ (verdict = None <->
        expectedValue_of expected <= sum_satoshis unspents
        /\ exp_lockTime expected <= lockTime data
        /\ exp_recipientPublicKey expected = recipientPublicKey data
        /\ expectedValue_of expected <= sum_satoshis confident)
    /\ (verdict = None \/ exists reason, verdict = Some reason).
Proof.
  intros Hu level.
  destruct (filterConfidentUnspents_returns unspents (Some level) st)
    as (confident & st' & Hc & _).
  unfold checkScript, bind, call. rewrite Hu.
  change default_confidence with (95 # 100). fold level. rewrite Hc.
  unfold ret.
  destruct (Z.ltb_spec (sum_satoshis unspents) (expectedValue_of expected));
    [ failing_verdict confident st'; lia |].
  destruct (Z.ltb_spec (lockTime data) (exp_lockTime expected));
    [ failing_verdict confident st'; lia |].
  destruct (String.eqb_spec (exp_recipientPublicKey expected)
              (recipientPublicKey data)); cbn [negb];
    [| failing_verdict confident st'; contradiction ].
  destruct (Z.ltb_spec (sum_satoshis confident) (expectedValue_of expected));
    [ failing_verdict confident st'; lia |].
  exists None, confident, st'.
  split; [reflexivity |]. split; [reflexivity |].
  split; [| left; reflexivity].
  split; [intros _; repeat split; assumption | reflexivity].
Qed.

End Confidence.

(* ===================================================================== *)
(** ** The doubles of the sample runtime *)
(* ===================================================================== *)

(** Between 0 and 1 the doubles, and the decimals they are written
    with, stay between 0 and 1. *)
Section Doubles.

Local Open Scope Q_scope.

Lemma round_half_even_le (y : Q) (N : Z) :
  y <= inject_Z N -> (Sample.round_half_even y <= N)%Z.
Proof.
  intros Hy. unfold Sample.round_half_even.
  pose proof (Qfloor_le y) as Hf.
  assert (Hfl : (Qfloor y <= N)%Z).
  { rewrite <- (Qfloor_Z N). now apply Qfloor_resp_le. }
  assert (Hhalf : 1 # 2 <= y - inject_Z (Qfloor y) -> (Qfloor y + 1 <= N)%Z).
  { intros H.
    assert (Hlt : inject_Z (Qfloor y) < inject_Z N) by lra.
    rewrite <- Zlt_Qlt in Hlt. lia. }
  destruct (Qcompare_spec (y - inject_Z (Qfloor y)) (1 # 2)) as [E | L | G].
  - destruct (Z.even (Qfloor y)); [exact Hfl | apply Hhalf; lra].
  - exact Hfl.
  - apply Hhalf; lra.
Qed.

Lemma round_half_even_ge (y : Q) (N : Z) :
  inject_Z N <= y -> (N <= Sample.round_half_even y)%Z.
Proof.
  intros Hy. unfold Sample.round_half_even.
  assert (Hfl : (N <= Qfloor y)%Z).
  { rewrite <- (Qfloor_Z N). now apply Qfloor_resp_le. }
  destruct (Qcompare _ _); [destruct (Z.even _) | |]; lia.
Qed.

Lemma two_power (n : Z) : (0 <= n)%Z -> 2 ^ n == inject_Z (2 ^ n).
Proof. intros Hn. now rewrite Zpower_Qpower. Qed.

Lemma ilog2_le_0 (x : Q) : 0 < x -> x <= 1 -> (Sample.ilog2 x <= 0)%Z.
Proof.
  intros Hpos Hle. unfold Sample.ilog2.
  destruct x as [n d]. unfold Qlt, Qle in *; cbn [Qnum Qden] in *.
  assert (H : (Z.log2 n <= Z.log2 (Z.pos d))%Z) by (apply Z.log2_le_mono; lia).
  destruct (Qle_bool _ _); lia.
Qed.

Lemma ilog2_ge_0 (x : Q) : 1 <= x -> (0 <= Sample.ilog2 x)%Z.
Proof.
  intros Hle. unfold Sample.ilog2.
  assert (H : (Z.log2 (Z.pos (Qden x)) <= Z.log2 (Qnum x))%Z).
  { apply Z.log2_le_mono. unfold Qle in Hle; cbn [Qnum Qden] in Hle. lia. }
  destruct (Z.eq_dec (Z.log2 (Qnum x) - Z.log2 (Z.pos (Qden x))) 0) as [E | N].
  - rewrite E. change (2 ^ 0) with 1.
    now rewrite (proj2 (Qle_bool_iff 1 x) Hle).
  - destruct (Qle_bool _ _); lia.
Qed.

Lemma ilog2_spec (x : Q) : 0 < x -> 2 ^ Sample.ilog2 x <= x.
Proof.
  intros Hpos. unfold Sample.ilog2.
  destruct (Qle_bool _ x) eqn:E; [now apply Qle_bool_iff |].
  destruct x as [n d]. unfold Qlt in Hpos; cbn [Qnum Qden] in *.
  assert (Hn : (0 < n)%Z) by lia.
  pose proof (Z.log2_spec n Hn) as [Hn1 _].
  pose proof (Z.log2_spec (Z.pos d) eq_refl) as [_ Hd2].
  pose proof (Z.log2_nonneg n) as Ha.
  pose proof (Z.log2_nonneg (Z.pos d)) as Hb.
  set (a := Z.log2 n) in *. set (b := Z.log2 (Z.pos d)) in *.
  replace (a - b - 1)%Z with (a - Z.succ b)%Z by lia.
  rewrite Qpower_minus by discriminate.
  rewrite !two_power by lia.
  assert (Hp : (0 < 2 ^ Z.succ b)%Z) by (apply Z.pow_pos_nonneg; lia).
  apply Qle_shift_div_r.
  - change 0 with (inject_Z 0). rewrite <- Zlt_Qlt. exact Hp.
  - unfold Qle, Qmult; simpl. rewrite Z.mul_1_r.
    assert (2 ^ a * Z.pos d <= n * 2 ^ Z.succ b)%Z by nia. lia.
Qed.

Lemma nearest_double_nonneg (x : Q) : 0 <= Sample.nearest_double x.
Proof.
  unfold Sample.nearest_double.
  destruct (Qle_bool x 0) eqn:E; [lra |].
  rewrite Qred_correct.
  apply Qmult_le_0_compat.
  - change 0 with (inject_Z 0). rewrite <- Zle_Qle.
    apply round_half_even_ge. change (inject_Z 0) with 0.
    apply Qmult_le_0_compat.
    + apply Qlt_le_weak, Qnot_le_lt. intros H.
      apply Qle_bool_iff in H. congruence.
    + apply Qpower_0_le. discriminate.
  - apply Qpower_0_le. discriminate.
Qed.

Lemma nearest_double_le_1 (x : Q) : x <= 1 -> Sample.nearest_double x <= 1.
Proof.
  intros Hle. unfold Sample.nearest_double.
  destruct (Qle_bool x 0) eqn:E; [lra |].
  assert (Hpos : 0 < x).
  { apply Qnot_le_lt. intros H. apply Qle_bool_iff in H. congruence. }
  pose proof (ilog2_le_0 x Hpos Hle) as He.
  set (p := (52 - Sample.ilog2 x)%Z).
  assert (Hp : (0 <= p)%Z) by (unfold p; lia).
  assert (Hpow : (0 < 2 ^ p)%Z) by (apply Z.pow_pos_nonneg; lia).
  assert (Hq : 0 < inject_Z (2 ^ p))
    by (change 0 with (inject_Z 0); now rewrite <- Zlt_Qlt).
  assert (Hm : (Sample.round_half_even (x * 2 ^ p) <= 2 ^ p)%Z).
  { apply round_half_even_le. rewrite (two_power p Hp).
    setoid_replace (inject_Z (2 ^ p)) with (1 * inject_Z (2 ^ p)) at 2 by ring.
    apply Qmult_le_compat_r; [exact Hle | lra]. }
  set (m := Sample.round_half_even (x * 2 ^ p)) in *. clearbody m.
  rewrite Qred_correct, Qpower_opp, (two_power p Hp).
  apply Qle_shift_div_r; [exact Hq |].
  now rewrite Qmult_1_l, <- Zle_Qle.
Qed.

Lemma nearest_double_ge_1 (x : Q) : 1 <= x -> 1 <= Sample.nearest_double x.
Proof.
  intros Hle. unfold Sample.nearest_double.
  assert (Hpos : 0 < x) by lra.
  rewrite (Qle_bool_false x 0) by lra.
  pose proof (ilog2_ge_0 x Hle) as He.
  pose proof (ilog2_spec x Hpos) as Hs.
  set (e := Sample.ilog2 x) in *. set (p := (52 - e)%Z).
  rewrite Qred_correct.
  assert (Hm : (2 ^ 52 <= Sample.round_half_even (x * 2 ^ p))%Z).
  { apply round_half_even_ge.
    rewrite <- (two_power 52) by lia.
    replace 52%Z with (e + p)%Z at 1 by (unfold p; lia).
    rewrite Qpower_plus by discriminate.
    apply Qmult_le_compat_r; [exact Hs | apply Qpower_0_le; discriminate]. }
  set (m := Sample.round_half_even (x * 2 ^ p)) in *. clearbody m.
  rewrite Zle_Qle in Hm. rewrite <- (two_power 52) in Hm by lia.
  assert (Hp : 0 < 2 ^ (- p)) by (apply Qpower_0_lt; reflexivity).
  assert (H1 : 1 <= 2 ^ e) by (apply Qpower_1_le; [discriminate | exact He]).
  assert (H2 : 2 ^ e == 2 ^ 52 * 2 ^ (- p)).
  { rewrite <- Qpower_plus by discriminate. unfold p.
    replace (52 + - (52 - e))%Z with e by lia. reflexivity. }
  rewrite H2 in H1.
  eapply Qle_trans; [exact H1 |].
  apply Qmult_le_compat_r; [exact Hm | lra].
Qed.

Lemma nearest_double_canonical (x : Q) :
  Qred (Sample.nearest_double x) = Sample.nearest_double x.
Proof.
  unfold Sample.nearest_double.
  destruct (Qle_bool x 0); [reflexivity | apply Qcanon.Qred_involutive].
Qed.

Lemma shortest_decimal_unit (v : Q) :
  v < 1 -> 0 <= Sample.shortest_decimal v <= 1.
Proof.
  intros Hlt. unfold Sample.shortest_decimal.
  destruct (Qle_bool v 0) eqn:E; [lra |].
  assert (Hpos : 0 < v).
  { apply Qnot_le_lt. intros H. apply Qle_bool_iff in H. congruence. }
  generalize (Sample.ilog10 v). intros t.
  generalize [1; 2; 3; 4; 5; 6; 7; 8; 9; 10; 11; 12; 13; 14; 15; 16; 17]%Z.
  intros ks. induction ks as [| k r IH]; cbn [fold_right]; [lra |].
  set (step := 10 ^ (t - k + 1)).
  assert (Hstep : 0 < step) by (apply Qpower_0_lt; reflexivity).
  set (s := Qfloor (v / step)).
  assert (Hs0 : (0 <= s)%Z).
  { unfold s. rewrite <- (Qfloor_Z 0). apply Qfloor_resp_le.
    change (inject_Z 0) with 0.
    apply Qle_shift_div_l; [exact Hstep | lra]. }
  assert (Hlo : 0 <= inject_Z s * step /\ inject_Z s * step <= 1).
  { split.
    - apply Qmult_le_0_compat; [| lra].
      change 0 with (inject_Z 0). now rewrite <- Zle_Qle.
    - pose proof (Qfloor_le (v / step)) as Hf. fold s in Hf.
      assert (inject_Z s * step <= v / step * step)
        by (apply Qmult_le_compat_r; lra).
      assert (v / step * step == v) by (field; lra).
      lra. }
  assert (Hhi : Qeq_bool (Sample.nearest_double (inject_Z (s + 1) * step)) v
                = true ->
                0 <= inject_Z (s + 1) * step /\ inject_Z (s + 1) * step <= 1).
  { intros Hok. apply Qeq_bool_iff in Hok. split.
    - apply Qmult_le_0_compat; [| lra].
      change 0 with (inject_Z 0). rewrite <- Zle_Qle. lia.
    - destruct (Qlt_le_dec 1 (inject_Z (s + 1) * step)) as [Hgt | Hle];
        [| exact Hle].
      pose proof (nearest_double_ge_1 _ (Qlt_le_weak _ _ Hgt)). lra. }
  assert (Hred : forall q, 0 <= q /\ q <= 1 -> 0 <= Qred q /\ Qred q <= 1)
    by (intros q; now rewrite Qred_correct).
  destruct (Qeq_bool (Sample.nearest_double (inject_Z s * step)) v);
    destruct (Qeq_bool (Sample.nearest_double (inject_Z (s + 1) * step)) v);
    cbn [andb].
  - destruct (Qcompare _ _); [destruct (Z.even s) | |];
      apply Hred; solve [exact Hlo | now apply Hhi].
  - apply Hred, Hlo.
  - now apply Hred, Hhi.
  - exact IH.
Qed.

Lemma sample_number_unit (x : Q) :
  0 <= x <= 1 -> 0 <= toNumber Sample.env x <= 1.
Proof.
  intros [H0 H1].
  change (toNumber Sample.env x)
    with (Sample.shortest_decimal (Sample.nearest_double x)).
  pose proof (nearest_double_nonneg x) as Hn.
  pose proof (nearest_double_le_1 x H1) as Hl.
  destruct (Qlt_le_dec (Sample.nearest_double x) 1) as [Hlt | Hge].
  - now apply shortest_decimal_unit.
  - assert (E : Sample.nearest_double x == 1) by lra.
    apply Qred_complete in E. rewrite nearest_double_canonical in E.
    rewrite E. vm_compute. split; discriminate.
Qed.

End Doubles.

Lemma filterConfidentUnspents_subset_witness :
  exists st',
    filterConfidentUnspents
      (Sample.swap [] [] (Some (inject_Z 10000)) None false)
      [Sample.utxo "a1" 5 (Some 3); Sample.utxo "f1" 7 None;
       Sample.utxo "zz" 9 (Some 0)]
      (Some (1 # 2)) Sample.start
    = (Normal [Sample.utxo "a1" 5 (Some 3); Sample.utxo "f1" 7 None], st')
    /\ history st' = [].
Proof.
  apply (filterConfidentUnspents_subset
           (Sample.swap [] [] (Some (inject_Z 10000)) None false)
           [Sample.utxo "a1" 5 (Some 3); Sample.utxo "f1" 7 None;
            Sample.utxo "zz" 9 (Some 0)]
           (Some (1 # 2)) Sample.start).
  - intros request. exists (inject_Z 10000). split; [reflexivity | discriminate].
  - intros id info f. simpl.
    match goal with
    | |- context [String.eqb id ?x] => destruct (String.eqb id x)
    end; [| discriminate].
    intros Hi Hf. injection Hi as <-. injection Hf as <-. discriminate.
  - apply sample_number_unit.
Defined.

Lemma checkScript_verdict_witness :
  fst (checkScript
         (Sample.swap [] [Sample.utxo "a1" 10000000 (Some 3)]
            (Some (inject_Z 10000)) None false)
         Sample.values
         {| exp_value := 1 # 10; exp_lockTime := 1600000000;
            exp_recipientPublicKey := "03bb"; exp_confidence := None |}
         None Sample.start)
  = Normal None.
Proof.
  destruct (checkScript_verdict
              (Sample.swap [] [Sample.utxo "a1" 10000000 (Some 3)]
                 (Some (inject_Z 10000)) None false)
              Sample.values
              {| exp_value := 1 # 10; exp_lockTime := 1600000000;
                 exp_recipientPublicKey := "03bb"; exp_confidence := None |}
              None Sample.start [Sample.utxo "a1" 10000000 (Some 3)] eq_refl)
    as (verdict & confident & st' & Hrun & Hc & Hiff & _).
  rewrite Hrun. simpl. f_equal. apply Hiff.
  vm_compute in Hc. injection Hc as <-.
  vm_compute. repeat split; discriminate.
Defined.

(** A script that holds too little is answered with a diagnostic. *)
Example checkScript_too_little :
  fst (checkScript
         (Sample.swap [] [Sample.utxo "a1" 9000000 (Some 3)]
            (Some (inject_Z 10000)) None false)
         Sample.values
         {| exp_value := 1 # 10; exp_lockTime := 1600000000;
            exp_recipientPublicKey := "03bb"; exp_confidence := None |}
         None Sample.start)
  = Normal (Some "Expected script value: 10000000, got: 9000000, address: 2N3HtlcAddress").
Proof. reflexivity. Qed.

(* ===================================================================== *)
(** ** More on the confidence filter *)
(* ===================================================================== *)

Section ConfidenceFilter.

Variable swap : BtcSwap.

Lemma sum_satoshis_from (unspents : list Unspent) :
  forall start,
    fold_left (fun summ u => summ + satoshis u) unspents start
    = start + sum_satoshis unspents.
Proof.
  unfold sum_satoshis.
  induction unspents as [| u r IH]; intros start; simpl.
  - lia.
  - rewrite IH, (IH (satoshis u)). lia.
Qed.

Lemma sum_satoshis_cons (u : Unspent) (r : list Unspent) :
  sum_satoshis (u :: r) = satoshis u + sum_satoshis r.
Proof. unfold sum_satoshis at 1; simpl. apply sum_satoshis_from. Qed.

(** What [fetchConfidence] returns depends on the state through its
    history only, not through [feeValue]. *)
Lemma fetchConfidence_value (level : Q) (u : Unspent) (st1 st2 : State) :
  history st1 = history st2 ->
  fst (fetchConfidence swap level u st1) = fst (fetchConfidence swap level u st2).
Proof.
  intros Hh. unfold fetchConfidence.
  destruct (BigNumber.isGreaterThanOrEqualTo _ level); [reflexivity |].
  unfold try_catch, bind, call, throw, ret. rewrite Hh.
  destruct (fetchTxInfo swap (history st2) (txid u)) as [[i |] | e];
    try reflexivity.
  destruct (fees i) as [f |]; [| reflexivity].
  destruct (Number_truthy f); [| reflexivity].
  unfold feesToConfidence, getTxFee, bind, call, set_feeValue, ret.
  rewrite Hh.
  destruct (estimateFeeValue swap (history st2) _); reflexivity.
Qed.

(** Whether [filterConfidentUnspents] keeps [u], read off a run of
    [fetchConfidence] from [st]. *)
Lemma mapM_fetchConfidence_filter (level : Q) (st : State)
    (unspents : list Unspent) :
  forall st1,
    history st1 = history st ->
    exists qs st',
      mapM (fetchConfidence swap level) unspents st1 = (Normal qs, st')
      /\ history st' = history st
      /\ List.map fst
           (filter (fun uc => BigNumber.isGreaterThanOrEqualTo (snd uc) level)
              (combine unspents qs))
         = filter
             (fun u =>
                match fst (fetchConfidence swap level u st) with
                | Normal q => Qle_bool level q
                | Throw _ => false
                end)
             unspents.
Proof.
  induction unspents as [| u r IH]; intros st1 Hh; simpl.
  - exists [], st1. repeat split; assumption || reflexivity.
  - destruct (fetchConfidence_returns swap level u st1)
      as (q & st2 & Hq & Hh2).
    destruct (IH st2 (eq_trans Hh2 Hh)) as (qs & st' & Hqs & Hh' & Hfilter).
    exists (q :: qs), st'. unfold bind, ret. rewrite Hq, Hqs.
    split; [reflexivity |]. split; [exact Hh' |].
    rewrite <- (fetchConfidence_value level u st1 st Hh), Hq.
    simpl. unfold BigNumber.isGreaterThanOrEqualTo at 1. simpl snd.
    destruct (Qle_bool level q); simpl; now rewrite Hfilter.
Qed.

(** X1.  Whatever the gateway answers, rejections included,
    [filterConfidentUnspents] returns; it calls neither [broadcastTx] nor
    [waitDelay]; and it judges every output on its own: there is a test,
    fixed by the instance, the level and the history, such that the
    answer for any list is the list filtered by that test. *)
Theorem filterConfidentUnspents_is_filter (c : option Q) (st : State) :
  exists keep : Unspent -> bool,
    forall unspents, exists st',
      filterConfidentUnspents swap unspents c st
      = (Normal (filter keep unspents), st')
      /\ history st' = history st.
Proof.
  eexists. intros unspents.
  unfold filterConfidentUnspents, bind, ret.
  destruct (mapM_fetchConfidence_filter
              match c with Some l => l | None => default_confidence end
              st unspents st eq_refl) as (qs & st' & Hqs & Hh & Hfilter).
  rewrite Hqs, Hfilter. exists st'. split; [reflexivity | exact Hh].
Qed.

Lemma sum_filter_le (keep : Unspent -> bool) (unspents : list Unspent) :
  (forall u, In u unspents -> 0 <= satoshis u) ->
  0 <= sum_satoshis (filter keep unspents) <= sum_satoshis unspents.
Proof.
  induction unspents as [| u r IH]; intros Hpos.
  - unfold sum_satoshis; simpl. lia.
  - assert (Hu : 0 <= satoshis u) by (apply Hpos; left; reflexivity).
    assert (Hr : 0 <= sum_satoshis (filter keep r) <= sum_satoshis r)
      by (apply IH; intros v Hv; apply Hpos; right; exact Hv).
    simpl. destruct (keep u); rewrite ?sum_satoshis_cons; lia.
Qed.

(** X2.  When no output has a negative value, the total of the outputs
    [filterConfidentUnspents] keeps is between 0 and the total of all. *)
Theorem confident_total_le_total (unspents : list Unspent) (c : option Q)
    (st : State) :
  (forall u, In u unspents -> 0 <= satoshis u) ->
  exists confident st',
    filterConfidentUnspents swap unspents c st = (Normal confident, st')
    /\ 0 <= sum_satoshis confident <= sum_satoshis unspents.
Proof.
  intros Hpos.
  destruct (mapM_fetchConfidence_filter
              match c with Some l => l | None => default_confidence end
              st unspents st eq_refl) as (qs & st' & Hqs & Hh & Hfilter).
  unfold filterConfidentUnspents, bind, ret. rewrite Hqs, Hfilter.
  eexists _, st'. split; [reflexivity |]. apply sum_filter_le, Hpos.
Qed.

(** An output with a confirmation. *)
Lemma confirmed_shortcut (level : Q) (u : Unspent) (st : State) (p : positive) :
  confirmations u = Some (Zpos p) ->
  (level <= 1)%Q ->
  fetchConfidence swap level u st = (Normal 1%Q, st).
Proof.
  intros Hc Hl. unfold fetchConfidence, BigNumber.isGreaterThanOrEqualTo,
    confirmationsToConfidence.
  rewrite Hc. simpl. rewrite (Qle_bool_true _ _ Hl). reflexivity.
Qed.

(** Confirmed outputs go through without a call of the gateway. *)
Lemma confirmed_pass (unspents : list Unspent)
    (c : option Q) (st : State) :
  (forall u, In u unspents -> exists p, confirmations u = Some (Zpos p)) ->
  (match c with Some l => l | None => 95 # 100 end <= 1)%Q ->
  filterConfidentUnspents swap unspents c st = (Normal unspents, st).
Proof.
  intros Hall Hl. unfold filterConfidentUnspents, bind, ret.
  change default_confidence with (95 # 100).
  set (level := match c with Some l => l | None => 95 # 100 end) in *.
  assert (Hrun : mapM (fetchConfidence swap level) unspents st
                 = (Normal (List.map (fun _ => 1%Q) unspents), st)).
  { induction unspents as [| u r IH]; simpl; [reflexivity |].
    destruct (Hall u (or_introl eq_refl)) as (p & Hp).
    unfold bind, ret. rewrite (confirmed_shortcut level u st p Hp Hl).
    rewrite IH by (intros v Hv; apply Hall; right; exact Hv). reflexivity. }
  rewrite Hrun. f_equal. f_equal.
  clear Hrun Hall. induction unspents as [| u r IH]; simpl; [reflexivity |].
  unfold BigNumber.isGreaterThanOrEqualTo at 1. simpl snd.
  rewrite (Qle_bool_true _ _ Hl). simpl. now rewrite IH.
Qed.

(** X3.  Outputs that all have at least one confirmation pass any level up to
    1, whatever [fetchTxInfo] and the fee oracle would answer: the list
    comes back whole and the state, [feeValue] included, is untouched. *)
Theorem filterConfidentUnspents_confirmed (unspents : list Unspent)
    (c : option Q) (st : State) :
  (forall u, In u unspents -> exists p, confirmations u = Some (Zpos p)) ->
  (match c with Some l => l | None => 95 # 100 end <= 1)%Q ->
  filterConfidentUnspents swap unspents c st = (Normal unspents, st).
Proof. apply confirmed_pass. Qed.

(** X23.  When every output at the script address has a confirmation and
    the expected confidence is at most 1 (0.95 when absent), [checkScript]
    leaves the state alone, [feeValue] included, and returns [undefined]
    if and only if expectedValue <= totalUnspent,
    expected.lockTime <= lockTime and the recipient keys are equal,
    whatever [fetchTxInfo] and the fee oracle would answer. *)
Theorem checkScript_confirmed (data : ScriptValues) (expected : Expected)
    (hashName : option string) (st : State) (unspents : list Unspent) :
  fetchUnspents swap (history st)
    (scriptAddress (createScript (app swap) data hashName))
    = Normal unspents ->
  (forall u, In u unspents -> exists p, confirmations u = Some (Zpos p)) ->
  (match exp_confidence expected with Some l => l | None => 95 # 100 end
   <= 1)%Q ->
  exists verdict : option string,
    checkScript swap data expected hashName st = (Normal verdict, st)
    /\ (verdict = None <->
        expectedValue_of expected <= sum_satoshis unspents
        /\ exp_lockTime expected <= lockTime data
        /\ exp_recipientPublicKey expected = recipientPublicKey data).
Proof.
  intros Hu Hall Hl.
  unfold checkScript, bind, call. rewrite Hu.
  change default_confidence with (95 # 100).
  rewrite (confirmed_pass unspents
             (Some match exp_confidence expected with
                   | Some l => l
                   | None => 95 # 100
                   end) st Hall Hl).
  unfold ret.
  destruct (Z.ltb_spec (sum_satoshis unspents) (expectedValue_of expected));
    [ eexists; split; [reflexivity |];
      split; [discriminate | intros (? & ? & ?); lia] |].
  destruct (Z.ltb_spec (lockTime data) (exp_lockTime expected));
    [ eexists; split; [reflexivity |];
      split; [discriminate | intros (? & ? & ?); lia] |].
  destruct (String.eqb_spec (exp_recipientPublicKey expected)
              (recipientPublicKey data)); cbn [negb];
    [| eexists; split; [reflexivity |];
       split; [discriminate | intros (? & ? & ?); contradiction] ].
  destruct (Z.ltb_spec (sum_satoshis unspents) (expectedValue_of expected));
    [lia |].
  exists None. split; [reflexivity |].
  split; [intros _; repeat split; assumption | reflexivity].
Qed.

End ConfidenceFilter.

Lemma confident_total_le_total_witness :
  exists confident st',
    filterConfidentUnspents
      (Sample.swap [] [] (Some (inject_Z 10000)) None false)
      [Sample.utxo "a1" 5 (Some 3); Sample.utxo "zz" 9 (Some 0)]
      None Sample.start
    = (Normal confident, st')
    /\ 0 <= sum_satoshis confident <= 14.
Proof.
  apply (confident_total_le_total
           (Sample.swap [] [] (Some (inject_Z 10000)) None false)
           [Sample.utxo "a1" 5 (Some 3); Sample.utxo "zz" 9 (Some 0)]
           None Sample.start).
  intros u [<- | [<- | []]]; simpl; lia.
Defined.

Lemma checkScript_confirmed_witness :
  exists verdict : option string,
    checkScript
      (Sample.swap [] [Sample.utxo "a1" 10000000 (Some 3)] None None false)
      Sample.values
      {| exp_value := 1 # 10; exp_lockTime := 1600000000;
         exp_recipientPublicKey := "03bb"; exp_confidence := None |}
      None Sample.start
    = (Normal verdict, Sample.start)
    /\ (verdict = None <->
        10000000 <= 10000000 /\ 1600000000 <= 1700000000 /\ "03bb" = "03bb").
Proof.
  apply (checkScript_confirmed
           (Sample.swap [] [Sample.utxo "a1" 10000000 (Some 3)] None None false)
           Sample.values
           {| exp_value := 1 # 10; exp_lockTime := 1600000000;
              exp_recipientPublicKey := "03bb"; exp_confidence := None |}
           None Sample.start [Sample.utxo "a1" 10000000 (Some 3)]).
  - reflexivity.
  - intros u [<- | []]. eexists; reflexivity.
  - vm_compute; discriminate.
Defined.

Lemma filterConfidentUnspents_confirmed_witness :
  filterConfidentUnspents
    (Sample.swap [] [] None None false)
    [Sample.utxo "a1" 5 (Some 3); Sample.utxo "a2" 9 (Some 1)]
    None Sample.start
  = (Normal [Sample.utxo "a1" 5 (Some 3); Sample.utxo "a2" 9 (Some 1)],
     Sample.start).
Proof.
  apply (filterConfidentUnspents_confirmed
           (Sample.swap [] [] None None false)
           [Sample.utxo "a1" 5 (Some 3); Sample.utxo "a2" 9 (Some 1)]
           None Sample.start).
  - intros u [<- | [<- | []]]; eexists; reflexivity.
  - vm_compute; discriminate.
Defined.

Section ConfidenceDefaults.

Lemma filter_all {A : Type} (f : A -> bool) (l : list A) :
  (forall x, In x l -> f x = true) -> filter f l = l.
Proof.
  induction l as [| x r IH]; intros H; simpl; [reflexivity |].
  rewrite (H x (or_introl eq_refl)), IH; [reflexivity |].
  intros y Hy. apply H. right. exact Hy.
Qed.

(** X4.  Built without [fetchTxInfo], an instance keeps, at any level above 0
    and up to 1, exactly the outputs with a confirmation; the transaction
    of an unconfirmed output cannot be looked up, the [TypeError] is
    caught and the output is dropped.  The state is untouched. *)
Theorem filterConfidentUnspents_without_txinfo (options : Options) (a : App)
    (swap : BtcSwap) (st0 : State) (unspents : list Unspent) (c : option Q)
    (st : State) :
  opt_fetchTxInfo options = None ->
  constructor options a = Normal (swap, st0) ->
  (0 < match c with Some l => l | None => 95 # 100 end)%Q ->
  (match c with Some l => l | None => 95 # 100 end <= 1)%Q ->
  filterConfidentUnspents swap unspents c st
  = (Normal
       (filter (fun u => match confirmations u with
                         | Some (Zpos _) => true
                         | _ => false
                         end) unspents),
     st).
Proof.
  intros Ho Hc Hlo Hhi. unfold constructor in Hc.
  destruct (opt_fetchBalance options); [| discriminate].
  destruct (opt_fetchUnspents options); [| discriminate].
  destruct (opt_broadcastTx options); [| discriminate].
  rewrite Ho in Hc. injection Hc as <- <-.
  unfold filterConfidentUnspents, bind, ret.
  change default_confidence with (95 # 100).
  set (level := match c with Some l => l | None => 95 # 100 end) in *.
  set (swap := {| app := a |}).
  assert (Hone : forall u,
    fetchConfidence swap level u st
    = (Normal (confirmationsToConfidence (confirmations u)), st)).
  { intros u. unfold fetchConfidence, BigNumber.isGreaterThanOrEqualTo.
    destruct (Qle_bool level (confirmationsToConfidence (confirmations u)));
      reflexivity. }
  assert (Hrun : mapM (fetchConfidence swap level) unspents st
                 = (Normal (List.map
                              (fun u => confirmationsToConfidence (confirmations u))
                              unspents), st)).
  { induction unspents as [| u r IH]; simpl; [reflexivity |].
    unfold bind, ret. rewrite Hone, IH. reflexivity. }
  rewrite Hrun. f_equal. f_equal.
  clear Hrun. induction unspents as [| u r IH]; simpl; [reflexivity |].
  unfold BigNumber.isGreaterThanOrEqualTo at 1. simpl snd.
  unfold confirmationsToConfidence at 1.
  destruct (confirmations u) as [[| p | p] |]; simpl;
    rewrite ?(Qle_bool_true _ _ Hhi), ?(Qle_bool_false _ _ Hlo); simpl;
    now rewrite IH.
Qed.

(** X5.  Built without [estimateFeeValue] but with [fetchTxInfo], an instance
    compares the fees of an unconfirmed transaction with a fast fee of 0:
    any unconfirmed output whose transaction paid a positive fee has
    confidence 1.  Outputs that are confirmed or have paid some fee all
    pass every level up to 1. *)
Theorem filterConfidentUnspents_without_oracle (options : Options) (a : App)
    (swap : BtcSwap) (st0 : State) (unspents : list Unspent) (c : option Q)
    (st : State) :
  opt_estimateFeeValue options = None ->
  constructor options a = Normal (swap, st0) ->
  (match c with Some l => l | None => 95 # 100 end <= 1)%Q ->
  (forall u, In u unspents ->
     (exists p, confirmations u = Some (Zpos p))
     \/ (exists i f,
           fetchTxInfo swap (history st) (txid u) = Normal (Some i)
           /\ fees i = Some f /\ (0 < f)%Q)) ->
  exists st',
    filterConfidentUnspents swap unspents c st = (Normal unspents, st')
    /\ history st' = history st.
Proof.
  intros Ho Hc Hhi Hall.
  assert (Hzero : forall hist request,
            estimateFeeValue swap hist request = Normal 0%Q).
  { unfold constructor in Hc.
    destruct (opt_fetchBalance options); [| discriminate].
    destruct (opt_fetchUnspents options); [| discriminate].
    destruct (opt_broadcastTx options); [| discriminate].
    rewrite Ho in Hc. injection Hc as <- <-. reflexivity. }
  change (95 # 100) with default_confidence in Hhi.
  set (level := match c with Some l => l | None => default_confidence end) in *.
  destruct (mapM_fetchConfidence_filter swap level st unspents st eq_refl)
    as (qs & st' & Hqs & Hh & Hfilter).
  unfold filterConfidentUnspents, bind, ret. fold level.
  rewrite Hqs, Hfilter. exists st'. split; [| exact Hh].
  f_equal. f_equal. apply filter_all. intros u Hu.
  unfold fetchConfidence, BigNumber.isGreaterThanOrEqualTo.
  destruct (Qle_bool level (confirmationsToConfidence (confirmations u)))
    eqn:Hfast; [exact Hfast |].
  destruct (Hall u Hu) as [(p & Hp) | (i & f & Hi & Hf & Hpos)].
  - exfalso. unfold confirmationsToConfidence in Hfast.
    rewrite Hp in Hfast. simpl in Hfast.
    rewrite (Qle_bool_true _ _ Hhi) in Hfast. discriminate.
  - unfold try_catch, bind, call, throw, ret. rewrite Hi, Hf.
    assert (Htruthy : Number_truthy f = true).
    { unfold Number_truthy. apply negb_true_iff.
      destruct (Qeq_bool f 0) eqn:E; [| reflexivity].
      apply Qeq_bool_iff in E. lra. }
    rewrite Htruthy.
    unfold feesToConfidence, getTxFee, bind, call, set_feeValue, ret.
    rewrite Hzero. cbn [fst arg_inSatoshis].
    unfold BigNumber.isLessThan.
    rewrite (Qle_bool_true 0 f) by lra. cbn [negb].
    apply Qle_bool_true, Hhi.
Qed.

(** An output that passes at a level passes at every lower level: past
    the shortcut the confidence does not depend on the level. *)
Lemma fetchConfidence_kept_monotone (swap : BtcSwap) (c1 c2 : Q)
    (u : Unspent) (st : State) :
  (c1 <= c2)%Q ->
  match fst (fetchConfidence swap c2 u st) with
  | Normal q => Qle_bool c2 q
  | Throw _ => false
  end = true ->
  match fst (fetchConfidence swap c1 u st) with
  | Normal q => Qle_bool c1 q
  | Throw _ => false
  end = true.
Proof.
  intros Hle. unfold fetchConfidence, BigNumber.isGreaterThanOrEqualTo.
  destruct (Qle_bool c1 (confirmationsToConfidence (confirmations u)))
    eqn:E1; [intros _; exact E1 |].
  apply Qle_bool_lt in E1.
  rewrite (Qle_bool_false c2) by lra.
  match goal with
  | |- context [fst ?run] => destruct (fst run) as [q | e]
  end; [| discriminate].
  intros Hk. apply Qle_bool_iff in Hk. apply Qle_bool_iff. lra.
Qed.

(** X6.  Raising the level never adds an output: with an oracle that quotes a
    positive fee and fees that are not negative, what is kept at a level
    is kept at every lower level. *)
Theorem filterConfidentUnspents_monotone (swap : BtcSwap)
    (unspents : list Unspent) (c1 c2 : Q) (st : State) :
  (forall request, exists fast,
      estimateFeeValue swap (history st) request = Normal fast
      /\ (0 < fast)%Q) ->
  (forall id info f,
      fetchTxInfo swap (history st) id = Normal (Some info) ->
      fees info = Some f -> (0 <= f)%Q) ->
  (c1 <= c2)%Q ->
  exists low high st1 st2,
    filterConfidentUnspents swap unspents (Some c1) st = (Normal low, st1)
    /\ filterConfidentUnspents swap unspents (Some c2) st = (Normal high, st2)
    /\ forall u, In u high -> In u low.
Proof.
  intros Hquote Hfees Hle.
  unfold filterConfidentUnspents, bind, ret.
  destruct (mapM_fetchConfidence_filter swap c1 st unspents st eq_refl)
    as (q1 & st1 & Hq1 & _ & Hf1).
  destruct (mapM_fetchConfidence_filter swap c2 st unspents st eq_refl)
    as (q2 & st2 & Hq2 & _ & Hf2).
  rewrite Hq1, Hq2, Hf1, Hf2.
  eexists _, _, st1, st2. split; [reflexivity |]. split; [reflexivity |].
  intros u Hu. apply filter_In in Hu as [Hin Hk]. apply filter_In.
  split; [exact Hin |].
  now apply (fetchConfidence_kept_monotone swap c1 c2).
Qed.

End ConfidenceDefaults.

Lemma filterConfidentUnspents_without_txinfo_witness :
  filterConfidentUnspents
    (fst (Sample.built
            Sample.bare))
    [Sample.utxo "a1" 5 (Some 3); Sample.utxo "f1" 7 None] None Sample.start
  = (Normal [Sample.utxo "a1" 5 (Some 3)], Sample.start).
Proof.
  apply (filterConfidentUnspents_without_txinfo
           Sample.bare
           Sample.env
           (fst (Sample.built Sample.bare)) (snd (Sample.built Sample.bare))
           [Sample.utxo "a1" 5 (Some 3); Sample.utxo "f1" 7 None]
           None Sample.start);
    reflexivity || (vm_compute; discriminate).
Defined.

Lemma filterConfidentUnspents_without_oracle_witness :
  exists st',
    filterConfidentUnspents (Sample.swap [] [] None None false)
      [Sample.utxo "a1" 5 (Some 3); Sample.utxo "f1" 7 None] None Sample.start
    = (Normal [Sample.utxo "a1" 5 (Some 3); Sample.utxo "f1" 7 None], st')
    /\ history st' = [].
Proof.
  apply (filterConfidentUnspents_without_oracle
           (Sample.options [] [] None None false) Sample.env
           (Sample.swap [] [] None None false)
           (snd (Sample.built (Sample.options [] [] None None false)))
           [Sample.utxo "a1" 5 (Some 3); Sample.utxo "f1" 7 None]
           None Sample.start).
  - reflexivity.
  - reflexivity.
  - vm_compute; discriminate.
  - intros u [<- | [<- | []]].
    + left. eexists; reflexivity.
    + right. eexists _, _. repeat split.
Defined.

Lemma filterConfidentUnspents_monotone_witness :
  exists low high st1 st2,
    filterConfidentUnspents
      (Sample.swap [] [] (Some (inject_Z 10000)) None false)
      [Sample.utxo "a1" 5 (Some 3); Sample.utxo "f1" 7 None]
      (Some (1 # 2)) Sample.start = (Normal low, st1)
    /\ filterConfidentUnspents
         (Sample.swap [] [] (Some (inject_Z 10000)) None false)
         [Sample.utxo "a1" 5 (Some 3); Sample.utxo "f1" 7 None]
         (Some (3 # 4)) Sample.start = (Normal high, st2)
    /\ forall u, In u high -> In u low.
Proof.
  apply (filterConfidentUnspents_monotone
           (Sample.swap [] [] (Some (inject_Z 10000)) None false)
           [Sample.utxo "a1" 5 (Some 3); Sample.utxo "f1" 7 None]
           (1 # 2) (3 # 4) Sample.start).
  - intros request. exists (inject_Z 10000). split; reflexivity.
  - intros id info f. simpl.
    match goal with
    | |- context [String.eqb id ?x] => destruct (String.eqb id x)
    end; [| discriminate].
    intros Hi Hf. injection Hi as <-. injection Hf as <-. discriminate.
  - vm_compute; discriminate.
Defined.

(* ===================================================================== *)
(** ** More on withdraw and refund *)
(* ===================================================================== *)

Section RedeemEffects.

Variable swap : BtcSwap.
Variable data : WithdrawData.

(** Building the redeem transaction does nothing to the outside. *)
Lemma getWithdrawRawTransaction_history (isRefund : bool)
    (hashName : option string) (st : State) :
  history (snd (getWithdrawRawTransaction swap data isRefund hashName st))
  = history st.
Proof.
  unfold getWithdrawRawTransaction, bind, call.
  destruct (fetchUnspents swap (history st) _) as [unspents | e];
    [| reflexivity].
  pose proof (getTxFee_history swap
                {| arg_inSatoshis := true; arg_size := None;
                   arg_speed := None;
                   arg_address :=
                     Some (scriptAddress
                             (createScript (app swap) (scriptValues data)
                                hashName)) |} st) as Hh.
  destruct (getTxFee swap _ st) as [[fee | e] st1]; simpl in Hh;
    [| exact Hh].
  destruct (_ <? _)%Z.
  - destruct (checkWithdraw swap) as [probe |]; [| exact Hh].
    destruct (probe (history st1) _) as [[w |] | e]; try exact Hh.
    destruct (String.eqb _ _); exact Hh.
  - unfold lift, ret.
    destruct isRefund;
      [destruct (TransactionBuilder.setLockTime _ _ _); [| exact Hh] |];
      (destruct (add_inputs _ _ _ _); [| exact Hh]);
      destruct (TransactionBuilder.addOutput _ _ _ _); exact Hh.
Qed.

(** X7.  [withdraw] calls [broadcastTx] at most once and only after the redeem
    path has returned a transaction.  It ends in one of three ways:
    nothing was done to the outside and the promise carries what the
    redeem path gave (the txid already withdrawn, or its error through
    [errorMessage]); or the broadcast was rejected and so is the promise,
    without a wait; or the broadcast was accepted, [waitDelay(10)] and the
    lookup followed, and only then can the promise resolve, with the txid
    of the transaction sent. *)
Theorem withdraw_effects (isRefund : bool) (hashName : option string)
    (st : State) :
  let raw := getWithdrawRawTransaction swap data isRefund hashName st in
  let outcome := withdraw swap data isRefund hashName st in
  match fst raw with
  | Normal (AlreadyWithdrawed id) =>
      outcome = (Resolved id, snd raw) /\ history (snd outcome) = history st
  | Throw e =>
      outcome = (Rejected (errorMessage e), snd raw)
      /\ history (snd outcome) = history st
  | Normal (RawTransaction hex id) =>
      match broadcastTx swap (Broadcast hex :: history st) hex with
      | Throw e =>
          fst outcome = Rejected (errorMessage e)
          /\ history (snd outcome) = Broadcast hex :: history st
      | Normal _ =>
          history (snd outcome) = WaitDelay 10 :: Broadcast hex :: history st
          /\ (forall txid, fst outcome = Resolved txid -> txid = id)
      end
  end.
Proof.
  intros raw outcome.
  pose proof (getWithdrawRawTransaction_history isRefund hashName st) as Hh.
  fold raw in Hh. unfold outcome, withdraw, executor, bind. fold raw.
  destruct raw as [[[id | hex id] | e] st1]; simpl in Hh; cbn [fst snd].
  - split; [reflexivity | exact Hh].
  - unfold emit, call; cbn [history feeValue]. rewrite Hh.
    destruct (broadcastTx swap (Broadcast hex :: history st) hex)
      as [result | e]; cbn [fst snd history].
    + unfold checkTX, bind, call, ret; cbn [history].
      destruct (fetchTxInfo swap _ id) as [info | e]; cbn [fst snd history].
      * destruct (match info with Some _ => _ | None => _ end);
          (split; [reflexivity |]); intros txid Hr;
          [injection Hr as <-; reflexivity | discriminate].
      * split; [reflexivity | intros txid Hr; discriminate].
    + split; reflexivity.
  - split; [reflexivity | exact Hh].
Qed.

End RedeemEffects.

(** X8.  Built without [fetchTxInfo], an instance can never see the transaction
    it has sent: whenever a redeem transaction is built and its broadcast
    accepted, [withdraw] is rejected with 'TX not found. Try it later. '. *)
Theorem withdraw_without_txinfo (options : Options) (a : App)
    (swap : BtcSwap) (st0 : State) (data : WithdrawData) (isRefund : bool)
    (hashName : option string) (st st1 : State) (hex id result : string) :
  opt_fetchTxInfo options = None ->
  constructor options a = Normal (swap, st0) ->
  getWithdrawRawTransaction swap data isRefund hashName st
    = (Normal (RawTransaction hex id), st1) ->
  broadcastTx swap (Broadcast hex :: history st1) hex = Normal result ->
  withdraw swap data isRefund hashName st
  = (Rejected (ReasonString "TX not found. Try it later. "),
     {| feeValue := feeValue st1;
        history := WaitDelay 10 :: Broadcast hex :: history st1 |}).
Proof.
  intros Ho Hc Hraw Hb.
  assert (Hnone : forall hist txid, fetchTxInfo swap hist txid = Normal None).
  { unfold constructor in Hc.
    destruct (opt_fetchBalance options); [| discriminate].
    destruct (opt_fetchUnspents options); [| discriminate].
    destruct (opt_broadcastTx options); [| discriminate].
    rewrite Ho in Hc. injection Hc as <- <-. reflexivity. }
  unfold withdraw, executor, bind. rewrite Hraw.
  unfold emit, call; cbn [history feeValue]. rewrite Hb.
  unfold checkTX, bind, call, ret; cbn [history]. rewrite Hnone.
  reflexivity.
Qed.

Lemma withdraw_without_txinfo_witness :
  withdraw (fst (Sample.built Sample.blind)) (Sample.withdrawal None)
    false None Sample.start
  = (Rejected (ReasonString "TX not found. Try it later. "),
     {| feeValue := inject_Z 10000;
        history :=
          [WaitDelay 10;
           Broadcast "lock 0 in a1:0#4294967294 out mvOwnerAddress=9990000"] |}).
Proof.
  apply (withdraw_without_txinfo Sample.blind Sample.env
           (fst (Sample.built Sample.blind)) (snd (Sample.built Sample.blind))
           (Sample.withdrawal None) false None Sample.start
           {| feeValue := inject_Z 10000; history := [] |}
           "lock 0 in a1:0#4294967294 out mvOwnerAddress=9990000" "ab1" "sent");
    reflexivity.
Defined.

(** X9.  A broadcast the gateway rejects with a response that has [non-final]
    in its text makes [withdraw] reject with 'Try it later', without wait
    or lookup; this takes precedence over what the error's message
    says. *)
Theorem withdraw_non_final (swap : BtcSwap) (data : WithdrawData)
    (isRefund : bool) (hashName : option string) (st st1 : State)
    (hex id : string) (error : JsError) (text : string) :
  getWithdrawRawTransaction swap data isRefund hashName st
    = (Normal (RawTransaction hex id), st1) ->
  broadcastTx swap (Broadcast hex :: history st1) hex = Throw error ->
  res_text error = Some text ->
  JsString.RegExp_test "non-final" text = true ->
  withdraw swap data isRefund hashName st
  = (Rejected (ReasonString "Try it later"),
     {| feeValue := feeValue st1; history := Broadcast hex :: history st1 |}).
Proof.
  intros Hraw Hb Hr Ht. unfold withdraw, executor, bind. rewrite Hraw.
  unfold emit, call; cbn [history feeValue]. rewrite Hb.
  unfold errorMessage. rewrite Hr, Ht. reflexivity.
Qed.

Lemma withdraw_non_final_witness :
  withdraw
    (fst (Sample.built
            (Sample.refusing
               {| message := "Total less than fee: 0";
                  res_text := Some "64: non-final" |})))
    (Sample.withdrawal None) true None Sample.start
  = (Rejected (ReasonString "Try it later"),
     {| feeValue := inject_Z 10000;
        history :=
          [Broadcast
             "lock 1700000000 in a1:0#4294967294 out mvOwnerAddress=9990000"] |}).
Proof.
  apply (withdraw_non_final
           (fst (Sample.built
                   (Sample.refusing
                      {| message := "Total less than fee: 0";
                         res_text := Some "64: non-final" |})))
           (Sample.withdrawal None) true None Sample.start
           {| feeValue := inject_Z 10000; history := [] |}
           "lock 1700000000 in a1:0#4294967294 out mvOwnerAddress=9990000"
           "ab1"
           {| message := "Total less than fee: 0";
              res_text := Some "64: non-final" |}
           "64: non-final");
    reflexivity.
Defined.

(** X10.  The convenience variants pass no hash name on: they work on the
    ripemd160 script whatever hash the swap was made with, and the hex
    variants, for a withdrawal as for a refund, answer [undefined] when
    the HTLC was already withdrawn. *)
Theorem refund_variants (swap : BtcSwap) (data : WithdrawData) (st : State) :
  let raw isRefund :=
    getWithdrawRawTransaction swap data isRefund (Some "ripemd160") st in
  getRefundRawTransaction swap data st = raw true
  /\ getRefundHexTransaction swap data st
     = getWithdrawHexTransaction swap data true st
  /\ forall isRefund,
       getWithdrawHexTransaction swap data isRefund st
       = match raw isRefund with
         | (Normal (AlreadyWithdrawed _), st') => (Normal None, st')
         | (Normal (RawTransaction hex _), st') => (Normal (Some hex), st')
         | (Throw e, st') => (Throw e, st')
         end.
Proof.
  intros raw. split; [reflexivity |]. split; [reflexivity |].
  intros isRefund.
  assert (Hraw : getWithdrawRawTransaction swap data isRefund None st
                 = raw isRefund) by reflexivity.
  unfold getWithdrawHexTransaction, bind, ret. rewrite Hraw.
  destruct (raw isRefund) as [[[i | hex i] | e] st']; reflexivity.
Qed.

(* ===================================================================== *)
(** ** Signatures *)
(* ===================================================================== *)

Section Signing.

Lemma nth_error_update_nth (f : TxInput -> TxInput) (l : list TxInput) :
  forall n i,
    nth_error (TransactionBuilder.update_nth n f l) i
    = if Nat.eqb i n then option_map f (nth_error l i) else nth_error l i.
Proof.
  induction l as [| x r IH]; intros [| n] [| i]; simpl; try reflexivity.
  - now destruct (Nat.eqb i n).
  - apply IH.
Qed.

Lemma shape_length (t tx : Transaction) :
  shape t = shape tx -> List.length (tx_ins t) = List.length (tx_ins tx).
Proof.
  unfold shape, input_outpoints. intros H. injection H as _ Ho _ _.
  apply (f_equal (@List.length _)) in Ho. now rewrite !length_map in Ho.
Qed.

(** After the inputs 0 .. n-1 have been signed in turn, each of them
    carries the script made for it from a transaction of the same
    shape. *)
Lemma sign_fold_scripts (g : Transaction -> nat -> bytes) (tx : Transaction) :
  forall n,
    (n <= List.length (tx_ins tx))%nat ->
    forall i, (i < n)%nat ->
      exists t,
        shape t = shape tx
        /\ option_map in_script
             (nth_error
                (tx_ins
                   (fold_left
                      (fun t index =>
                         TransactionBuilder.setInputScript index (g t index) t)
                      (seq 0 n) tx)) i)
           = Some (Some (g t i)).
Proof.
  induction n as [| n IH]; intros Hn i Hi; [lia |].
  rewrite seq_S, fold_left_app. simpl.
  set (T := fold_left
              (fun t index =>
                 TransactionBuilder.setInputScript index (g t index) t)
              (seq 0 n) tx) in *.
  assert (HT : shape T = shape tx) by apply sign_fold_shape.
  rewrite nth_error_update_nth.
  destruct (Nat.eqb_spec i n) as [-> | Hne].
  - exists T. split; [exact HT |].
    destruct (nth_error (tx_ins T) n) as [x |] eqn:Hx; [reflexivity |].
    apply nth_error_None in Hx. rewrite (shape_length _ _ HT) in Hx. lia.
  - apply IH; lia.
Qed.

End Signing.

(** X11.  In the transaction [fundScript] broadcasts every input has been signed
    with the account's key and none was given a sequence number, which
    leaves it at the library's default.  The owner's outputs, the two
    addresses and the amounts are ones the builder takes. *)
Theorem fundScript_inputs_signed (swap : BtcSwap) (data : FundData)
    (handleTransactionHash : bool) (hashName : option string) (st : State)
    (unspents : list Unspent) (q : Q) (fee : Z) :
  fetchUnspents swap (history st) (getAddress (app swap)) = Normal unspents ->
  estimateFeeValue swap (history st)
    {| req_inSatoshis := true; req_address := Some (getAddress (app swap));
       req_speed := "fast"; req_method := "swap" |} = Normal q ->
  (q == inject_Z fee)%Q ->
  fundValue_of data + fee <= sum_satoshis unspents ->
  unspent_set unspents ->
  payable (app swap)
    (scriptAddress (createScript (app swap) (fund_scriptValues data) hashName)) ->
  payable (app swap) (getAddress (app swap)) ->
  0 <= fundValue_of data <= TransactionBuilder.SATOSHI_MAX ->
  sum_satoshis unspents - fundValue_of data - fee
    <= TransactionBuilder.SATOSHI_MAX ->
  exists tx : Transaction,
    In (Broadcast (toHex (app swap) tx))
       (history (snd (fundScript swap data handleTransactionHash hashName st)))
    /\ List.length (tx_ins tx) = List.length unspents
    /\ (forall i input,
          nth_error (tx_ins tx) i = Some input ->
          in_sequence input = None
          /\ exists t, shape t = shape tx
                       /\ in_script input = Some (builder_sign (app swap) t i)).
Proof.
  intros Hu Hq Hfee Hge Hset Hhtlc Howner Hfund Hchange.
  set (a := app swap) in *.
  set (htlc := scriptAddress (createScript a (fund_scriptValues data) hashName))
    in *.
  set (total := sum_satoshis unspents) in *.
  set (built :=
    TransactionBuilder.with_output (getAddress a)
      (total - fundValue_of data - fee)
      (TransactionBuilder.with_output htlc (fundValue_of data)
         (fold_left
            (fun t u => TransactionBuilder.with_input (txid u) (vout u) None t)
            unspents TransactionBuilder.new))).
  assert (Hshape : shape (sign_all_inputs a built) = shape built)
    by apply sign_all_inputs_shape.
  assert (Hbuilt : shape built
                   = (0, outpoints unspents,
                      List.map (fun _ => None) unspents,
                      [output htlc (fundValue_of data);
                       output (getAddress a)
                         (total - fundValue_of data - fee)])).
  { unfold built. rewrite !with_output_shape, with_inputs_shape. reflexivity. }
  assert (Hlen : List.length (tx_ins built) = List.length unspents).
  { pose proof Hbuilt as H. unfold shape, input_outpoints, outpoints in H.
    injection H as _ Ho _ _. apply (f_equal (@List.length _)) in Ho.
    now rewrite !length_map in Ho. }
  exists (sign_all_inputs a built). split; [| split].
  - unfold fundScript, executor, bind, call. fold a. rewrite Hu.
    rewrite (getTxFee_quote swap _ st q) by (simpl; assumption || reflexivity).
    rewrite (integerValue_comp _ _ Hfee), integerValue_inject_Z.
    fold total htlc.
    destruct (Z.ltb_spec total (fee + fundValue_of data)) as [Hlt | _];
      [lia |].
    destruct (funding_built a unspents htlc (fundValue_of data)
                (total - fundValue_of data - fee))
      as (E1 & E2 & E3); trivial; [lia |].
    unfold lift. rewrite E1. cbv beta iota. rewrite E2. cbv beta iota.
    rewrite E3. cbv beta iota.
    unfold emit, ret, TransactionBuilder.buildIncomplete. fold built.
    destruct handleTransactionHash; cbn [history feeValue List.app];
      match goal with
      | |- context [broadcastTx swap ?h ?x] =>
          destruct (broadcastTx swap h x); cbn [snd history]
      end; left; reflexivity.
  - rewrite (shape_length _ _ Hshape). exact Hlen.
  - intros i input Hi.
    assert (Hlt : (i < List.length (tx_ins built))%nat).
    { rewrite <- (shape_length _ _ Hshape). apply nth_error_Some. congruence. }
    split.
    + assert (Hs : input_sequences (sign_all_inputs a built)
                   = List.map (fun _ => None) unspents).
      { pose proof Hshape as H. rewrite Hbuilt in H. unfold shape in H.
        now injection H as _ _ Hs _. }
      unfold input_sequences in Hs.
      apply (f_equal (fun l => nth_error l i)) in Hs.
      rewrite nth_error_map, Hi in Hs. simpl in Hs.
      rewrite nth_error_map in Hs.
      destruct (nth_error unspents i); simpl in Hs; congruence.
    + destruct (sign_fold_scripts (builder_sign a) built
                  (List.length (tx_ins built)) (le_n _) i Hlt)
        as (t & Ht & Hscript).
      exists t. split; [now rewrite Hshape |].
      unfold sign_all_inputs in Hi. rewrite Hi in Hscript.
      simpl in Hscript. now injection Hscript.
Qed.

Lemma fundScript_inputs_signed_witness :
  exists tx : Transaction,
    In (Broadcast (toHex Sample.env tx))
       (history
          (snd (fundScript
                  (Sample.swap [Sample.utxo "a1" 100000000 (Some 3)] []
                     (Some (inject_Z 10000)) None false)
                  {| fund_scriptValues := Sample.values; amount := 1 # 10 |}
                  true None Sample.start)))
    /\ List.length (tx_ins tx) = 1%nat.
Proof.
  destruct (fundScript_inputs_signed
              (Sample.swap [Sample.utxo "a1" 100000000 (Some 3)] []
                 (Some (inject_Z 10000)) None false)
              {| fund_scriptValues := Sample.values; amount := 1 # 10 |}
              true None Sample.start
              [Sample.utxo "a1" 100000000 (Some 3)] (inject_Z 10000) 10000
              eq_refl eq_refl (Qeq_refl _)) as (tx & Hb & Hl & _).
  - vm_compute; discriminate.
  - apply sample_unspent_set.
  - apply sample_payable_htlc.
  - apply sample_payable_owner.
  - vm_compute. split; discriminate.
  - vm_compute; discriminate.
  - exists tx. split; [exact Hb | exact Hl].
Defined.

(** X12.  In the transaction the redeem path returns every input carries the
    P2SH input script made of the signature, the local public key and the
    bytes of the secret (its [0x] prefix removed), followed by the redeem
    script; the signature of input [i] is made over a transaction with the
    lock time, inputs, sequence numbers and outputs of the one returned.
    The outputs at the HTLC address, the lock time of a refund, the
    destination and the amount are ones the builder takes. *)
Theorem withdraw_inputs_signed (swap : BtcSwap) (data : WithdrawData)
    (isRefund : bool) (hashName : option string) (st : State)
    (unspents : list Unspent) (q : Q) (fee : Z) :
  let a := app swap in
  let s := createScript a (scriptValues data) hashName in
  fetchUnspents swap (history st) (scriptAddress s) = Normal unspents ->
  estimateFeeValue swap (history st)
    {| req_inSatoshis := true; req_address := Some (scriptAddress s);
       req_speed := "fast"; req_method := "swap" |} = Normal q ->
  (q == inject_Z fee)%Q ->
  fee <= sum_satoshis unspents ->
  (if isRefund then 0 <= lockTime (scriptValues data) <= 4294967295 else True) ->
  unspent_set unspents ->
  payable a (destAddress a data) ->
  sum_satoshis unspents - fee <= TransactionBuilder.SATOSHI_MAX ->
  exists tx : Transaction,
    fst (getWithdrawRawTransaction swap data isRefund hashName st)
    = Normal (RawTransaction (toHex a tx) (getId a tx))
    /\ List.length (tx_ins tx) = List.length unspents
    /\ (forall i input,
          nth_error (tx_ins tx) i = Some input ->
          exists raw,
            shape raw = shape tx
            /\ in_script input
               = Some (p2sh_input a (network a) (script s)
                         (script_compile a
                            [ Push (sign_hashForSignature a raw i (script s));
                              Push (getPublicKeyBuffer a);
                              Push (Buffer.from_hex
                                      (JsString.strip_0x (secret data))) ]))).
Proof.
  intros a s Hu Hq Hfee Hge Hlock Hset Hdest Hmax.
  set (built := redeem_content swap data isRefund unspents fee).
  set (g := fun raw index =>
              p2sh_input a (network a) (script s)
                (script_compile a
                   [ Push (sign_hashForSignature a raw index (script s));
                     Push (getPublicKeyBuffer a);
                     Push (Buffer.from_hex (JsString.strip_0x (secret data))) ])).
  destruct (redeem_built swap data hashName isRefund st unspents q fee
              Hu Hq Hfee Hlock Hset Hdest) as (Hrun & Hbuilt); [lia |].
  fold a s built in Hrun, Hbuilt.
  assert (Hshape : shape (sign_script_inputs a (script s) (secret data)
                            built built) = shape built)
    by apply sign_script_inputs_shape.
  assert (Hlen : List.length (tx_ins built) = List.length unspents).
  { rewrite Hshape in Hbuilt. unfold shape, input_outpoints, outpoints in Hbuilt.
    injection Hbuilt as _ Ho _ _. apply (f_equal (@List.length _)) in Ho.
    now rewrite !length_map in Ho. }
  exists (sign_script_inputs a (script s) (secret data) built built).
  split; [| split].
  - now rewrite Hrun.
  - rewrite (shape_length _ _ Hshape). exact Hlen.
  - intros i input Hi.
    assert (Hlt : (i < List.length (tx_ins built))%nat).
    { rewrite <- (shape_length _ _ Hshape). apply nth_error_Some. congruence. }
    destruct (sign_fold_scripts g built (List.length (tx_ins built))
                (le_n _) i Hlt) as (t & Ht & Hscript).
    exists t. split; [now rewrite Hshape |].
    assert (Hi' :
      nth_error
        (tx_ins
           (fold_left
              (fun t index =>
                 TransactionBuilder.setInputScript index (g t index) t)
              (seq 0 (List.length (tx_ins built))) built)) i = Some input)
      by exact Hi.
    rewrite Hi' in Hscript. simpl in Hscript. now injection Hscript.
Qed.

Lemma withdraw_inputs_signed_witness :
  exists tx : Transaction,
    fst (getWithdrawRawTransaction
           (Sample.swap [] [Sample.utxo "a1" 10000000 (Some 3)]
              (Some (inject_Z 10000)) None false)
           (Sample.withdrawal None) false None Sample.start)
    = Normal (RawTransaction (toHex Sample.env tx) (getId Sample.env tx))
    /\ List.length (tx_ins tx) = 1%nat.
Proof.
  destruct (withdraw_inputs_signed
              (Sample.swap [] [Sample.utxo "a1" 10000000 (Some 3)]
                 (Some (inject_Z 10000)) None false)
              (Sample.withdrawal None) false None Sample.start
              [Sample.utxo "a1" 10000000 (Some 3)] (inject_Z 10000) 10000
              eq_refl eq_refl (Qeq_refl _)) as (tx & Hr & Hl & _).
  - vm_compute; discriminate.
  - exact I.
  - apply sample_unspent_set.
  - apply sample_payable_owner.
  - vm_compute; discriminate.
  - exists tx. split; [exact Hr | exact Hl].
Defined.

Lemma fold_left_pointwise {A B : Type} (f g : A -> B -> A) (l : list B) :
  (forall x y, f x y = g x y) ->
  forall x, fold_left f l x = fold_left g l x.
Proof.
  intros H. induction l as [| y r IH]; intros x; simpl; [reflexivity |].
  now rewrite H, IH.
Qed.

(** X13.  The secret may be given with or without the prefix [0x]: the redeem
    transaction, and so the whole of [withdraw], is the same. *)
Theorem withdraw_secret_prefix (swap : BtcSwap) (values : ScriptValues)
    (hexSecret : string) (dest : option string) (isRefund : bool)
    (hashName : option string) (st : State) :
  JsString.strip_0x hexSecret = hexSecret ->
  withdraw swap
    {| scriptValues := values; secret := "0x" ++ hexSecret;
       destinationAddress := dest |} isRefund hashName st
  = withdraw swap
      {| scriptValues := values; secret := hexSecret;
         destinationAddress := dest |} isRefund hashName st.
Proof.
  intros Hs.
  assert (Hraw :
    getWithdrawRawTransaction swap
      {| scriptValues := values; secret := "0x" ++ hexSecret;
         destinationAddress := dest |} isRefund hashName st
    = getWithdrawRawTransaction swap
        {| scriptValues := values; secret := hexSecret;
           destinationAddress := dest |} isRefund hashName st).
  { unfold getWithdrawRawTransaction, bind, call, destAddress;
      cbn [scriptValues secret destinationAddress].
    destruct (fetchUnspents swap (history st) _); [| reflexivity].
    destruct (getTxFee swap _ st) as [[feeBN | e] st1]; [| reflexivity].
    destruct (_ <? _)%Z; [reflexivity |].
    assert (Hsign : forall tx raw,
      sign_script_inputs (app swap)
        (script (createScript (app swap) values hashName))
        ("0x" ++ hexSecret) tx raw
      = sign_script_inputs (app swap)
          (script (createScript (app swap) values hashName))
          hexSecret tx raw).
    { intros tx raw. unfold sign_script_inputs.
      apply fold_left_pointwise. intros t index. unfold _signTransaction.
      change (JsString.strip_0x ("0x" ++ hexSecret)) with hexSecret.
      now rewrite Hs. }
    unfold lift, ret.
    destruct isRefund;
      [destruct (TransactionBuilder.setLockTime _ _ _); [| reflexivity] |];
      (destruct (add_inputs _ _ _ _); [| reflexivity]);
      (destruct (TransactionBuilder.addOutput _ _ _ _); [| reflexivity]);
      now rewrite Hsign. }
  unfold withdraw, executor, bind. now rewrite Hraw.
Qed.

Lemma withdraw_secret_prefix_witness :
  withdraw
    (Sample.swap [] [Sample.utxo "a1" 10000000 (Some 3)]
       (Some (inject_Z 10000)) None true)
    {| scriptValues := Sample.values; secret := "0x" ++ "c0de";
       destinationAddress := None |} false None Sample.start
  = withdraw
      (Sample.swap [] [Sample.utxo "a1" 10000000 (Some 3)]
         (Some (inject_Z 10000)) None true)
      {| scriptValues := Sample.values; secret := "c0de";
         destinationAddress := None |} false None Sample.start.
Proof.
  apply (withdraw_secret_prefix
           (Sample.swap [] [Sample.utxo "a1" 10000000 (Some 3)]
              (Some (inject_Z 10000)) None true)
           Sample.values "c0de" None false None Sample.start).
  reflexivity.
Defined.

(* ===================================================================== *)
(** ** Letter case in [createScript] *)
(* ===================================================================== *)

Section LetterCase.

Lemma hex_digit_upper (c : ascii) :
  Buffer.hex_digit (JsString.upper_char c) = Buffer.hex_digit c.
Proof. destruct c as [[] [] [] [] [] [] [] []]; reflexivity. Qed.

Lemma hex_digit_lower (c : ascii) :
  Buffer.hex_digit (JsString.lower_char c) = Buffer.hex_digit c.
Proof. destruct c as [[] [] [] [] [] [] [] []]; reflexivity. Qed.

Lemma from_hex_map (f : ascii -> ascii) :
  (forall c, Buffer.hex_digit (f c) = Buffer.hex_digit c) ->
  forall s, Buffer.from_hex (JsString.map f s) = Buffer.from_hex s.
Proof.
  intros Hf. fix IH 1. intros [| a [| b r]]; simpl; try reflexivity.
  rewrite !Hf.
  destruct (Buffer.hex_digit a), (Buffer.hex_digit b); try reflexivity.
  f_equal. apply IH.
Qed.

Lemma upper_upper (c : ascii) :
  JsString.upper_char (JsString.upper_char c) = JsString.upper_char c.
Proof. destruct c as [[] [] [] [] [] [] [] []]; reflexivity. Qed.

Lemma upper_lower (c : ascii) :
  JsString.upper_char (JsString.lower_char c) = JsString.upper_char c.
Proof. destruct c as [[] [] [] [] [] [] [] []]; reflexivity. Qed.

Lemma map_map (f g : ascii -> ascii) (s : string) :
  JsString.map f (JsString.map g s) = JsString.map (fun c => f (g c)) s.
Proof. induction s as [| c r IH]; simpl; [reflexivity | now rewrite IH]. Qed.

Lemma map_pointwise (f g : ascii -> ascii) (s : string) :
  (forall c, f c = g c) -> JsString.map f s = JsString.map g s.
Proof.
  intros H. induction s as [| c r IH]; simpl; [reflexivity |].
  now rewrite H, IH.
Qed.

End LetterCase.

(** X14.  The hexadecimal fields of the script values are read without regard
    to letter case: upper-casing or lower-casing the secret hash and the
    two public keys gives the same redeem script and the same address. *)
Theorem createScript_hex_case (a : App) (v : ScriptValues)
    (hashName : option string) :
  createScript a
    {| secretHash := JsString.toUpperCase (secretHash v);
       ownerPublicKey := JsString.toUpperCase (ownerPublicKey v);
       recipientPublicKey := JsString.toUpperCase (recipientPublicKey v);
       lockTime := lockTime v |} hashName
  = createScript a v hashName
  /\ createScript a
       {| secretHash := JsString.toLowerCase (secretHash v);
          ownerPublicKey := JsString.toLowerCase (ownerPublicKey v);
          recipientPublicKey := JsString.toLowerCase (recipientPublicKey v);
          lockTime := lockTime v |} hashName
     = createScript a v hashName.
Proof.
  unfold createScript, JsString.toUpperCase, JsString.toLowerCase;
    cbn [secretHash ownerPublicKey recipientPublicKey lockTime].
  rewrite !(from_hex_map _ hex_digit_upper), !(from_hex_map _ hex_digit_lower).
  split; reflexivity.
Qed.

(** X15.  The hash name is read without regard to letter case as well: the
    opcode looked up is [OP_] followed by the name in upper case. *)
Theorem createScript_hashName_case (a : App) (v : ScriptValues) (h : string) :
  createScript a v (Some (JsString.toUpperCase h)) = createScript a v (Some h)
  /\ createScript a v (Some (JsString.toLowerCase h))
     = createScript a v (Some h).
Proof.
  unfold createScript, JsString.toUpperCase, JsString.toLowerCase.
  rewrite !map_map.
  rewrite (map_pointwise _ JsString.upper_char h upper_upper).
  rewrite (map_pointwise (fun c => JsString.upper_char (JsString.lower_char c))
             JsString.upper_char h upper_lower).
  split; reflexivity.
Qed.

(* ===================================================================== *)
(** ** The constructor, the fee in whole coins, the balance *)
(* ===================================================================== *)

(** X16.  [new BtcSwap(options)] succeeds exactly when [fetchBalance],
    [fetchUnspents] and [broadcastTx] are all given; the instance then
    starts with an empty history, answers fee requests with 0 when it has
    no oracle and knows no transaction when it has no [fetchTxInfo]. *)
Theorem constructor_required (options : Options) (a : App) :
  ((exists swap st, constructor options a = Normal (swap, st))
   <-> opt_fetchBalance options <> None
       /\ opt_fetchUnspents options <> None
       /\ opt_broadcastTx options <> None)
  /\ (forall swap st,
        constructor options a = Normal (swap, st) ->
        app swap = a
        /\ history st = []
        /\ checkWithdraw swap = opt_checkWithdraw options
        /\ (opt_estimateFeeValue options = None ->
            forall hist request,
              estimateFeeValue swap hist request = Normal 0%Q)
        /\ (opt_fetchTxInfo options = None ->
            forall hist id, fetchTxInfo swap hist id = Normal None)).
Proof.
  unfold constructor.
  destruct (opt_fetchBalance options) as [fb |];
    [| split; [split; [intros (? & ? & ?); discriminate
                      | intros (H & _); contradiction]
              | intros ? ? ?; discriminate]].
  destruct (opt_fetchUnspents options) as [fu |];
    [| split; [split; [intros (? & ? & ?); discriminate
                      | intros (_ & H & _); contradiction]
              | intros ? ? ?; discriminate]].
  destruct (opt_broadcastTx options) as [bt |];
    [| split; [split; [intros (? & ? & ?); discriminate
                      | intros (_ & _ & H); contradiction]
              | intros ? ? ?; discriminate]].
  split.
  - split; [intros _; repeat split; discriminate |].
    intros _. eexists _, _. reflexivity.
  - intros swap st H. injection H as <- <-. cbn.
    repeat split; intros ->; reflexivity.
Qed.

Lemma constructor_required_witness :
  app (fst (Sample.built Sample.bare)) = Sample.env
  /\ history (snd (Sample.built Sample.bare)) = [].
Proof.
  destruct (constructor_required Sample.bare Sample.env) as [_ H].
  destruct (H (fst (Sample.built Sample.bare))
              (snd (Sample.built Sample.bare)) eq_refl) as (Ha & Hh & _).
  split; [exact Ha | exact Hh].
Defined.

(** A quote from 1 satoshi to 10^8 satoshis is, in coins with 20 decimal
    places, above 0 and at most 1. *)
Lemma dividedBy_1e8_unit (q : Q) :
  (1 <= q)%Q -> (q <= inject_Z 100000000)%Q ->
  (0 < BigNumber.dividedBy q BigNumber._1e8
   /\ BigNumber.dividedBy q BigNumber._1e8 <= 1)%Q.
Proof.
  intros Hone Hhi.
  unfold BigNumber.dividedBy, BigNumber.ROUNDING_MODE, BigNumber._1e8.
  rewrite Qred_correct.
  change (inject_Z (10 ^ BigNumber.DECIMAL_PLACES))
    with (inject_Z 100000000000000000000).
  set (z := (q / inject_Z 100000000 * inject_Z 100000000000000000000)%Q).
  assert (Ez : (z == q * inject_Z 1000000000000)%Q)
    by (unfold z; field; discriminate).
  assert (Hz : (inject_Z 1000000000000 <= z
                /\ z <= inject_Z 100000000000000000000)%Q).
  { rewrite Ez. split.
    - setoid_replace (inject_Z 1000000000000)
        with (1 * inject_Z 1000000000000)%Q at 1 by ring.
      apply Qmult_le_compat_r; [assumption | discriminate].
    - setoid_replace (inject_Z 100000000000000000000)
        with (inject_Z 100000000 * inject_Z 1000000000000)%Q
        by reflexivity.
      apply Qmult_le_compat_r; [assumption | discriminate]. }
  destruct (round_half_up_near z) as [Hl Hu].
  set (r := BigNumber.round BigNumber.ROUND_HALF_UP z) in *. clearbody r.
  assert (H0 : 1 <= r).
  { assert (H : (inject_Z 0 < inject_Z r)%Q).
    { change (inject_Z 0) with 0%Q.
      assert (1 <= inject_Z 1000000000000)%Q by discriminate. lra. }
    rewrite <- Zlt_Qlt in H. lia. }
  assert (H1 : r <= 100000000000000000000).
  { assert (H : (inject_Z r < inject_Z (100000000000000000000 + 1))%Q)
      by (rewrite inject_Z_plus; change (inject_Z 1) with 1%Q; lra).
    rewrite <- Zlt_Qlt in H. lia. }
  rewrite Zle_Qle in H0, H1. change (inject_Z 1) with 1%Q in H0.
  split.
  - apply Qlt_shift_div_l; [reflexivity | lra].
  - apply Qle_shift_div_r; [reflexivity | lra].
Qed.

(** X17.  Asked for the fee in whole coins ([inSatoshis] false), [getTxFee]
    divides the oracle's quote by 10^8 and rounds up to 0 decimal places:
    every quote from 1 satoshi to 10^8 satoshis is answered with 1.  The
    field [feeValue] takes the quote in satoshis all the same. *)
Theorem getTxFee_whole_coins (swap : BtcSwap) (args : TxFeeArgs) (st : State)
    (q : Q) :
  estimateFeeValue swap (history st)
    {| req_inSatoshis := true;
       req_address := arg_address args;
       req_speed := match arg_speed args with Some s => s | None => "fast" end;
       req_method := "swap" |} = Normal q ->
  arg_inSatoshis args = false ->
  (1 <= q)%Q -> (q <= inject_Z 100000000)%Q ->
  getTxFee swap args st
  = (Normal 1%Q, {| feeValue := q; history := history st |}).
Proof.
  intros Hq Hs Hone Hhi.
  assert (Hlo : (0 < q)%Q) by lra.
  unfold getTxFee, bind, call, set_feeValue, ret. rewrite Hq, Hs.
  f_equal. f_equal.
  destruct (dividedBy_1e8_unit q Hone Hhi) as [Hpos Hle].
  set (x := BigNumber.dividedBy q BigNumber._1e8) in *. clearbody x.
  unfold BigNumber.dp0, BigNumber.round.
  rewrite (Qle_bool_true 0 x) by lra.
  pose proof (Qle_ceiling x) as Hc1. pose proof (Qceiling_lt x) as Hc2.
  assert (H1 : (inject_Z 0 < inject_Z (Qceiling x))%Q)
    by (change (inject_Z 0) with 0%Q; lra).
  assert (H2 : (inject_Z (Qceiling x - 1) < inject_Z 1)%Q)
    by (change (inject_Z 1) with 1%Q; lra).
  rewrite <- Zlt_Qlt in H1, H2.
  replace (Qceiling x) with 1 by lia. reflexivity.
Qed.

Lemma getTxFee_whole_coins_witness :
  getTxFee (Sample.swap [] [] (Some (inject_Z 546)) None false)
    {| arg_inSatoshis := false; arg_size := None; arg_speed := None;
       arg_address := None |} Sample.start
  = (Normal 1%Q, {| feeValue := inject_Z 546; history := [] |}).
Proof.
  apply (getTxFee_whole_coins
           (Sample.swap [] [] (Some (inject_Z 546)) None false)
           {| arg_inSatoshis := false; arg_size := None; arg_speed := None;
              arg_address := None |} Sample.start (inject_Z 546));
    reflexivity || (vm_compute; discriminate).
Defined.

(** X18.  [getBalance] answers the sum of the satoshis at the address, 0 for an
    address that holds nothing, and leaves the state alone; given script
    values it answers for the address of their script. *)
Theorem getBalance_total (swap : BtcSwap) (data : string + ScriptValues)
    (hashName : option string) (st : State) (unspents : list Unspent) :
  let address :=
    match data with
    | inl address => address
    | inr values => scriptAddress (createScript (app swap) values hashName)
    end in
  fetchUnspents swap (history st) address = Normal unspents ->
  getBalance swap data hashName st = (Normal (sum_satoshis unspents), st)
  /\ getBalance swap (inl address) hashName st
     = getBalance swap data hashName st
  /\ (unspents = [] -> getBalance swap data hashName st = (Normal 0, st)).
Proof.
  intros address Hu.
  assert (H : getBalance swap data hashName st
              = (Normal (sum_satoshis unspents), st)).
  { unfold getBalance, bind, call, ret. fold address. rewrite Hu.
    destruct (Nat.eqb_spec (List.length unspents) 0) as [Hl | _].
    - destruct unspents; [reflexivity | discriminate].
    - destruct (Z.eqb_spec (sum_satoshis unspents) 0) as [-> | _];
        reflexivity. }
  split; [exact H |]. split.
  - destruct data; reflexivity.
  - intros ->. exact H.
Qed.

Lemma getBalance_total_witness :
  getBalance (Sample.swap [] [Sample.utxo "a1" 7 None; Sample.utxo "a2" 5 None]
                None None false)
    (inr Sample.values) None Sample.start
  = (Normal 12, Sample.start).
Proof.
  destruct (getBalance_total
              (Sample.swap [] [Sample.utxo "a1" 7 None; Sample.utxo "a2" 5 None]
                 None None false)
              (inr Sample.values) None Sample.start
              [Sample.utxo "a1" 7 None; Sample.utxo "a2" 5 None] eq_refl)
    as (H & _).
  exact H.
Defined.

(* ===================================================================== *)
(** ** Failures of the gateway *)
(* ===================================================================== *)

(** X19.  When [fetchUnspents] is rejected, every method that starts from the
    unspent outputs gives the error back: [checkScript], [getBalance] and
    the redeem path throw it, [fundScript] rejects with it unchanged and
    [withdraw] with its translation by [errorMessage]; the state is
    untouched: [feeValue] keeps its value and nothing has been sent. *)
Theorem fetchUnspents_failure (swap : BtcSwap) (e : JsError) (st : State)
    (values : ScriptValues) (expected : Expected) (fund : FundData)
    (data : WithdrawData) (callback isRefund : bool)
    (hashName : option string) :
  (forall address, fetchUnspents swap (history st) address = Throw e) ->
  checkScript swap values expected hashName st = (Throw e, st)
  /\ getBalance swap (inr values) hashName st = (Throw e, st)
  /\ getWithdrawRawTransaction swap data isRefund hashName st = (Throw e, st)
  /\ fundScript swap fund callback hashName st
     = (Rejected (ReasonError e), st)
  /\ withdraw swap data isRefund hashName st
     = (Rejected (errorMessage e), st).
Proof.
  intros H.
  unfold checkScript, getBalance, withdraw, getWithdrawRawTransaction,
    fundScript, executor, bind, call.
  rewrite !H. repeat split.
Qed.

Lemma fetchUnspents_failure_witness :
  fundScript (fst (Sample.built (Sample.offline (Error "ECONNREFUSED"))))
    {| fund_scriptValues := Sample.values; amount := 1 # 10 |}
    true None Sample.start
  = (Rejected (ReasonError (Error "ECONNREFUSED")), Sample.start)
  /\ withdraw (fst (Sample.built (Sample.offline (Error "ECONNREFUSED"))))
       (Sample.withdrawal None) false None Sample.start
     = (Rejected (ReasonError (Error "ECONNREFUSED")), Sample.start).
Proof.
  destruct (fetchUnspents_failure
              (fst (Sample.built (Sample.offline (Error "ECONNREFUSED"))))
              (Error "ECONNREFUSED") Sample.start Sample.values
              {| exp_value := 1; exp_lockTime := 0;
                 exp_recipientPublicKey := ""; exp_confidence := None |}
              {| fund_scriptValues := Sample.values; amount := 1 # 10 |}
              (Sample.withdrawal None) true false None)
    as (_ & _ & _ & Hf & Hw).
  - intros address. reflexivity.
  - split; [exact Hf | exact Hw].
Defined.

(** X20.  A fee oracle that is rejected stops funding and redeeming before
    anything is built or sent, and leaves [feeValue] as it was; the
    confidence filter, which asks the same oracle, carries on and uses the
    confirmations instead. *)
Theorem oracle_failure (swap : BtcSwap) (e : JsError) (st : State)
    (fund : FundData) (data : WithdrawData) (callback isRefund : bool)
    (hashName : option string) (at_owner at_htlc unspents : list Unspent)
    (c : option Q) :
  (forall request, estimateFeeValue swap (history st) request = Throw e) ->
  fetchUnspents swap (history st) (getAddress (app swap)) = Normal at_owner ->
  fetchUnspents swap (history st) (htlc_address swap data hashName)
    = Normal at_htlc ->
  fundScript swap fund callback hashName st = (Rejected (ReasonError e), st)
  /\ getWithdrawRawTransaction swap data isRefund hashName st = (Throw e, st)
  /\ filterConfidentUnspents swap unspents c st
     = (Normal
          (filter
             (fun u =>
                Qle_bool match c with Some l => l | None => 95 # 100 end
                  (confirmationsToConfidence (confirmations u)))
             unspents),
        st).
Proof.
  intros He Ho Hh. split; [| split].
  - unfold fundScript, executor, bind, call. rewrite Ho.
    rewrite (getTxFee_throws swap _ st e) by apply He. reflexivity.
  - unfold getWithdrawRawTransaction, bind, call.
    unfold htlc_address in Hh. rewrite Hh.
    rewrite (getTxFee_throws swap _ st e) by apply He. reflexivity.
  - unfold filterConfidentUnspents, bind, ret.
    change default_confidence with (95 # 100).
    set (level := match c with Some l => l | None => 95 # 100 end).
    assert (Hone : forall u,
      fetchConfidence swap level u st
      = (Normal (confirmationsToConfidence (confirmations u)), st)).
    { intros u. unfold fetchConfidence, BigNumber.isGreaterThanOrEqualTo.
      destruct (Qle_bool level (confirmationsToConfidence (confirmations u)));
        [reflexivity |].
      unfold try_catch, bind, call, throw, ret.
      destruct (fetchTxInfo swap (history st) (txid u)) as [[i |] | e'];
        try reflexivity.
      destruct (fees i) as [f |]; [| reflexivity].
      destruct (Number_truthy f); [| reflexivity].
      unfold feesToConfidence, bind.
      rewrite (getTxFee_throws swap _ st e) by apply He. reflexivity. }
    assert (Hrun : mapM (fetchConfidence swap level) unspents st
                   = (Normal (List.map
                                (fun u => confirmationsToConfidence
                                            (confirmations u)) unspents), st)).
    { induction unspents as [| u r IH]; simpl; [reflexivity |].
      unfold bind, ret. rewrite Hone, IH. reflexivity. }
    rewrite Hrun. f_equal. f_equal.
    clear Hrun. induction unspents as [| u r IH]; simpl; [reflexivity |].
    unfold BigNumber.isGreaterThanOrEqualTo at 1. simpl snd.
    destruct (Qle_bool level (confirmationsToConfidence (confirmations u)));
      simpl; now rewrite IH.
Qed.

Lemma oracle_failure_witness :
  fundScript (fst (Sample.built (Sample.quoteless (Error "timeout"))))
    {| fund_scriptValues := Sample.values; amount := 1 # 100000000 |}
    false None Sample.start
  = (Rejected (ReasonError (Error "timeout")), Sample.start)
  /\ filterConfidentUnspents
       (fst (Sample.built (Sample.quoteless (Error "timeout"))))
       [Sample.utxo "a1" 7 (Some 3); Sample.utxo "f1" 5 None] None Sample.start
     = (Normal [Sample.utxo "a1" 7 (Some 3)], Sample.start).
Proof.
  destruct (oracle_failure
              (fst (Sample.built (Sample.quoteless (Error "timeout"))))
              (Error "timeout") Sample.start
              {| fund_scriptValues := Sample.values;
                 amount := 1 # 100000000 |}
              (Sample.withdrawal None) false false None
              [Sample.utxo "a1" 7 (Some 3)] [Sample.utxo "a1" 7 (Some 3)]
              [Sample.utxo "a1" 7 (Some 3); Sample.utxo "f1" 5 None] None)
    as (Hf & _ & Hc).
  - intros request. reflexivity.
  - reflexivity.
  - reflexivity.
  - split; [exact Hf | exact Hc].
Defined.

(* ===================================================================== *)
(** ** The trade tickers *)
(* ===================================================================== *)


(* ===================================================================== *)
(** ** The message of an insufficient total *)
(* ===================================================================== *)

Section LessThanFee.

Lemma to_uint_normal (p : positive) :
  Decimal.unorm (Pos.to_uint p) = Pos.to_uint p.
Proof.
  rewrite <- (DecimalPos.Unsigned.to_of (Pos.to_uint p)).
  now rewrite DecimalPos.Unsigned.of_to.
Qed.

Lemma to_uint_no_leading_zero (p : positive) (u : Decimal.uint) :
  Pos.to_uint p <> Decimal.D0 u.
Proof.
  intros H. pose proof (to_uint_normal p) as Hn. rewrite H in Hn.
  unfold Decimal.unorm in Hn. simpl in Hn.
  destruct (Decimal.nzhead u) eqn:Hz;
    try (apply (DecimalFacts.nzhead_nonzero u u); congruence).
  apply (DecimalPos.Unsigned.to_uint_nonzero p). congruence.
Qed.

Lemma string_of_uint_numeric (u : Decimal.uint) (c : ascii) :
  In c (list_ascii_of_string (NilEmpty.string_of_uint u)) -> JsString.numeric c.
Proof.
  induction u; simpl; intros H; try contradiction;
    (destruct H as [<- | H]; [left; vm_compute; split; discriminate | auto]).
Qed.

Lemma of_Z_numeric (n : Z) (c : ascii) :
  In c (list_ascii_of_string (JsString.of_Z n)) -> JsString.numeric c.
Proof.
  unfold JsString.of_Z, NilZero.string_of_int, NilZero.string_of_uint.
  destruct n as [| p | p]; simpl.
  - intros [<- | []]. left; vm_compute; split; discriminate.
  - destruct (Pos.to_uint p) eqn:E;
      try (rewrite <- E; apply string_of_uint_numeric).
    simpl. intros [<- | []]. left; vm_compute; split; discriminate.
  - intros [<- | H]; [right; reflexivity |]. revert H.
    destruct (Pos.to_uint p) eqn:E;
      try (rewrite <- E; apply string_of_uint_numeric).
    simpl. intros [<- | []]. left; vm_compute; split; discriminate.
Qed.

Lemma list_ascii_append (s t : string) :
  list_ascii_of_string (s ++ t)
  = (list_ascii_of_string s ++ list_ascii_of_string t)%list.
Proof. induction s as [| c r IH]; simpl; [reflexivity | now rewrite IH]. Qed.

Lemma includes_absent (c : ascii) (p s : string) :
  ~ In c (list_ascii_of_string s) ->
  JsString.includes (String c p) s = false.
Proof.
  induction s as [| x r IH]; intros H; simpl; [reflexivity |].
  destruct (ascii_dec c x) as [-> | _].
  - exfalso. apply H. left. reflexivity.
  - apply IH. intros Hin. apply H. right. exact Hin.
Qed.

Lemma prefix_cancel (a b c : string) :
  prefix (a ++ b) (a ++ c) = prefix b c.
Proof.
  induction a as [| x r IH]; simpl; [reflexivity |].
  destruct (ascii_dec x x); [exact IH | contradiction].
Qed.

Lemma prefix_one (c x : ascii) (s : string) :
  prefix (String c "") (String x s) = if ascii_dec c x then true else false.
Proof. cbn [prefix]. destruct (ascii_dec c x), s; reflexivity. Qed.

Lemma digit_not_zero (u : Decimal.uint) (rest : string) :
  u <> Decimal.Nil -> (forall v, u <> Decimal.D0 v) ->
  prefix "0" (NilEmpty.string_of_uint u ++ rest) = false.
Proof.
  intros Hn Hz.
  destruct u as [| u | u | u | u | u | u | u | u | u | u];
    try contradiction; try (exfalso; apply (Hz u); reflexivity);
    cbn [NilEmpty.string_of_uint append]; rewrite prefix_one;
    match goal with
    | |- (if ascii_dec ?a ?b then _ else _) = _ =>
        destruct (ascii_dec a b); [discriminate | reflexivity]
    end.
Qed.

(** The first character of a number written out is 0 only for 0. *)
Lemma of_Z_leading_zero (n : Z) (rest : string) :
  prefix "0" (JsString.of_Z n ++ rest) = (n =? 0)%Z.
Proof.
  unfold JsString.of_Z, NilZero.string_of_int, NilZero.string_of_uint.
  destruct n as [| p | p]; cbn [Z.to_int Z.eqb].
  - change (prefix "0" (String "0" rest) = true). rewrite prefix_one.
    destruct (ascii_dec "0" "0"); [reflexivity | contradiction].
  - pose proof (to_uint_no_leading_zero p) as Hz.
    pose proof (DecimalPos.Unsigned.to_uint_nonnil p) as Hn.
    replace (match Pos.to_uint p with
             | Decimal.Nil => "0"
             | _ => NilEmpty.string_of_uint (Pos.to_uint p)
             end) with (NilEmpty.string_of_uint (Pos.to_uint p))
      by (destruct (Pos.to_uint p); [contradiction | reflexivity ..]).
    apply digit_not_zero; assumption.
  - change (prefix "0"
              (String "-" (NilZero.string_of_uint (Pos.to_uint p) ++ rest))
            = false).
    rewrite prefix_one.
    destruct (ascii_dec "0" "-"); [discriminate | reflexivity].
Qed.

End LessThanFee.

(** X22.  The error the redeem path throws when the total is below the fee
    reaches the caller of [withdraw] as 'Address is empty' when the total
    is 0 and as 'Less than fee' for every other total. *)
Theorem errorMessage_less_than_fee (total fee : Z) :
  errorMessage (less_than_fee total fee)
  = ReasonString (if (total =? 0)%Z then "Address is empty"
                  else "Less than fee").
Proof.
  unfold errorMessage, less_than_fee, Error, JsString.RegExp_test;
    cbn [res_text message].
  set (tail := " < " ++ JsString.of_Z fee).
  change ("Total less than fee: " ++ JsString.of_Z total ++ tail)
    with ("Total less than fee" ++ (": " ++ JsString.of_Z total ++ tail)).
  rewrite includes_prefix.
  change ("Total less than fee" ++ (": " ++ JsString.of_Z total ++ tail))
    with (String "T" ("otal less than fee: " ++ JsString.of_Z total ++ tail)).
  assert (Habsent :
    ~ In "T"%char
        (list_ascii_of_string
           ("otal less than fee: " ++ JsString.of_Z total ++ tail))).
  { unfold tail. rewrite !list_ascii_append, !in_app_iff.
    intros [H | [H | [H | H]]].
    - simpl in H. repeat (destruct H as [H | H]; [discriminate |]). exact H.
    - apply of_Z_numeric in H. destruct H as [[_ H] | H];
        [apply H; reflexivity | discriminate].
    - simpl in H. repeat (destruct H as [H | H]; [discriminate |]). exact H.
    - apply of_Z_numeric in H. destruct H as [[_ H] | H];
        [apply H; reflexivity | discriminate]. }
  change (JsString.includes "Total less than fee: 0"
            (String "T"
               ("otal less than fee: " ++ JsString.of_Z total ++ tail)))
    with (prefix ("otal less than fee: " ++ "0")
            ("otal less than fee: " ++ (JsString.of_Z total ++ tail))
          || JsString.includes "Total less than fee: 0"
               ("otal less than fee: " ++ JsString.of_Z total ++ tail)).
  rewrite (includes_absent _ _ _ Habsent), orb_false_r.
  rewrite prefix_cancel, of_Z_leading_zero.
  destruct (total =? 0)%Z; reflexivity.
Qed.
